(** * Super_Store_Sales: scripts/create_final_csv.py

    A shallow embedding of the script that splits the transformed
    Superstore dataset into the dimension files (customers.csv,
    products.csv, DimShipMode.csv) and the fact file (FactSales.csv),
    followed by the properties of the star-schema projection.

    The script is a straight-line pandas program.  The embedding has three
    layers:
    - the data the script handles: cell values, series, data frames;
    - the pandas operations the script calls, as functions on that data;
    - the script itself, section by section, in a small monad that records
      what is printed and which files are written, and carries Python
      exceptions.

    Two things are left open, as parameters of a run: the world outside
    (the file system, the input file, the CSV writer), and what pandas
    makes of a date column (how it reads a cell, and whether the column
    as a whole converts). *)

From Stdlib Require Import Ascii.
From stdpp Require Import base option list strings numbers gmap pretty.

Local Open Scope string_scope.
Local Open Scope list_scope.

(** ** Cell values *)

(** A point in time as pandas holds it after [pd.to_datetime]: a calendar
    date and the time within the day (in nanoseconds). *)
Record Timestamp := mkTimestamp {
  year : Z;
  month : Z;
  day : Z;
  time_of_day : Z
}.

(** What a cell of a frame can hold: [NaN] is the missing value [read_csv]
    produces for an empty field, [NaT] the missing value of a datetime
    column.  Finite floats are dyadic rationals, hence rationals.
    [Datetime] is a cell of a datetime column; [PyDatetime] is a Python
    datetime object, which is what an object column holds when pandas
    could read dates but could not make a datetime column of them (its
    UTC offset is not modelled). *)
Inductive Value :=
| NaN
| NaT
| Str (s : string)
| Int (z : Z)
| Float (q : Qcanon.Qc)
| Datetime (t : Timestamp)
| PyDatetime (t : Timestamp).

#[global] Instance Timestamp_eq_dec : EqDecision Timestamp.
Proof. solve_decision. Defined.

#[global] Instance Value_eq_dec : EqDecision Value.
Proof. solve_decision. Defined.

(** [isnull]: the values pandas counts as missing. *)
Definition isnull (v : Value) : bool :=
  match v with
  | NaN | NaT => true
  | _ => false
  end.

Definition notnull (v : Value) : bool := negb (isnull v).

(** ** Series and data frames *)

Abbreviation Series := (list Value).
Abbreviation Row := (list Value).

(** A frame: its column labels in order, and its records in order; the
    cell of a record for the i-th label is the i-th value of the record. *)
Record DataFrame := mkDataFrame {
  columns : list string;
  rows : list Row
}.

#[global] Instance DataFrame_eq_dec : EqDecision DataFrame.
Proof. solve_decision. Defined.

(** [len(df)] *)
Definition len (df : DataFrame) : nat := length (rows df).

(** [Index.get_loc]: the position of a label among the columns. *)
Definition get_loc (c : string) (cols : list string) : option nat :=
  fst <$> list_find (λ x, x = c) cols.

(** The cell of a record at a position; [read_csv] fills the fields a short
    record lacks with [NaN], and so does the accessor. *)
Definition iloc (r : Row) (i : nat) : Value := default NaN (r !! i).

(** Writing one cell of a record (padding a short record with [NaN]). *)
Definition set_cell (i : nat) (v : Value) (r : Row) : Row :=
  <[i := v]> (r ++ replicate (S i - length r) NaN).

(** [col in df.columns] *)
Definition has_column (df : DataFrame) (c : string) : bool :=
  bool_decide (c ∈ columns df).

(** [df[c]] for one label: the series of that column, or nothing where
    pandas raises [KeyError]. *)
Definition getitem (df : DataFrame) (c : string) : option Series :=
  i ← get_loc c (columns df);
  Some ((λ r, iloc r i) <$> rows df).

(** [df[cols]] for a list of labels: the frame of those columns, in the
    order of the list; nothing where pandas raises [KeyError]. *)
Definition getitem_list (df : DataFrame) (cols : list string)
  : option DataFrame :=
  locs ← mapM (λ c, get_loc c (columns df)) cols;
  Some {| columns := cols; rows := (λ r, iloc r <$> locs) <$> rows df |}.

(** [df[c] = s]: replaces the column when the label exists, appends a new
    column otherwise.  The number of records never changes. *)
Definition setitem (df : DataFrame) (c : string) (s : Series) : DataFrame :=
  match get_loc c (columns df) with
  | Some i =>
      {| columns := columns df;
         rows := imap (λ k r, set_cell i (default NaN (s !! k)) r) (rows df) |}
  | None =>
      {| columns := columns df ++ [c];
         rows := imap (λ k r, set_cell (length (columns df))
                                 (default NaN (s !! k)) r) (rows df) |}
  end.

(** [Series.isnull().any()] *)
Definition isnull_any (s : Series) : bool := existsb isnull s.

(** ** [pd.to_datetime(..., errors='coerce')] *)

Section ToDatetime.
(** How pandas reads one cell as a date is not part of the script.  The
    parser is a parameter; it sees the whole column as well, since pandas
    may settle on one format for a column from its first values. *)
Variable parser : Series → Value → option Timestamp.

(** With [errors='coerce'], a value that does not parse becomes [NaT];
    reading a cell raises no exception. *)
Definition to_datetime_value (s : Series) (v : Value) : Value :=
  match v with
  | NaN | NaT => NaT
  | Datetime t => Datetime t
  | Str _ | Int _ | Float _ | PyDatetime _ =>
      match parser s v with
      | Some t => Datetime t
      | None => NaT
      end
  end.

(** The cells of the column when pandas makes a datetime column of it.
    Whether it does is settled for the column as a whole, see
    [pd_to_datetime] below. *)
Definition to_datetime (s : Series) : Series :=
  to_datetime_value s <$> s.
End ToDatetime.

(** What [pd.to_datetime] finds about a column as a whole, once its cells
    are read.  Values that carry different UTC offsets do not fit one
    datetime column: pandas 2 then hands back an object column of Python
    datetimes, pandas 3 raises [ValueError], [errors='coerce']
    notwithstanding.  In every other case the column converts. *)
Inductive Verdict :=
| Converts
| KeepsObjects
| Refuses (msg : string).

(** The pandas at hand, as far as dates go: how it reads a cell, and what
    it finds about a column. *)
Record Pandas := mkPandas {
  parse_cell : Series → Value → option Timestamp;
  verdict : Series → Verdict
}.

(** A pandas for which every column converts: the case of a file whose
    dates carry no UTC offsets, or all the same. *)
Definition converting (parser : Series → Value → option Timestamp)
  : Pandas :=
  {| parse_cell := parser; verdict := λ _, Converts |}.

(** The cell of an object column for a cell of a datetime column. *)
Definition as_object (v : Value) : Value :=
  match v with
  | Datetime t => PyDatetime t
  | _ => v
  end.

(** Some cell of the column reads as a date.  When none does there are no
    offsets to differ, and the column converts (to a column of [NaT]). *)
Definition reads_a_date (pd : Pandas) (s : Series) : bool :=
  existsb notnull (to_datetime (parse_cell pd) s).

(** [pd.to_datetime] makes a datetime column of the column [s]. *)
Definition converts (pd : Pandas) (s : Series) : bool :=
  match verdict pd s with
  | Converts => true
  | _ => negb (reads_a_date pd s)
  end.

(** ** [Series.dt.strftime] *)

(** The decimal digits of a number, padded with zeros up to a width, as
    Python's format [0<width>d] writes them: the sign, when there is one,
    comes first and counts in the width. *)
Definition zero_pad (width : nat) (n : Z) : string :=
  let ds := pretty (Z.to_N (Z.abs n)) in
  let sign := if decide (n < 0)%Z then "-" else "" in
  sign +:+
  String.string_of_list_ascii
    (replicate (width - String.length sign - String.length ds) "0"%char)
  +:+ ds.

(** One directive of a format string; the script uses [%Y], [%m], [%d]. *)
Definition directive (c : ascii) (t : Timestamp) : string :=
  if decide (c = "Y"%char) then zero_pad 4 (year t)
  else if decide (c = "m"%char) then zero_pad 2 (month t)
  else if decide (c = "d"%char) then zero_pad 2 (day t)
  else String "%" (String c "").

(** [Timestamp.strftime(fmt)]: directives are expanded, every other
    character stands for itself. *)
Fixpoint strftime (fmt : string) (t : Timestamp) : string :=
  match fmt with
  | "" => ""
  | String c rest =>
      match rest with
      | String d rest' =>
          if decide (c = "%"%char) then directive d t +:+ strftime rest' t
          else String c (strftime rest t)
      | "" => String c ""
      end
  end.

(** The [.dt] accessor exists only on a datetime column.  pandas goes by
    the dtype of the column; here a column is a datetime column when it
    holds [Datetime] and [NaT] cells only.  The two agree on every column
    [pd.to_datetime] hands back, and the script applies [.dt] to such
    columns only: a datetime column has cells of these two kinds, and an
    object column of dates has a [PyDatetime] cell.  (They differ on a
    column without cells that was never converted, which is an object
    column for pandas.) *)
Definition is_datetimelike (s : Series) : bool :=
  forallb (λ v, match v with Datetime _ | NaT => true | _ => false end) s.

(** A missing date formats to a missing value. *)
Definition strftime_value (fmt : string) (v : Value) : Value :=
  match v with
  | Datetime t => Str (strftime fmt t)
  | _ => NaN
  end.

(** [s.dt.strftime(fmt)]; nothing where [.dt] raises [AttributeError]. *)
Definition dt_strftime (s : Series) (fmt : string) : option Series :=
  if is_datetimelike s then Some (strftime_value fmt <$> s) else None.

(** ** [Series.unique], [pd.DataFrame], [DataFrame.dropna] *)

(** [Series.unique()]: the distinct values in the order in which they first
    appear; pandas walks the series with a table of the values met so far.
    Missing values are equal to each other here, so [NaN] is kept once. *)
Fixpoint unique_from (seen : list Value) (s : Series) : Series :=
  match s with
  | [] => []
  | v :: s' =>
      if decide (v ∈ seen) then unique_from seen s'
      else v :: unique_from (v :: seen) s'
  end.

Definition unique (s : Series) : Series := unique_from [] s.

(** [pd.DataFrame(values, columns=[c])]: a frame of one column. *)
Definition DataFrame_of_values (values : Series) (c : string) : DataFrame :=
  {| columns := [c]; rows := (λ v, [v]) <$> values |}.

(** [df.dropna()]: the records without a missing cell. *)
Definition dropna (df : DataFrame) : DataFrame :=
  {| columns := columns df;
     rows := filter (λ r, Forall (λ i, notnull (iloc r i))
                             (seq 0 (length (columns df))))
                    (rows df) |}.

(** [df.reset_index(drop=True)]: records are numbered by position in this
    model, so renumbering them changes nothing. *)
Definition reset_index (df : DataFrame) : DataFrame := df.

(** ** [DataFrame.drop_duplicates(subset=...)] *)

Section Duplicated.
Context {K : Type} `{EqDecision K}.

(** [duplicated(keep='first')]: for each key, whether an equal key came
    earlier. *)
Fixpoint duplicated_from (seen : list K) (keys : list K) : list bool :=
  match keys with
  | [] => []
  | k :: ks =>
      if decide (k ∈ seen) then true :: duplicated_from seen ks
      else false :: duplicated_from (k :: seen) ks
  end.

Definition duplicated (keys : list K) : list bool := duplicated_from [] keys.
End Duplicated.

(** [l[mask]]: the elements whose mask bit is set. *)
Definition boolean_mask {A} (mask : list bool) (l : list A) : list A :=
  snd <$> filter (λ p, p.1 = true) (zip mask l).

(** The key of a record: its cells at the positions of the subset. *)
Definition key_at (locs : list nat) (r : Row) : list Value := iloc r <$> locs.

(** [df.drop_duplicates(subset)] is [df[~df.duplicated(subset)]]: of the
    records that agree on the columns of the subset only the first stays.
    Nothing where pandas raises [KeyError] (a label of the subset is not a
    column). *)
Definition drop_duplicates (subset : list string) (df : DataFrame)
  : option DataFrame :=
  locs ← mapM (λ c, get_loc c (columns df)) subset;
  let mask := negb <$> duplicated (key_at locs <$> rows df) in
  Some {| columns := columns df; rows := boolean_mask mask (rows df) |}.

(** ** [dict(zip(...))] and [DataFrame.rename(columns=...)] *)

(** [dict(pairs)]: a later pair with the same key overrides an earlier. *)
Definition dict (pairs : list (string * string)) : gmap string string :=
  foldl (λ m p, <[p.1 := p.2]> m) ∅ pairs.

(** [df.rename(columns=m)]: every label that is a key of [m] is replaced by
    its value, the others stay. *)
Definition rename (m : gmap string string) (df : DataFrame) : DataFrame :=
  {| columns := (λ c, default c (m !! c)) <$> columns df; rows := rows df |}.

(** ** Python strings: [repr], [os.path.join] *)

Definition newline : string := String (ascii_of_nat 10) "".
Definition backslash : ascii := ascii_of_nat 92.
Definition double_quote : ascii := ascii_of_nat 34.

Definition contains (c : ascii) (s : string) : bool :=
  bool_decide (c ∈ String.list_ascii_of_string s).

Definition hex_digit (n : nat) : ascii :=
  ascii_of_nat (if decide (n < 10) then 48 + n else 87 + n).

(** One character inside [repr(s)]: the quote in use and the backslash
    are escaped, newline, carriage return and tab are written with their
    letter, every other ASCII control character as [\xNN].  Characters
    beyond ASCII stand for themselves, which is what [repr] does with the
    printable ones. *)
Definition escape_char (q c : ascii) : string :=
  let n := nat_of_ascii c in
  if decide (c = q ∨ c = backslash) then String backslash (String c "")
  else if decide (n = 10) then String backslash "n"
  else if decide (n = 13) then String backslash "r"
  else if decide (n = 9) then String backslash "t"
  else if decide (n < 32 ∨ n = 127) then
    String backslash
      (String "x" (String (hex_digit (n / 16))
                     (String (hex_digit (n mod 16)) "")))
  else String c "".

Fixpoint escape (q : ascii) (s : string) : string :=
  match s with
  | "" => ""
  | String c s' => escape_char q c +:+ escape q s'
  end.

(** [repr(s)]: single quotes, unless the string has a single quote and no
    double quote. *)
Definition py_repr (s : string) : string :=
  let q := if contains "'" s && negb (contains double_quote s)
           then double_quote else "'"%char in
  String q (escape q s) +:+ String q "".

(** [str(l)] for a list of strings, as an f-string prints it. *)
Definition py_repr_list (l : list string) : string :=
  "[" +:+ String.concat ", " (py_repr <$> l) +:+ "]".

(** ** The world outside the script *)

(** What [pd.read_csv] does with the input file. *)
Inductive ReadOutcome :=
| ReadMissing (msg : string)       (* raises FileNotFoundError *)
| ReadFailed (msg : string)        (* raises another exception *)
| ReadOk (df : DataFrame).

(** The file system and the CSV reader and writer, as the script meets
    them. *)
Record World := mkWorld {
  os_sep : string;
  os_path_exists : string → bool;
  os_makedirs_error : string → option string;
  read_csv : string → ReadOutcome;
  to_csv_error : string → DataFrame → option string
}.

(** [os.path.join(a, b)] for a relative [b] and an [a] that does not end in
    a separator, which is how the script calls it. *)
Definition os_path_join (w : World) (a b : string) : string :=
  a +:+ os_sep w +:+ b.

(** ** Output, exceptions and the script monad *)

(** What a run leaves behind, in order: lines printed, files written. *)
Inductive Event :=
| Print (line : string)
| ToCsv (path : string) (table : DataFrame).

(** The Python exceptions that occur; [SystemExit] is what [exit()]
    raises and is not an [Exception]. *)
Inductive Exn :=
| SystemExit
| FileNotFoundError (msg : string)
| OSError (msg : string)
| KeyError (msg : string)
| AttributeError (msg : string)
| ValueError (msg : string)
| OtherException (msg : string).

(** [isinstance(e, Exception)] *)
Definition is_Exception (e : Exn) : bool :=
  match e with SystemExit => false | _ => true end.

(** [isinstance(e, OSError)]; [FileNotFoundError] is a subclass. *)
Definition is_OSError (e : Exn) : bool :=
  match e with FileNotFoundError _ | OSError _ => true | _ => false end.

(** [str(e)] *)
Definition exn_str (e : Exn) : string :=
  match e with
  | SystemExit => ""
  | FileNotFoundError m | OSError m | KeyError m | AttributeError m
  | ValueError m | OtherException m => m
  end.

(** A computation: the events so far, and either the exception that ended
    it or its result. *)
Definition M (A : Type) : Type := list Event * (Exn + A).

Definition ret {A} (a : A) : M A := ([], inr a).

Definition bind {A B} (m : M A) (k : A → M B) : M B :=
  match m with
  | (t, inl e) => (t, inl e)
  | (t, inr a) => let '(t', r) := k a in (t ++ t', r)
  end.

Definition raise {A} (e : Exn) : M A := ([], inl e).

(** [try: m except ...: h e]; [h e = None] when no clause matches [e]. *)
Definition try_except {A} (m : M A) (h : Exn → option (M A)) : M A :=
  match m with
  | (t, inl e) =>
      match h e with
      | Some k => let '(t', r) := k in (t ++ t', r)
      | None => (t, inl e)
      end
  | (t, inr a) => (t, inr a)
  end.

(** [print(line)].  The standard output is taken to accept every line;
    a console that cannot encode a character of a line (a column label of
    the input file, say) would make [print] itself raise, which is not
    modelled. *)
Definition print (line : string) : M unit := ([Print line], inr tt).

(** [exit()] *)
Definition exit {A} : M A := raise SystemExit.

(** The value of a pandas operation, or the exception it raises. *)
Definition or_raise {A} (o : option A) (e : Exn) : M A :=
  match o with
  | Some a => ret a
  | None => raise e
  end.

#[global] Instance M_ret : MRet M := @ret.
#[global] Instance M_bind : MBind M := λ A B k m, bind m k.

Definition trace {A} (m : M A) : list Event := m.1.
Definition outcome {A} (m : M A) : Exn + A := m.2.

(** The lines printed by a run, and the files it wrote. *)
Definition printed (t : list Event) : list string :=
  omap (λ ev, match ev with Print s => Some s | _ => None end) t.

Definition written (t : list Event) : list (string * DataFrame) :=
  omap (λ ev, match ev with ToCsv p d => Some (p, d) | _ => None end) t.

(** [os.makedirs], [pd.read_csv], [df.to_csv] against the world. *)
Definition os_makedirs (w : World) (path : string) : M unit :=
  match os_makedirs_error w path with
  | Some msg => raise (OSError msg)
  | None => ret tt
  end.

Definition pd_read_csv (w : World) (path : string) : M DataFrame :=
  match read_csv w path with
  | ReadMissing msg => raise (FileNotFoundError msg)
  | ReadFailed msg => raise (OtherException msg)
  | ReadOk df => ret df
  end.

Definition to_csv (w : World) (df : DataFrame) (path : string) : M unit :=
  match to_csv_error w path df with
  | Some msg => raise (OSError msg)
  | None => ([ToCsv path df], inr tt)
  end.

(** [pd.to_datetime(s, errors='coerce')]: the cells are read one by one,
    and the column converts, is kept as objects, or is refused. *)
Definition pd_to_datetime (pd : Pandas) (s : Series) : M Series :=
  let cells := to_datetime (parse_cell pd) s in
  if reads_a_date pd s then
    match verdict pd s with
    | Converts => mret cells
    | KeepsObjects => mret (as_object <$> cells)
    | Refuses msg => raise (ValueError msg)
    end
  else mret cells.

(** ** The script *)

Section Script.
Variable pd : Pandas.
Variable w : World.

(** *** Paths (lines 13-17) *)

Definition base_input_path : string := "E:\Super_Store_Sales\csv_files".
Definition transformed_file_name : string :=
  "Superstore_Sales_Dataset_Transformed.csv".
Definition transformed_file_path : string :=
  os_path_join w base_input_path transformed_file_name.
Definition output_path : string :=
  "E:\Super_Store_Sales\csv_files\data_model_csv_files".

(** *** The output folder (lines 20-27) *)

Definition ensure_output_folder : M unit :=
  if os_path_exists w output_path then mret tt
  else
    try_except
      (os_makedirs w output_path ;;
       print ("The output folder has been created: " +:+ output_path))
      (λ e,
         if is_OSError e then Some (
           print ("Error creating output folder " +:+ output_path
                  +:+ ": " +:+ exn_str e) ;;
           print "Please check the path and permissions." ;;
           exit)
         else None).

(** *** Loading (lines 30-51) *)

(** [if c in df.columns: df[c] = pd.to_datetime(df[c], errors='coerce')] *)
Definition convert_date_column_with (df : DataFrame) (c : string)
  : M DataFrame :=
  if has_column df c then
    s ← or_raise (getitem df c) (KeyError (py_repr c));
    s' ← pd_to_datetime pd s;
    mret (setitem df c s')
  else mret df.

(** The condition of line 42.  Python's [or] does not evaluate its second
    operand when the first is true. *)
Definition dates_have_nulls (df : DataFrame) : M bool :=
  od ← or_raise (getitem df "Order Date") (KeyError (py_repr "Order Date"));
  if isnull_any od then mret true
  else
    sd ← or_raise (getitem df "Ship Date") (KeyError (py_repr "Ship Date"));
    mret (isnull_any sd).

Definition load_try_with : M DataFrame :=
  df ← pd_read_csv w transformed_file_path;
  print ("    > Successfully loaded " +:+ pretty (len df) +:+ " rows.") ;;
  df ← convert_date_column_with df "Order Date";
  df ← convert_date_column_with df "Ship Date";
  nulls ← dates_have_nulls df;
  (if nulls : bool then
     print ("    > Warning: There are null values (NaT) in the date "
            +:+ "columns after loading/conversion.")
   else mret tt) ;;
  mret df.

Definition load_except (e : Exn) : option (M DataFrame) :=
  match e with
  | FileNotFoundError _ => Some (
      print ("[!] Error: The file " +:+ transformed_file_path
             +:+ " was not found.") ;;
      print ("    Make sure to run the data transformation and feature "
             +:+ "engineering script first.") ;;
      exit)
  | _ =>
      if is_Exception e then Some (
        print ("[!] Unexpected error while loading the file: "
               +:+ exn_str e) ;;
        exit)
      else None
  end.

Definition load_with : M DataFrame :=
  print ("[*] Loading the transformed data from: "
         +:+ transformed_file_path) ;;
  try_except load_try_with load_except.

(** *** Saving a table (the [try]/[except] around every [to_csv]) *)

Definition save (table : DataFrame) (file_name : string) : M unit :=
  let path := os_path_join w output_path file_name in
  try_except
    (to_csv w table path ;;
     print ("    > Saved " +:+ pretty (len table) +:+ " records to: "
            +:+ path))
    (λ e,
       if is_Exception e then Some (
         print ("[!] Error while saving " +:+ file_name +:+ ": "
                +:+ exn_str e))
       else None).

(** The [KeyError] of [df[cols]] and of [drop_duplicates]. *)
Definition not_in_index (df : DataFrame) (cols : list string) : Exn :=
  KeyError (py_repr (py_repr_list (filter (λ c, c ∉ columns df) cols)
                     +:+ " not in index")).

(** *** 3.1 customers.csv (lines 56-69) *)

Definition customer_cols : list string :=
  ["Customer ID"; "Customer Name"; "Segment"; "Country"; "City"; "State";
   "Postal Code"; "Region"].

Definition customers_df (df : DataFrame) : option DataFrame :=
  sel ← getitem_list df customer_cols;
  reset_index <$> drop_duplicates ["Customer ID"] sel.

Definition create_customers (df : DataFrame) : M unit :=
  print (newline +:+ "[*] Creating customers.csv...") ;;
  if forallb (has_column df) customer_cols then
    table ← or_raise (customers_df df) (not_in_index df customer_cols);
    save table "customers.csv"
  else
    print ("[!] Error: Cannot create customers.csv - some required "
           +:+ "columns are missing in the source file.").

(** *** 3.2 products.csv (lines 72-84) *)

Definition product_cols : list string :=
  ["Product ID"; "Product Name"; "Category"; "Sub-Category"].

Definition products_df (df : DataFrame) : option DataFrame :=
  sel ← getitem_list df product_cols;
  reset_index <$> drop_duplicates ["Product ID"] sel.

Definition create_products (df : DataFrame) : M unit :=
  print (newline +:+ "[*] Creating products.csv...") ;;
  if forallb (has_column df) product_cols then
    table ← or_raise (products_df df) (not_in_index df product_cols);
    save table "products.csv"
  else
    print ("[!] Error: Cannot create products.csv - some required "
           +:+ "columns are missing in the source file.").

(** *** 3.3 DimShipMode.csv (lines 87-99) *)

Definition ship_mode_col : string := "Ship Mode".

Definition ship_modes_df (df : DataFrame) : option DataFrame :=
  s ← getitem df ship_mode_col;
  Some (reset_index (dropna (DataFrame_of_values (unique s) ship_mode_col))).

Definition create_ship_modes (df : DataFrame) : M unit :=
  print (newline +:+ "[*] Creating DimShipMode.csv...") ;;
  if has_column df ship_mode_col then
    table ← or_raise (ship_modes_df df) (KeyError (py_repr ship_mode_col));
    save table "DimShipMode.csv"
  else
    print ("[!] Warning: Cannot create DimShipMode.csv - 'Ship Mode' "
           +:+ "column is missing.").

(** *** 4. FactSales.csv (lines 102-149) *)

Definition fact_sales_sql_columns : list string :=
  ["OrderID"; "CustomerID"; "ProductID"; "OrderDate"; "ShipDate";
   "ShipMode"; "Sales"; "Order_Year"; "Order_Month"; "Order_Day";
   "Order_Weekday"; "Shipping_Delay"; "Log_Sales"; "Scaled_Sales"].

Definition fact_sales_df_columns : list string :=
  ["Order ID"; "Customer ID"; "Product ID"; "Order Date"; "Ship Date";
   "Ship Mode"; "Sales"; "Order_Year"; "Order_Month"; "Order_Day";
   "Order_Weekday"; "Shipping_Delay"; "Log_Sales"; "Scaled_Sales"].

Definition missing_cols (df : DataFrame) : list string :=
  filter (λ col, col ∉ columns df) fact_sales_df_columns.

Definition rename_map : gmap string string :=
  dict (zip fact_sales_df_columns fact_sales_sql_columns).

(** Lines 125-129: the selected columns under their SQL names. *)
Definition fact_sales_selected (df : DataFrame) : option DataFrame :=
  rename rename_map <$> getitem_list df fact_sales_df_columns.

(** [fact[c] = fact[c].dt.strftime('%Y-%m-%d')] *)
Definition format_date_column (fact : DataFrame) (c : string)
  : M DataFrame :=
  s ← or_raise (getitem fact c) (KeyError (py_repr c));
  f ← or_raise (dt_strftime s "%Y-%m-%d")
        (AttributeError "Can only use .dt accessor with datetimelike values");
  mret (setitem fact c f).

(** The two [except] clauses of lines 137-140. *)
Definition format_except (fact : DataFrame) (e : Exn)
  : option (M DataFrame) :=
  match e with
  | AttributeError _ => Some (
      print ("[!] Warning: Failed to convert date format. Ensure they "
             +:+ "are of datetime type.") ;;
      mret fact)
  | _ =>
      if is_Exception e then Some (
        print ("[!] Unexpected error while formatting dates: "
               +:+ exn_str e) ;;
        mret fact)
      else None
  end.

(** Lines 134-140.  The two assignments sit in one [try] and update the
    frame in place: when the second raises, the first stays done, which
    is why the handler of the second continues with [fact1]. *)
Definition format_dates (fact : DataFrame) : M DataFrame :=
  try_except
    (fact1 ← format_date_column fact "OrderDate";
     try_except (format_date_column fact1 "ShipDate") (format_except fact1))
    (format_except fact).

Definition create_fact_sales (df : DataFrame) : M unit :=
  print (newline +:+ "[*] Creating the combined FactSales.csv file...") ;;
  if bool_decide (missing_cols df ≠ []) then
    print ("[!] Error: Cannot create FactSales.csv - the following "
           +:+ "columns are missing in the source file: "
           +:+ py_repr_list (missing_cols df)) ;;
    print ("    Available columns are: " +:+ py_repr_list (columns df))
  else
    fact ← or_raise (fact_sales_selected df)
             (not_in_index df fact_sales_df_columns);
    print ("    > Selected " +:+ pretty (length fact_sales_sql_columns)
           +:+ " columns for FactSales.") ;;
    print "    > Formatting date columns to 'YYYY-MM-DD'..." ;;
    fact_sales_df ← format_dates fact;
    save fact_sales_df "FactSales.csv".

(** *** The whole run *)

Definition create_tables (df : DataFrame) : M unit :=
  create_customers df ;;
  create_products df ;;
  create_ship_modes df ;;
  create_fact_sales df ;;
  print (newline
         +:+ "[*] Final CSV files for loading have been successfully created.").

Definition main_with : M unit :=
  ensure_output_folder ;;
  df ← load_with;
  create_tables df.
End Script.

(** *** The run when the date columns convert *)

(** The loader and the script under a pandas that makes a datetime column
    of every date column, the cells read by [parser]. *)
Definition convert_date_column (parser : Series → Value → option Timestamp)
    (df : DataFrame) (c : string) : M DataFrame :=
  convert_date_column_with (converting parser) df c.

Definition load_try (parser : Series → Value → option Timestamp) (w : World)
  : M DataFrame :=
  load_try_with (converting parser) w.

Definition load (parser : Series → Value → option Timestamp) (w : World)
  : M DataFrame :=
  load_with (converting parser) w.

Definition main (parser : Series → Value → option Timestamp) (w : World)
  : M unit :=
  main_with (converting parser) w.

(** ** Notions used to state the properties *)

(** The value a record of a frame has under a label ([NaN] when the frame
    has no such column). *)
Definition cell (df : DataFrame) (r : Row) (c : string) : Value :=
  from_option (iloc r) NaN (get_loc c (columns df)).

(** The values a record has under a list of labels, in that order. *)
Definition project (df : DataFrame) (cols : list string) (r : Row) : Row :=
  cell df r <$> cols.

(** Record [s], at position [i] of the frame, is the first one that bears
    its value of the column [key]. *)
Definition first_with_key (df : DataFrame) (key : string) (i : nat) (s : Row)
  : Prop :=
  rows df !! i = Some s ∧
  ∀ j s', j < i → rows df !! j = Some s' → cell df s' key ≠ cell df s key.

(** Value [v] appears in the series for the first time at position [p]. *)
Definition first_at (s : Series) (p : nat) (v : Value) : Prop :=
  s !! p = Some v ∧ ∀ q, q < p → s !! q ≠ Some v.

(** The records kept by [duplicated]: those whose key is new. *)
Definition keep_first {A K} `{EqDecision K} (key : A → K)
    (seen : list K) (l : list A) : list A :=
  boolean_mask (negb <$> duplicated_from seen (key <$> l)) l.

(** How many values of a series are missing. *)
Definition count_null (s : Series) : nat := length (filter (λ v, isnull v) s).

(** A calendar date whose year has at most four digits. *)
Definition calendar_date (t : Timestamp) : Prop :=
  (0 ≤ year t ≤ 9999 ∧ 1 ≤ month t ≤ 12 ∧ 1 ≤ day t ≤ 31)%Z.

(** The ten characters of the pattern YYYY-MM-DD, written out. *)
Definition digit (n : Z) : ascii :=
  ascii_of_nat (48 + Z.to_nat (n `mod` 10)).

Definition YYYY_MM_DD (t : Timestamp) : string :=
  String (digit (year t / 1000)) (String (digit (year t / 100))
    (String (digit (year t / 10)) (String (digit (year t))
      (String "-" (String (digit (month t / 10)) (String (digit (month t))
        (String "-" (String (digit (day t / 10)) (String (digit (day t))
          ""))))))))).

(** The digits [zero_pad] is expected to give for a year of at most four
    digits and for a month or a day. *)
Definition four_digits (y : Z) : string :=
  String (digit (y / 1000)) (String (digit (y / 100))
    (String (digit (y / 10)) (String (digit y) ""))).

Definition two_digits (n : Z) : string :=
  String (digit (n / 10)) (String (digit n) "").

(** [p in s] for strings. *)
Fixpoint is_prefix (p s : string) : bool :=
  match p, s with
  | "", _ => true
  | String a p', String b s' => bool_decide (a = b) && is_prefix p' s'
  | _, _ => false
  end.

Fixpoint is_substring (p s : string) : bool :=
  is_prefix p s ||
  match s with
  | "" => false
  | String _ s' => is_substring p s'
  end.

(** The path under which a table is saved. *)
Definition table_path (w : World) (file_name : string) : string :=
  os_path_join w output_path file_name.

(** The frame the loader hands on when both date columns are there. *)
Definition coerce_dates (parser : Series → Value → option Timestamp)
    (df : DataFrame) : DataFrame :=
  let df1 := match getitem df "Order Date" with
             | Some s => setitem df "Order Date" (to_datetime parser s)
             | None => df
             end in
  match getitem df1 "Ship Date" with
  | Some s => setitem df1 "Ship Date" (to_datetime parser s)
  | None => df1
  end.

(** The frame the loader hands on when both date columns are there and
    [pd.to_datetime] has returned [od'] and [sd'] for them. *)
Definition with_dates (df : DataFrame) (od' sd' : Series) : DataFrame :=
  setitem (setitem df "Order Date" od') "Ship Date" sd'.

(** The lines of the fact branch before the date formatting (lines 102,
    131 and 133). *)
Definition fact_progress_lines : list Event :=
  [Print (newline +:+ "[*] Creating the combined FactSales.csv file...");
   Print ("    > Selected " +:+ pretty (length fact_sales_sql_columns)
          +:+ " columns for FactSales.");
   Print "    > Formatting date columns to 'YYYY-MM-DD'..."].

(** The warning of line 43. *)
Definition null_dates_warning : string :=
  "    > Warning: There are null values (NaT) in the date "
  +:+ "columns after loading/conversion.".

(** A keyed dimension [out] of the frame [df]: its labels are [cols]; no
    two of its records have the same value of [key]; each of its records
    is the first record of [df] bearing its key, cut down to [cols]; and
    every record of [df] has its key in [out], borne there by the first
    record of [df] with that key.  So [out] has exactly one record for
    each key of [df]. *)
Definition first_occurrence_wins (df : DataFrame) (cols : list string)
    (key : string) (out : DataFrame) : Prop :=
  columns out = cols ∧
  (∀ i j r1 r2, rows out !! i = Some r1 → rows out !! j = Some r2 →
                cell out r1 key = cell out r2 key → i = j) ∧
  (∀ o r, rows out !! o = Some r →
          ∃ i s, first_with_key df key i s ∧ r = project df cols s
                 ∧ cell out r key = cell df s key) ∧
  (∀ i s, rows df !! i = Some s →
          ∃ o i0 s0, (i0 ≤ i)%nat ∧ first_with_key df key i0 s0
                     ∧ cell df s0 key = cell df s key
                     ∧ rows out !! o = Some (project df cols s0)
                     ∧ cell out (project df cols s0) key = cell df s key).

(** The records of [out] stand in the order in which their keys first
    appear in [df]: the first records of two keys of [df] are both in
    [out], in their order; and wherever two records of [out] bear keys
    that first appear at [i1] and [i2] in [df], they stand in the order of
    [i1] and [i2]. *)
Definition first_occurrence_order (df : DataFrame) (cols : list string)
    (key : string) (out : DataFrame) : Prop :=
  (∀ i1 i2 s1 s2,
     i1 < i2 → first_with_key df key i1 s1 → first_with_key df key i2 s2 →
     ∃ o1 o2, o1 < o2 ∧ rows out !! o1 = Some (project df cols s1)
              ∧ rows out !! o2 = Some (project df cols s2)) ∧
  (∀ o1 o2 r1 r2 i1 i2 s1 s2,
     rows out !! o1 = Some r1 → rows out !! o2 = Some r2 →
     first_with_key df key i1 s1 → first_with_key df key i2 s2 →
     cell out r1 key = cell df s1 key → cell out r2 key = cell df s2 key →
     (o1 < o2 ↔ i1 < i2)).

(** The first record of [df] with a given missing key is in [out], still
    with its missing key. *)
Definition null_key_kept (df : DataFrame) (cols : list string)
    (key : string) (out : DataFrame) : Prop :=
  ∀ i s, first_with_key df key i s → isnull (cell df s key) = true →
         ∃ o, rows out !! o = Some (project df cols s)
              ∧ isnull (cell out (project df cols s) key) = true.

(** The ship-mode table built from the series [s] of the Ship Mode column:
    one column, whose values are the distinct values of [s] that are not
    missing, in the order in which they first appear in [s]. *)
Definition distinct_non_null_in_order (s : Series) (out : DataFrame) : Prop :=
  ∃ vals : Series,
    out = {| columns := ["Ship Mode"]; rows := (λ v, [v]) <$> vals |} ∧
    NoDup vals ∧
    (∀ v, v ∈ vals ↔ v ∈ s ∧ isnull v = false) ∧
    (∀ p q a b, p < q → first_at s p a → first_at s q b →
                isnull a = false → isnull b = false →
                ∃ i j, i < j ∧ vals !! i = Some a ∧ vals !! j = Some b).

(** The warning of line 138. *)
Definition format_warning : string :=
  "[!] Warning: Failed to convert date format. Ensure they "
  +:+ "are of datetime type.".

(** A date column after formatting. *)
Definition formatted (s : Series) : Series :=
  strftime_value "%Y-%m-%d" <$> s.

(** The fact table [out] of the frame [df]: the fourteen SQL labels in
    order, as many records as [df], and under the k-th SQL label the
    series [df] has under the k-th source label.  The two date columns are
    formatted when they are datetime columns; the script formats Order
    Date first and gives up at the first column that is not one, so Ship
    Date is formatted only when both are. *)
Definition fact_table_of (df out : DataFrame) : Prop :=
  columns out = fact_sales_sql_columns ∧
  len out = len df ∧
  (∀ k src tgt,
     fact_sales_df_columns !! k = Some src →
     fact_sales_sql_columns !! k = Some tgt →
     tgt ≠ "OrderDate" → tgt ≠ "ShipDate" →
     getitem out tgt = getitem df src) ∧
  ∃ od sd,
    getitem df "Order Date" = Some od ∧
    getitem df "Ship Date" = Some sd ∧
    getitem out "OrderDate"
    = Some (if is_datetimelike od then formatted od else od) ∧
    getitem out "ShipDate"
    = Some (if is_datetimelike od && is_datetimelike sd
            then formatted sd else sd).

(** The two lines every successful read prints (lines 30 and 33). *)
Definition loading_lines (w : World) (df : DataFrame) : list Event :=
  [Print ("[*] Loading the transformed data from: "
          +:+ transformed_file_path w);
   Print ("    > Successfully loaded " +:+ pretty (len df) +:+ " rows.")].

(** Line 50 for the [KeyError] of a column that is not there. *)
Definition load_error_line (c : string) : Event :=
  Print ("[!] Unexpected error while loading the file: " +:+ py_repr c).

(** How many Order Dates and how many Ship Dates are missing after
    coercion. *)
Definition missing_dates (parser : Series → Value → option Timestamp)
    (df : DataFrame) : nat * nat :=
  (count_null (to_datetime parser (default [] (getitem df "Order Date"))),
   count_null (to_datetime parser (default [] (getitem df "Ship Date")))).

(** The line the customer and product branches print when a column is
    not there (lines 69 and 84, for the file name given). *)
Definition generic_error (file_name : string) : string :=
  "[!] Error: Cannot create " +:+ file_name +:+ " - some required "
  +:+ "columns are missing in the source file.".

(** ** Sample data *)

(** A parser for the examples: it reads the form YYYY-MM-DD only. *)
Definition digit_value (c : ascii) : option Z :=
  let n := Z.of_nat (nat_of_ascii c) in
  if decide (48 ≤ n ≤ 57)%Z then Some (n - 48)%Z else None.

Definition number (cs : list ascii) : option Z :=
  foldl (λ acc c, a ← acc; d ← digit_value c; Some (10 * a + d)%Z)
        (Some 0%Z) cs.

Definition iso_parser (_ : Series) (v : Value) : option Timestamp :=
  match v with
  | Str s =>
      match String.list_ascii_of_string s with
      | [y1; y2; y3; y4; s1; m1; m2; s2; d1; d2] =>
          if decide (s1 = "-"%char ∧ s2 = "-"%char) then
            y ← number [y1; y2; y3; y4];
            m ← number [m1; m2];
            d ← number [d1; d2];
            if decide (1 ≤ m ≤ 12 ∧ 1 ≤ d ≤ 31)%Z
            then Some (mkTimestamp y m d 0) else None
          else None
      | _ => None
      end
  | _ => None
  end.

(** The columns of the transformed Superstore file. *)
Definition superstore_columns : list string :=
  ["Row ID"; "Order ID"; "Order Date"; "Ship Date"; "Ship Mode";
   "Customer ID"; "Customer Name"; "Segment"; "Country"; "City"; "State";
   "Postal Code"; "Region"; "Product ID"; "Category"; "Sub-Category";
   "Product Name"; "Sales"; "Order_Year"; "Order_Month"; "Order_Day";
   "Order_Weekday"; "Shipping_Delay"; "Log_Sales"; "Scaled_Sales"].

Definition sample_record (row_id : Z) (order_id order_date ship_date : string)
    (ship_mode customer_id : Value) (customer_name city product_id
     product_name : string) (sales : Z) : Row :=
  [Int row_id; Str order_id; Str order_date; Str ship_date; ship_mode;
   customer_id; Str customer_name; Str "Consumer"; Str "United States";
   Str city; Str "Texas"; Int 77041; Str "Central"; Str product_id;
   Str "Furniture"; Str "Chairs"; Str product_name; Int sales; Int 2023;
   Int 3; Int 5; Int 6; Int 4; Int 5; Int 1].

(** Five orders: two of customer C1 (with different names and cities), one
    without a customer, one with a ship date that is no date. *)
Definition sample : DataFrame :=
  {| columns := superstore_columns;
     rows := [
       sample_record 1 "O1" "2023-03-05" "2023-03-09" (Str "Standard")
         (Str "C1") "Ann" "Houston" "P1" "Chair" 120;
       sample_record 2 "O2" "2023-03-06" "2023-03-07" (Str "Standard")
         (Str "C2") "Bob" "Dallas" "P2" "Desk" 340;
       sample_record 3 "O3" "2023-04-01" "soon" (Str "Express")
         (Str "C1") "Ann B." "Austin" "P1" "Chair, red" 130;
       sample_record 4 "O4" "2023-04-02" "2023-04-05" NaN
         NaN "Walk-in" "Austin" "P3" "Lamp" 25;
       sample_record 5 "O5" "2023-05-10" "2023-05-12" (Str "Express")
         (Str "C3") "Cid" "Waco" "P2" "Desk" 335 ] |}.

(** The sample without some of its columns. *)
Definition without (cs : list string) (df : DataFrame) : DataFrame :=
  default df (getitem_list df (filter (λ c, c ∉ cs) (columns df))).

(** A world in which the output folder exists, the input file holds the
    given frame and every file can be written. *)
Definition world_of (df : DataFrame) : World :=
  {| os_sep := String backslash "";
     os_path_exists := λ _, true;
     os_makedirs_error := λ _, None;
     read_csv := λ _, ReadOk df;
     to_csv_error := λ _ _, None |}.

(** The column of the ship-mode scenario. *)
Definition ship_mode_scenario : DataFrame :=
  {| columns := ["Ship Mode"];
     rows := [[Str "Standard"]; [Str "Standard"]; [Str "Express"]; [NaN]] |}.

(** Frames for the examples of loading: two with both date columns, and
    with one and with three dates that are no dates; one without the Ship
    Date column, whose second Order Date is missing. *)
Definition one_bad_date : DataFrame :=
  {| columns := ["Order Date"; "Ship Date"];
     rows := [[Str "2023-03-05"; Str "soon"];
              [Str "2023-03-06"; Str "2023-03-07"]] |}.

Definition three_bad_dates : DataFrame :=
  {| columns := ["Order Date"; "Ship Date"];
     rows := [[Str "never"; Str "soon"];
              [NaN; Str "2023-03-07"]] |}.


(** A parser for the examples with UTC offsets: it reads YYYY-MM-DD, alone
    or followed by the time T00:00:00 and an offset such as +01:00. *)
Definition offset_parser (s : Series) (v : Value) : option Timestamp :=
  match v with
  | Str x =>
      let cs := String.list_ascii_of_string x in
      let rest := String.string_of_list_ascii (drop 10 cs) in
      if bool_decide (rest = "") || is_prefix "T00:00:00" rest
      then iso_parser s (Str (String.string_of_list_ascii (take 10 cs)))
      else None
  | _ => None
  end.

(** The offset of a value that [offset_parser] reads. *)
Definition utc_offset (s : Series) (v : Value) : option string :=
  match v, offset_parser s v with
  | Str x, Some _ =>
      Some (String.string_of_list_ascii
              (drop 19 (String.list_ascii_of_string x)))
  | _, _ => None
  end.

(** The values read in a column carry at least two different offsets. *)
Definition mixes_offsets (s : Series) : bool :=
  match remove_dups (omap (utc_offset s) s) with
  | _ :: _ :: _ => true
  | _ => false
  end.

(** Two pandas for the examples, alike but for what they do with a column
    that mixes offsets. *)
Definition pandas_2 : Pandas :=
  {| parse_cell := offset_parser;
     verdict := λ s, if mixes_offsets s then KeepsObjects else Converts |}.

Definition pandas_3 : Pandas :=
  {| parse_cell := offset_parser;
     verdict := λ s, if mixes_offsets s
                     then Refuses "Mixed timezones detected."
                     else Converts |}.

(** The sample with Order Dates that carry two different offsets. *)
Definition orders_with_offsets : DataFrame :=
  setitem sample "Order Date"
    [Str "2023-03-05T00:00:00+01:00"; Str "2023-03-06T00:00:00+02:00";
     Str "2023-04-01T00:00:00+01:00"; Str "2023-04-02T00:00:00+01:00";
     Str "2023-05-10T00:00:00+01:00"].

(** ** Further notions: the run as a whole *)

(** The lines of the two handlers of the loading block (lines 46-50). *)
Definition not_found_lines (w : World) : list Event :=
  [Print ("[!] Error: The file " +:+ transformed_file_path w
          +:+ " was not found.");
   Print ("    Make sure to run the data transformation and feature "
          +:+ "engineering script first.")].

Definition unexpected_load_error (msg : string) : Event :=
  Print ("[!] Unexpected error while loading the file: " +:+ msg).

(** The lines of the handler of [os.makedirs] (lines 25-26). *)
Definition folder_error_lines (msg : string) : list Event :=
  [Print ("Error creating output folder " +:+ output_path +:+ ": " +:+ msg);
   Print "Please check the path and permissions."].

(** The table each branch builds from the loaded frame, when its columns
    are there. *)
Definition customers_table (df : DataFrame) : option DataFrame :=
  if forallb (has_column df) customer_cols then customers_df df else None.

Definition products_table (df : DataFrame) : option DataFrame :=
  if forallb (has_column df) product_cols then products_df df else None.

Definition ship_modes_table (df : DataFrame) : option DataFrame :=
  if has_column df ship_mode_col then ship_modes_df df else None.

Definition fact_table (df : DataFrame) : option DataFrame :=
  if bool_decide (missing_cols df = []) then
    fact ← fact_sales_selected df;
    match outcome (format_dates fact) with
    | inr out => Some out
    | inl _ => None
    end
  else None.

(** What one branch leaves on disk: its table under its file name, unless
    there is no table or the write fails. *)
Definition saved_as (w : World) (file_name : string)
    (table : option DataFrame) : list (string * DataFrame) :=
  match table with
  | Some t =>
      match to_csv_error w (table_path w file_name) t with
      | None => [(table_path w file_name, t)]
      | Some _ => []
      end
  | None => []
  end.

(** Worlds for the examples: the output folder cannot be made; the input
    file is not there; the input file cannot be parsed; the customer file
    cannot be written. *)
Definition world_without_folder : World :=
  {| os_sep := String backslash "";
     os_path_exists := λ _, false;
     os_makedirs_error := λ _, Some "[WinError 5] Access is denied";
     read_csv := λ _, ReadOk sample;
     to_csv_error := λ _ _, None |}.

Definition world_without_input : World :=
  {| os_sep := String backslash "";
     os_path_exists := λ _, true;
     os_makedirs_error := λ _, None;
     read_csv := λ _, ReadMissing "[Errno 2] No such file or directory";
     to_csv_error := λ _ _, None |}.

Definition world_with_broken_input : World :=
  {| os_sep := String backslash "";
     os_path_exists := λ _, true;
     os_makedirs_error := λ _, None;
     read_csv := λ _, ReadFailed "Error tokenizing data";
     to_csv_error := λ _ _, None |}.

Definition world_with_locked_customers (df : DataFrame) : World :=
  {| os_sep := String backslash "";
     os_path_exists := λ _, true;
     os_makedirs_error := λ _, None;
     read_csv := λ _, ReadOk df;
     to_csv_error := λ path _,
       if is_substring "customers.csv" path
       then Some "[Errno 13] Permission denied" else None |}.

(** A frame whose Ship Mode column holds missing values only. *)
Definition no_ship_modes : DataFrame :=
  {| columns := ["Order ID"; "Ship Mode"];
     rows := [[Str "O1"; NaN]; [Str "O2"; NaN]] |}.

(** * Properties *)

(** ** Sanity checks of the operations *)

Example strftime_2023_03_05 :
  strftime "%Y-%m-%d" (mkTimestamp 2023 3 5 0) = "2023-03-05".
Proof. reflexivity. Qed.

Example unique_ship_modes :
  unique [Str "Standard"; Str "Standard"; Str "Express"; NaN]
  = [Str "Standard"; Str "Express"; NaN].
Proof. reflexivity. Qed.

Example drop_duplicates_first :
  drop_duplicates ["id"]
    {| columns := ["id"; "name"];
       rows := [[Str "C1"; Str "Ann"]; [Str "C2"; Str "Bob"];
                [Str "C1"; Str "Zed"]] |}
  = Some {| columns := ["id"; "name"];
            rows := [[Str "C1"; Str "Ann"]; [Str "C2"; Str "Bob"]] |}.
Proof. reflexivity. Qed.

Example rename_map_order_id : rename_map !! "Order ID" = Some "OrderID".
Proof. reflexivity. Qed.

Example iso_parser_reads :
  iso_parser [] (Str "2023-03-05") = Some (mkTimestamp 2023 3 5 0).
Proof. reflexivity. Qed.

(** ** First occurrences *)

Section KeepFirst.
Context {A K : Type} `{EqDecision K} (key : A → K).

Lemma keep_first_cons seen x l :
  keep_first key seen (x :: l)
  = if decide (key x ∈ seen) then keep_first key seen l
    else x :: keep_first key (key x :: seen) l.
Proof.
  unfold keep_first, boolean_mask. cbn [fmap list_fmap duplicated_from].
  destruct (decide (key x ∈ seen)); cbn [fmap list_fmap negb zip zip_with].
  - rewrite filter_cons_False; [done|]. cbn. done.
  - rewrite filter_cons_True; [|done]. done.
Qed.

(** What is kept is a first occurrence of a key not met before. *)
Lemma keep_first_lookup seen l o x :
  keep_first key seen l !! o = Some x →
  ∃ i, l !! i = Some x ∧ (key x ∉ seen) ∧
       (∀ j y, j < i → l !! j = Some y → key y ≠ key x).
Proof.
  revert seen o. induction l as [|y l IH]; intros seen o; [done|].
  rewrite keep_first_cons. destruct (decide (key y ∈ seen)) as [Hin|Hnin].
  - intros (i & Hi & Hx & Hfirst)%IH. exists (S i). split_and!; [done..|].
    intros [|j] z Hj Hz; simplify_eq/=.
    + intros Heq. apply Hx. by rewrite <- Heq.
    + eapply Hfirst; [|done]. lia.
  - destruct o as [|o]; simpl.
    + intros [= ->]. exists 0. split_and!; [done..|]. intros; lia.
    + intros (i & Hi & Hx & Hfirst)%IH.
      apply not_elem_of_cons in Hx as [Hne Hx].
      exists (S i). split_and!; [done..|].
      intros [|j] z Hj Hz; simplify_eq/=; [done|].
      eapply Hfirst; [|done]. lia.
Qed.

(** Every first occurrence of a key not met before is kept. *)
Lemma keep_first_complete seen l i x :
  l !! i = Some x → key x ∉ seen →
  (∀ j y, j < i → l !! j = Some y → key y ≠ key x) →
  ∃ o, keep_first key seen l !! o = Some x.
Proof.
  revert seen i. induction l as [|y l IH]; intros seen i; [done|].
  rewrite keep_first_cons. destruct i as [|i]; simpl.
  - intros [= ->] Hx _. rewrite decide_False by done. by exists 0.
  - intros Hi Hx Hfirst.
    assert (key y ≠ key x) as Hne by (apply (Hfirst 0); [lia|done]).
    assert (∀ j z, j < i → l !! j = Some z → key z ≠ key x) as Hfirst'.
    { intros j z Hj Hz. apply (Hfirst (S j)); [lia|done]. }
    destruct (decide (key y ∈ seen)).
    + by eapply IH.
    + destruct (IH (key y :: seen) i) as [o Ho]; [done| |done|].
      * by apply not_elem_of_cons.
      * by exists (S o).
Qed.

(** No key is kept twice. *)
Lemma keep_first_NoDup seen l : NoDup (key <$> keep_first key seen l).
Proof.
  revert seen. induction l as [|y l IH]; intros seen; [constructor|].
  rewrite keep_first_cons. destruct (decide (key y ∈ seen)); [done|].
  rewrite fmap_cons. constructor; [|done].
  intros (x & Hk & (o & Ho)%list_elem_of_lookup)%list_elem_of_fmap.
  apply keep_first_lookup in Ho as (_ & _ & Hx & _).
  apply Hx. rewrite Hk. left.
Qed.

(** First occurrences are kept in their order. *)
Lemma keep_first_order seen l i1 i2 x1 x2 :
  i1 < i2 → l !! i1 = Some x1 → l !! i2 = Some x2 →
  key x1 ∉ seen → key x2 ∉ seen →
  (∀ j y, j < i1 → l !! j = Some y → key y ≠ key x1) →
  (∀ j y, j < i2 → l !! j = Some y → key y ≠ key x2) →
  ∃ o1 o2, o1 < o2 ∧ keep_first key seen l !! o1 = Some x1
           ∧ keep_first key seen l !! o2 = Some x2.
Proof.
  revert seen i1 i2. induction l as [|y l IH]; intros seen i1 i2; [done|].
  rewrite keep_first_cons. intros Hlt H1 H2 Hs1 Hs2 Hf1 Hf2.
  destruct i2 as [|i2]; [lia|]. simpl in H2.
  assert (key y ≠ key x2) as Hne2 by (apply (Hf2 0); [lia|done]).
  assert (∀ j z, j < i2 → l !! j = Some z → key z ≠ key x2) as Hf2'.
  { intros j z Hj Hz. apply (Hf2 (S j)); [lia|done]. }
  destruct i1 as [|i1]; simpl in H1.
  - simplify_eq. rewrite decide_False by done.
    destruct (keep_first_complete (key x1 :: seen) l i2 x2) as [o Ho];
      [done| |done|].
    { by apply not_elem_of_cons. }
    exists 0, (S o). split_and!; [lia|done..].
  - assert (key y ≠ key x1) as Hne1 by (apply (Hf1 0); [lia|done]).
    assert (∀ j z, j < i1 → l !! j = Some z → key z ≠ key x1) as Hf1'.
    { intros j z Hj Hz. apply (Hf1 (S j)); [lia|done]. }
    destruct (decide (key y ∈ seen)).
    + apply (IH seen i1 i2); [lia|done..].
    + destruct (IH (key y :: seen) i1 i2) as (o1 & o2 & ? & ? & ?);
        [lia|done|done| | |done|done|].
      * by apply not_elem_of_cons.
      * by apply not_elem_of_cons.
      * exists (S o1), (S o2). split_and!; [lia|done..].
Qed.
End KeepFirst.

Lemma keep_first_ext {A K} `{EqDecision K} (f g : A → K) seen l :
  (∀ x, f x = g x) → keep_first f seen l = keep_first g seen l.
Proof.
  intros Hfg. revert seen. induction l as [|y l IH]; intros seen; [done|].
  rewrite !keep_first_cons, Hfg. destruct (decide (g y ∈ seen)); by rewrite IH.
Qed.

(** Keeping first occurrences commutes with a map on the records. *)
Lemma keep_first_fmap {A B K} `{EqDecision K} (key : A → K) (f : B → A)
    seen (l : list B) :
  keep_first key seen (f <$> l) = f <$> keep_first (key ∘ f) seen l.
Proof.
  revert seen. induction l as [|y l IH]; intros seen; [done|].
  rewrite fmap_cons, !keep_first_cons. simpl.
  destruct (decide (key (f y) ∈ seen)); by rewrite ?fmap_cons, IH.
Qed.

(** ** Columns and cells *)

Lemma get_loc_Some c cols i :
  get_loc c cols = Some i ↔
  cols !! i = Some c ∧ ∀ j, j < i → cols !! j ≠ Some c.
Proof.
  unfold get_loc. split.
  - intros Hf. destruct (list_find _ cols) as [[k x]|] eqn:Hfind; [|done].
    simpl in Hf. simplify_eq. apply list_find_Some in Hfind as (Hk & -> & Hlt).
    split; [done|]. intros j Hj Hc. by eapply Hlt.
  - intros [Hi Hlt]. rewrite (proj2 (list_find_Some _ cols i c)); [done|].
    split_and!; [done..|]. intros j y Hy Hj ->. by eapply Hlt.
Qed.

Lemma get_loc_elem_of c cols : c ∈ cols → is_Some (get_loc c cols).
Proof.
  intros Hc. unfold get_loc.
  destruct (list_find_elem_of (λ x, x = c) cols c Hc eq_refl) as [y ->].
  by eexists.
Qed.

Lemma get_loc_None c cols : c ∉ cols → get_loc c cols = None.
Proof.
  intros Hc. destruct (get_loc c cols) as [i|] eqn:Hi; [|done].
  apply get_loc_Some in Hi as [Hi _]. destruct Hc.
  by eapply list_elem_of_lookup_2.
Qed.

Lemma get_loc_NoDup cols k c :
  NoDup cols → cols !! k = Some c → get_loc c cols = Some k.
Proof.
  intros Hnd Hk. apply get_loc_Some. split; [done|].
  intros j Hj Hc. pose proof (NoDup_lookup _ _ _ _ Hnd Hk Hc). lia.
Qed.

Lemma has_column_true df c :
  has_column df c = true ↔ c ∈ columns df.
Proof. unfold has_column. by rewrite bool_decide_eq_true. Qed.

Lemma has_column_false df c :
  has_column df c = false ↔ c ∉ columns df.
Proof. unfold has_column. by rewrite bool_decide_eq_false. Qed.

Lemma cell_get_loc df r c i :
  get_loc c (columns df) = Some i → cell df r c = iloc r i.
Proof. unfold cell. by intros ->. Qed.

Lemma getitem_get_loc df c i :
  get_loc c (columns df) = Some i →
  getitem df c = Some ((λ r, iloc r i) <$> rows df).
Proof. unfold getitem. by intros ->. Qed.

(** The series of a column holds, record by record, the cell under the
    label. *)
Lemma getitem_cell df c s :
  getitem df c = Some s → s = (λ r, cell df r c) <$> rows df.
Proof.
  unfold getitem, cell. destruct (get_loc c (columns df)); [|done].
  by intros [= <-].
Qed.

Lemma getitem_is_Some df c : c ∈ columns df → is_Some (getitem df c).
Proof.
  intros [i Hi]%get_loc_elem_of. rewrite (getitem_get_loc _ _ _ Hi). by eexists.
Qed.

Lemma getitem_None df c : c ∉ columns df → getitem df c = None.
Proof. intros Hc. unfold getitem. by rewrite get_loc_None. Qed.

Lemma getitem_length df c s : getitem df c = Some s → length s = len df.
Proof. intros ->%getitem_cell. by rewrite length_fmap. Qed.

(** *** [df[cols]] *)

Lemma mapM_get_loc_project df cols locs r :
  mapM (λ c, get_loc c (columns df)) cols = Some locs →
  iloc r <$> locs = project df cols r.
Proof.
  intros Hm%mapM_Some. unfold project.
  induction Hm as [|c i cols locs Hc _ IH]; [done|].
  rewrite !fmap_cons, IH. f_equal. by rewrite (cell_get_loc _ _ _ _ Hc).
Qed.

Lemma getitem_list_Some df cols sel :
  getitem_list df cols = Some sel →
  sel = {| columns := cols; rows := project df cols <$> rows df |}.
Proof.
  unfold getitem_list.
  destruct (mapM _ cols) as [locs|] eqn:Hm; [|done]. simpl. intros [= <-].
  f_equal. apply list_fmap_ext. intros _ r _.
  by apply mapM_get_loc_project.
Qed.

Lemma getitem_list_is_Some df cols :
  Forall (λ c, c ∈ columns df) cols → is_Some (getitem_list df cols).
Proof.
  intros Hall. unfold getitem_list.
  destruct (mapM_is_Some_2 (λ c, get_loc c (columns df)) cols) as [locs ->].
  - eapply Forall_impl; [done|]. intros c Hc. by apply get_loc_elem_of.
  - by eexists.
Qed.

Lemma getitem_list_elem_of df cols sel c :
  getitem_list df cols = Some sel → c ∈ cols → c ∈ columns df.
Proof.
  unfold getitem_list.
  destruct (mapM _ cols) as [locs|] eqn:Hm; [|done]. intros _ Hc.
  apply mapM_Some in Hm.
  destruct (decide (c ∈ columns df)) as [|Hn]; [done|exfalso].
  apply get_loc_None in Hn.
  induction Hm as [|c' i cols locs Hc' _ IH]; [by apply not_elem_of_nil in Hc|].
  apply elem_of_cons in Hc as [->|Hc]; [congruence|by apply IH].
Qed.

Lemma forallb_has_column df cols :
  forallb (has_column df) cols = true ↔ Forall (λ c, c ∈ columns df) cols.
Proof.
  rewrite forallb_forall, Forall_forall. split; intros Hall c Hc.
  - apply has_column_true, Hall. by apply list_elem_of_In.
  - apply has_column_true, Hall. by apply list_elem_of_In.
Qed.

(** A cell of a projected record is the cell of the record. *)
Lemma cell_project df cols sel r c :
  columns sel = cols → c ∈ cols →
  cell sel (project df cols r) c = cell df r c.
Proof.
  intros Hsel [k Hk]%get_loc_elem_of. rewrite <- Hsel in Hk.
  rewrite (cell_get_loc _ _ _ _ Hk). rewrite Hsel in Hk.
  apply get_loc_Some in Hk as [Hk _].
  unfold iloc, project. by rewrite list_lookup_fmap, Hk.
Qed.

(** ** Keyed dimensions: customers.csv and products.csv *)

(** The records of [df[cols].drop_duplicates(subset=[key])]: the first
    record of [df] for each value of [key], cut down to [cols]. *)
Lemma keyed_dimension_rows df cols key out :
  (sel ← getitem_list df cols;
   reset_index <$> drop_duplicates [key] sel) = Some out →
  key ∈ cols ∧ columns out = cols ∧
  rows out = project df cols <$> keep_first (λ r, [cell df r key]) [] (rows df).
Proof.
  destruct (getitem_list df cols) as [sel|] eqn:Hsel; [|done].
  apply getitem_list_Some in Hsel as ->. simpl.
  unfold drop_duplicates, reset_index. simpl.
  destruct (get_loc key cols) as [k|] eqn:Hk; [|done]. simpl.
  intros [= <-]. simpl.
  assert (key ∈ cols) as Hin.
  { apply get_loc_Some in Hk as [Hk _]. by eapply list_elem_of_lookup_2. }
  split_and!; [done..|].
  change (boolean_mask (negb <$> duplicated ?ks) ?l)
    with (keep_first (key_at [k]) [] l) at 1.
  rewrite keep_first_fmap. f_equal. apply keep_first_ext. intros r. simpl.
  unfold key_at. simpl. f_equal.
  rewrite <- (cell_project df cols {| columns := cols; rows := [] |} r key);
    [|done..].
  by rewrite (cell_get_loc _ _ _ k).
Qed.

Lemma first_with_key_keep df key i s :
  first_with_key df key i s ↔
  rows df !! i = Some s ∧
  ∀ j y, j < i → rows df !! j = Some y → [cell df y key] ≠ [cell df s key].
Proof.
  unfold first_with_key. split; intros [Hi Hf]; (split; [done|]).
  - intros j y Hj Hy [= Heq]. by eapply Hf.
  - intros j y Hj Hy Heq. eapply Hf; [done..|]. by rewrite Heq.
Qed.

(** Every record has a first record with its key. *)
Lemma first_with_key_exists df key i s :
  rows df !! i = Some s →
  ∃ i0 s0, (i0 ≤ i)%nat ∧ first_with_key df key i0 s0
           ∧ cell df s0 key = cell df s key.
Proof.
  intros Hi.
  destruct (list_find_elem_of (λ r, cell df r key = cell df s key)
              (rows df) s) as [[i0 s0] Hf];
    [by eapply list_elem_of_lookup_2|done|].
  apply list_find_Some in Hf as (H0 & Heq & Hmin).
  exists i0, s0. split_and!; [| |done].
  - destruct (decide (i0 ≤ i)%nat) as [|Hgt]; [done|].
    destruct (Hmin i s Hi); [lia|done].
  - split; [done|]. intros j s' Hj Hs' Heq'.
    apply (Hmin j s' Hs' Hj). congruence.
Qed.

Lemma keyed_first_occurrence_wins df cols key out :
  (sel ← getitem_list df cols;
   reset_index <$> drop_duplicates [key] sel) = Some out →
  first_occurrence_wins df cols key out.
Proof.
  intros Hout. pose proof Hout as (Hkey & Hcols & Hrows)%keyed_dimension_rows.
  assert (∀ o r, rows out !! o = Some r →
            ∃ s, keep_first (λ r, [cell df r key]) [] (rows df) !! o = Some s
                 ∧ r = project df cols s ∧ cell out r key = cell df s key)
    as Hback.
  { intros o r. rewrite Hrows, list_lookup_fmap.
    destruct (keep_first _ _ _ !! o) as [s|] eqn:Hs; [|done].
    intros [= <-]. exists s. split_and!; [done..|]. by apply cell_project. }
  split_and!; [done| | |].
  - intros i j r1 r2 (s1 & H1 & _ & Hc1)%Hback (s2 & H2 & _ & Hc2)%Hback Heq.
    eapply (NoDup_lookup ((λ r, [cell df r key]) <$> _));
      [apply keep_first_NoDup | rewrite list_lookup_fmap, H1; done |].
    rewrite list_lookup_fmap, H2. simpl. congruence.
  - intros o r (s & Hs & -> & Hc)%Hback.
    apply keep_first_lookup in Hs as (i & Hi & _ & Hfirst).
    exists i, s. split_and!; [|done..]. by apply first_with_key_keep.
  - intros i s Hi.
    destruct (first_with_key_exists df key i s Hi)
      as (i0 & s0 & Hle & Hf & Heq).
    pose proof Hf as [H0 Hf0]%first_with_key_keep.
    destruct (keep_first_complete (λ r, [cell df r key]) [] (rows df) i0 s0)
      as [o Ho]; [done|by apply not_elem_of_nil|done|].
    exists o, i0, s0. split_and!; [done..| |].
    + by rewrite Hrows, list_lookup_fmap, Ho.
    + by rewrite (cell_project df cols out s0 key).
Qed.

Lemma keyed_first_occurrence_order df cols key out :
  (sel ← getitem_list df cols;
   reset_index <$> drop_duplicates [key] sel) = Some out →
  first_occurrence_order df cols key out.
Proof.
  intros Hout. pose proof Hout as (Hkey & Hcols & Hrows)%keyed_dimension_rows.
  pose proof (keyed_first_occurrence_wins _ _ _ _ Hout) as (_ & Huniq & _).
  assert (∀ i1 i2 s1 s2,
            i1 < i2 → first_with_key df key i1 s1 →
            first_with_key df key i2 s2 →
            ∃ o1 o2, o1 < o2 ∧ rows out !! o1 = Some (project df cols s1)
                     ∧ rows out !! o2 = Some (project df cols s2)) as Hex.
  { intros i1 i2 s1 s2 Hlt [H1 Hf1]%first_with_key_keep
      [H2 Hf2]%first_with_key_keep.
    destruct (keep_first_order (λ r, [cell df r key]) [] (rows df)
                i1 i2 s1 s2)
      as (o1 & o2 & Ho & Ho1 & Ho2);
      [done|done|done|by apply not_elem_of_nil|by apply not_elem_of_nil
      |done|done|].
    exists o1, o2. rewrite Hrows, !list_lookup_fmap, Ho1, Ho2. done. }
  assert (∀ o1 o2 r1 r2 i1 i2 s1 s2,
            rows out !! o1 = Some r1 → rows out !! o2 = Some r2 →
            first_with_key df key i1 s1 → first_with_key df key i2 s2 →
            cell out r1 key = cell df s1 key →
            cell out r2 key = cell df s2 key →
            i1 < i2 → o1 < o2) as Hord.
  { intros o1 o2 r1 r2 i1 i2 s1 s2 Hr1 Hr2 Hf1 Hf2 Hc1 Hc2 Hlt.
    destruct (Hex i1 i2 s1 s2 Hlt Hf1 Hf2) as (p1 & p2 & Hp & Hp1 & Hp2).
    assert (o1 = p1) as ->.
    { apply (Huniq _ _ _ _ Hr1 Hp1).
      by rewrite Hc1, (cell_project df cols out s1 key). }
    assert (o2 = p2) as ->.
    { apply (Huniq _ _ _ _ Hr2 Hp2).
      by rewrite Hc2, (cell_project df cols out s2 key). }
    done. }
  split; [exact Hex|].
  intros o1 o2 r1 r2 i1 i2 s1 s2 Hr1 Hr2 Hf1 Hf2 Hc1 Hc2. split.
  - intros Hlt. destruct (Nat.lt_trichotomy i1 i2) as [|[->|Hgt]]; [done| |].
    + assert (o1 = o2); [|lia].
      apply (Huniq _ _ _ _ Hr1 Hr2).
      destruct Hf1 as [Hs1 _]. destruct Hf2 as [Hs2 _]. congruence.
    + pose proof (Hord _ _ _ _ _ _ _ _ Hr2 Hr1 Hf2 Hf1 Hc2 Hc1 Hgt). lia.
  - by eapply Hord.
Qed.

Lemma keyed_null_key_kept df cols key out :
  (sel ← getitem_list df cols;
   reset_index <$> drop_duplicates [key] sel) = Some out →
  null_key_kept df cols key out.
Proof.
  intros (Hkey & Hcols & Hrows)%keyed_dimension_rows.
  intros i s [Hi Hf]%first_with_key_keep Hnull.
  destruct (keep_first_complete (λ r, [cell df r key]) [] (rows df) i s)
    as [o Ho]; [done|by apply not_elem_of_nil|done|].
  exists o. rewrite Hrows, list_lookup_fmap, Ho. split; [done|].
  by rewrite (cell_project df cols out s key).
Qed.

(** C1.  In customers.csv (key Customer ID) and in products.csv (key
    Product ID) there is exactly one record for each key of the source: no
    two records of the table have the same key, every key of the table is
    a key of the source, every key of the source is a key of the table,
    and the record kept for a key is the first record of the source with
    that key, with the values that record has in the columns of the
    table. *)
Theorem keyed_dimensions_first_occurrence_wins (df : DataFrame) :
  (∀ out, customers_df df = Some out →
          first_occurrence_wins df customer_cols "Customer ID" out) ∧
  (∀ out, products_df df = Some out →
          first_occurrence_wins df product_cols "Product ID" out).
Proof.
  split; intros out Hout; by apply keyed_first_occurrence_wins.
Qed.

Lemma keyed_dimensions_first_occurrence_wins_witness :
  ∃ customers products,
    customers_df sample = Some customers ∧
    products_df sample = Some products ∧
    first_occurrence_wins sample customer_cols "Customer ID" customers ∧
    first_occurrence_wins sample product_cols "Product ID" products.
Proof.
  eexists _, _. split; [reflexivity|]. split; [reflexivity|]. split.
  - apply (proj1 (keyed_dimensions_first_occurrence_wins sample)).
    reflexivity.
  - apply (proj2 (keyed_dimensions_first_occurrence_wins sample)).
    reflexivity.
Defined.

(** The scenario of the specification: of the five sample orders two are
    of customer C1; the customer table has one record for C1, with the
    name and city of the first of the two. *)
Example customers_of_sample :
  rows <$> customers_df sample
  = Some [
      [Str "C1"; Str "Ann"; Str "Consumer"; Str "United States";
       Str "Houston"; Str "Texas"; Int 77041; Str "Central"];
      [Str "C2"; Str "Bob"; Str "Consumer"; Str "United States";
       Str "Dallas"; Str "Texas"; Int 77041; Str "Central"];
      [NaN; Str "Walk-in"; Str "Consumer"; Str "United States";
       Str "Austin"; Str "Texas"; Int 77041; Str "Central"];
      [Str "C3"; Str "Cid"; Str "Consumer"; Str "United States";
       Str "Waco"; Str "Texas"; Int 77041; Str "Central"] ].
Proof. reflexivity. Qed.

(** C7.  The keyed dimensions keep the order of first occurrence: the
    records of the table stand in the order in which their keys first
    occur in the source.  When the key of one record first occurs in the
    source before the key of another, the records kept for the two keys
    are in the table and the first comes before the second; and of any
    two records of the table, the one that comes first is the one whose
    key first occurs first in the source. *)
Theorem keyed_dimensions_keep_first_occurrence_order (df : DataFrame) :
  (∀ out, customers_df df = Some out →
          first_occurrence_order df customer_cols "Customer ID" out) ∧
  (∀ out, products_df df = Some out →
          first_occurrence_order df product_cols "Product ID" out).
Proof.
  split; intros out Hout; by apply keyed_first_occurrence_order.
Qed.

Lemma keyed_dimensions_keep_first_occurrence_order_witness :
  ∃ customers products,
    customers_df sample = Some customers ∧
    products_df sample = Some products ∧
    first_occurrence_order sample customer_cols "Customer ID" customers ∧
    first_occurrence_order sample product_cols "Product ID" products.
Proof.
  eexists _, _. split; [reflexivity|]. split; [reflexivity|]. split.
  - apply (proj1 (keyed_dimensions_keep_first_occurrence_order sample)).
    reflexivity.
  - apply (proj2 (keyed_dimensions_keep_first_occurrence_order sample)).
    reflexivity.
Defined.

(** C10.  A missing key is a key like any other in the keyed dimensions:
    the first record of the source whose Customer ID (Product ID) is
    missing is kept in the table. *)
Theorem keyed_dimensions_keep_null_key (df : DataFrame) :
  (∀ out, customers_df df = Some out →
          null_key_kept df customer_cols "Customer ID" out) ∧
  (∀ out, products_df df = Some out →
          null_key_kept df product_cols "Product ID" out).
Proof.
  split; intros out Hout; by apply keyed_null_key_kept.
Qed.

Lemma keyed_dimensions_keep_null_key_witness :
  ∃ customers products,
    customers_df sample = Some customers ∧
    products_df sample = Some products ∧
    null_key_kept sample customer_cols "Customer ID" customers ∧
    null_key_kept sample product_cols "Product ID" products.
Proof.
  eexists _, _. split; [reflexivity|]. split; [reflexivity|]. split.
  - apply (proj1 (keyed_dimensions_keep_null_key sample)). reflexivity.
  - apply (proj2 (keyed_dimensions_keep_null_key sample)). reflexivity.
Defined.

(** ** The ship-mode dimension: DimShipMode.csv *)

Lemma unique_from_keep_first seen s : unique_from seen s = keep_first id seen s.
Proof.
  revert seen. induction s as [|v s IH]; intros seen; [done|].
  rewrite keep_first_cons. simpl. destruct (decide (v ∈ seen)); by rewrite IH.
Qed.

Lemma first_at_keep s p v :
  first_at s p v ↔
  s !! p = Some v ∧ ∀ j y, j < p → s !! j = Some y → id y ≠ id v.
Proof.
  unfold first_at. split; intros [Hp Hf]; (split; [done|]).
  - intros j y Hj Hy Heq. unfold id in Heq. subst y. by eapply Hf.
  - intros q Hq Hv. by eapply Hf.
Qed.

(** Every value of a series has a first position. *)
Lemma first_at_exists (s : Series) v : v ∈ s → ∃ p, first_at s p v.
Proof.
  intros Hv.
  destruct (list_find_elem_of (λ x, x = v) s v Hv eq_refl) as [[p y] Hp].
  apply list_find_Some in Hp as (Hp & -> & Hlt). exists p. split; [done|].
  intros q Hq Hv'. by eapply Hlt.
Qed.

Lemma elem_of_unique s v : v ∈ unique s ↔ v ∈ s.
Proof.
  unfold unique. rewrite unique_from_keep_first. split.
  - intros [o Ho]%list_elem_of_lookup.
    apply keep_first_lookup in Ho as (i & Hi & _).
    by eapply list_elem_of_lookup_2.
  - intros [p [Hp Hf]%first_at_keep]%first_at_exists.
    destruct (keep_first_complete id [] s p v) as [o Ho];
      [done|by apply not_elem_of_nil|done|].
    by eapply list_elem_of_lookup_2.
Qed.

Lemma NoDup_unique s : NoDup (unique s).
Proof.
  unfold unique. rewrite unique_from_keep_first.
  rewrite <- (list_fmap_id (keep_first id [] s)). apply keep_first_NoDup.
Qed.

(** Filtering keeps the relative order of what it keeps. *)
Lemma filter_lookup_order {A} (P : A → Prop) `{∀ x, Decision (P x)}
    (l : list A) i j a b :
  i < j → l !! i = Some a → l !! j = Some b → P a → P b →
  ∃ i' j', i' < j' ∧ filter P l !! i' = Some a ∧ filter P l !! j' = Some b.
Proof.
  revert i j. induction l as [|y l IH]; intros i j Hlt Hi Hj Pa Pb; [done|].
  destruct j as [|j]; [lia|]. simpl in Hj. destruct i as [|i]; simpl in Hi.
  - simplify_eq. rewrite filter_cons_True by done.
    assert (b ∈ filter P l) as [j' Hj']%list_elem_of_lookup.
    { apply list_elem_of_filter. split; [done|].
      by eapply list_elem_of_lookup_2. }
    exists 0, (S j'). split_and!; [lia|done..].
  - destruct (IH i j) as (i' & j' & Hlt' & Hi' & Hj'); [lia|done..|].
    destruct (decide (P y)).
    + rewrite filter_cons_True by done.
      exists (S i'), (S j'). split_and!; [lia|done..].
    + rewrite filter_cons_False by done. by exists i', j'.
Qed.

Lemma dropna_single_column (vals : Series) c :
  dropna (DataFrame_of_values vals c)
  = {| columns := [c];
       rows := (λ v, [v]) <$> filter (λ v, isnull v = false) vals |}.
Proof.
  unfold dropna, DataFrame_of_values. simpl. f_equal.
  induction vals as [|v vals IH]; [done|].
  rewrite fmap_cons. destruct (isnull v) eqn:Hv.
  - rewrite filter_cons_False.
    2: { rewrite Forall_singleton. unfold notnull, iloc. simpl.
         rewrite Hv. simpl. tauto. }
    rewrite (filter_cons_False (λ v, isnull v = false)) by (by rewrite Hv).
    done.
  - rewrite filter_cons_True.
    2: { rewrite Forall_singleton. unfold notnull, iloc. simpl.
         rewrite Hv. simpl. tauto. }
    rewrite (filter_cons_True (λ v, isnull v = false)) by done.
    by rewrite fmap_cons, IH.
Qed.

(** C4.  The ship-mode table holds exactly the distinct values of the Ship
    Mode column that are not missing, in the order of their first
    appearance; the column Standard, Standard, Express, missing gives the
    two records Standard and Express. *)
Theorem ship_mode_dimension_distinct_non_null (df : DataFrame) (s : Series)
    (out : DataFrame) :
  getitem df "Ship Mode" = Some s →
  ship_modes_df df = Some out →
  distinct_non_null_in_order s out ∧
  (s = [Str "Standard"; Str "Standard"; Str "Express"; NaN] →
   rows out = [[Str "Standard"]; [Str "Express"]]).
Proof.
  intros Hs. unfold ship_modes_df, ship_mode_col, reset_index. rewrite Hs.
  simpl. rewrite dropna_single_column. intros [= <-]. split.
  - exists (filter (λ v, isnull v = false) (unique s)). split_and!.
    + done.
    + apply NoDup_filter, NoDup_unique.
    + intros v. rewrite list_elem_of_filter, elem_of_unique. tauto.
    + intros p q a b Hlt [Hp Hfp]%first_at_keep [Hq Hfq]%first_at_keep Ha Hb.
      destruct (keep_first_order id [] s p q a b) as (u1 & u2 & Hu & H1 & H2);
        [done|done|done|by apply not_elem_of_nil|by apply not_elem_of_nil
        |done|done|].
      unfold unique. rewrite unique_from_keep_first.
      by eapply filter_lookup_order.
  - by intros ->.
Qed.

Lemma ship_mode_dimension_distinct_non_null_witness :
  getitem ship_mode_scenario "Ship Mode"
  = Some [Str "Standard"; Str "Standard"; Str "Express"; NaN] ∧
  ship_modes_df ship_mode_scenario
  = Some {| columns := ["Ship Mode"];
            rows := [[Str "Standard"]; [Str "Express"]] |} ∧
  distinct_non_null_in_order
    [Str "Standard"; Str "Standard"; Str "Express"; NaN]
    {| columns := ["Ship Mode"];
       rows := [[Str "Standard"]; [Str "Express"]] |}.
Proof.
  split; [reflexivity|]. split; [reflexivity|].
  exact (proj1 (ship_mode_dimension_distinct_non_null ship_mode_scenario
                  [Str "Standard"; Str "Standard"; Str "Express"; NaN]
                  {| columns := ["Ship Mode"];
                     rows := [[Str "Standard"]; [Str "Express"]] |}
                  eq_refl eq_refl)).
Defined.

(** ** Assigning a column *)

Lemma iloc_set_cell i j v r :
  iloc (set_cell i v r) j = if decide (j = i) then v else iloc r j.
Proof.
  unfold iloc, set_cell. destruct (decide (j = i)) as [->|Hne].
  - rewrite list_lookup_insert_eq; [done|]. rewrite length_app, length_replicate. lia.
  - rewrite list_lookup_insert_ne by done.
    destruct (decide (j < length r)) as [Hlt|Hge].
    + by rewrite lookup_app_l.
    + rewrite lookup_app_r by lia. rewrite (lookup_ge_None_2 r j) by lia.
      destruct (replicate _ _ !! _) as [x|] eqn:Hx; [|done].
      by apply lookup_replicate in Hx as [-> _].
Qed.

Lemma columns_setitem df c s : c ∈ columns df → columns (setitem df c s) = columns df.
Proof. intros [i Hi]%get_loc_elem_of. unfold setitem. by rewrite Hi. Qed.

Lemma len_setitem df c s : len (setitem df c s) = len df.
Proof. unfold setitem, len. destruct (get_loc _ _); simpl; by rewrite length_imap. Qed.

Lemma getitem_setitem_eq df c s :
  c ∈ columns df → length s = len df → getitem (setitem df c s) c = Some s.
Proof.
  intros [i Hi]%get_loc_elem_of Hlen. unfold setitem. rewrite Hi.
  erewrite getitem_get_loc by done. simpl. f_equal.
  apply list_eq. intros k. rewrite list_lookup_fmap, list_lookup_imap.
  destruct (rows df !! k) as [r|] eqn:Hr; simpl.
  - rewrite iloc_set_cell, decide_True by done.
    apply lookup_lt_Some in Hr. unfold len in Hlen.
    destruct (lookup_lt_is_Some_2 s k) as [x Hx]; [lia|]. by rewrite Hx.
  - apply lookup_ge_None in Hr. unfold len in Hlen. symmetry. apply lookup_ge_None. lia.
Qed.

Lemma getitem_setitem_ne df c c' s :
  c ∈ columns df → c' ≠ c → getitem (setitem df c s) c' = getitem df c'.
Proof.
  intros [i Hi]%get_loc_elem_of Hne. unfold setitem. rewrite Hi.
  unfold getitem. simpl. destruct (get_loc c' (columns df)) as [j|] eqn:Hj; [|done].
  simpl. f_equal. 
  assert (j ≠ i) as Hji.
  { intros ->. apply get_loc_Some in Hi as [Hi _]. apply get_loc_Some in Hj as [Hj _]. congruence. }
  apply list_eq. intros k. rewrite !list_lookup_fmap, list_lookup_imap.
  destruct (rows df !! k) as [r|]; [|done]. simpl.
  by rewrite iloc_set_cell, decide_False.
Qed.

(** ** The script monad *)

Lemma bind_print {A} (line : string) (m : M A) :
  (print line ;; m) = (Print line :: trace m, outcome m).
Proof. by destruct m. Qed.

Lemma bind_value {A B} t (a : A) (k : A → M B) :
  ((t, inr a) : M A) ≫= k = (t ++ trace (k a), outcome (k a)).
Proof. unfold mbind, M_bind, bind. by destruct (k a). Qed.

Lemma bind_raised {A B} t e (k : A → M B) :
  ((t, inl e) : M A) ≫= k = (t, inl e).
Proof. done. Qed.

Lemma bind_ret {A B} (a : A) (k : A → M B) : mret a ≫= k = k a.
Proof. unfold mret, M_ret, ret. rewrite bind_value. by destruct (k a). Qed.

(** ** Saving, selecting and formatting *)

Lemma save_run w table name :
  save w table name =
  match to_csv_error w (table_path w name) table with
  | None =>
      ([ToCsv (table_path w name) table;
        Print ("    > Saved " +:+ pretty (len table) +:+ " records to: "
               +:+ table_path w name)], inr tt)
  | Some msg =>
      ([Print ("[!] Error while saving " +:+ name +:+ ": " +:+ msg)], inr tt)
  end.
Proof.
  unfold save, to_csv, table_path.
  destruct (to_csv_error _ _ _); reflexivity.
Qed.

Lemma fact_columns_renamed :
  (λ c, default c (rename_map !! c)) <$> fact_sales_df_columns
  = fact_sales_sql_columns.
Proof. reflexivity. Qed.

Lemma NoDup_fact_sales_sql_columns : NoDup fact_sales_sql_columns.
Proof. by apply (bool_decide_unpack _). Qed.

Lemma fact_sales_selected_Some df fact :
  fact_sales_selected df = Some fact →
  fact = {| columns := fact_sales_sql_columns;
            rows := project df fact_sales_df_columns <$> rows df |}.
Proof.
  unfold fact_sales_selected.
  destruct (getitem_list df _) as [sel|] eqn:Hsel; [|done].
  apply getitem_list_Some in Hsel as ->. intros [= <-].
  unfold rename. simpl columns. by rewrite fact_columns_renamed.
Qed.

Lemma fact_selected_column df fact k src tgt :
  fact_sales_selected df = Some fact →
  fact_sales_df_columns !! k = Some src →
  fact_sales_sql_columns !! k = Some tgt →
  getitem fact tgt = getitem df src.
Proof.
  intros Hfact Hsrc Htgt.
  assert (src ∈ columns df) as [i Hi]%get_loc_elem_of.
  { unfold fact_sales_selected in Hfact.
    destruct (getitem_list df _) as [sel|] eqn:Hsel; [|done].
    eapply getitem_list_elem_of; [done|]. by eapply list_elem_of_lookup_2. }
  apply fact_sales_selected_Some in Hfact as ->.
  rewrite (getitem_get_loc _ _ k), (getitem_get_loc _ _ i) by
    (done || by apply get_loc_NoDup, Htgt; apply NoDup_fact_sales_sql_columns).
  simpl. f_equal. rewrite <- list_fmap_compose. apply list_fmap_ext.
  intros _ r _. unfold compose, iloc at 1, project.
  rewrite list_lookup_fmap, Hsrc. simpl. by apply cell_get_loc.
Qed.

Lemma is_datetimelike_to_datetime parser s :
  is_datetimelike (to_datetime parser s) = true.
Proof.
  unfold to_datetime, is_datetimelike. apply forallb_forall.
  intros v [x [-> _]]%list_elem_of_In%list_elem_of_fmap.
  unfold to_datetime_value. destruct x; try done; by destruct (parser s _).
Qed.

Lemma format_dates_run fact s1 s2 :
  getitem fact "OrderDate" = Some s1 →
  getitem fact "ShipDate" = Some s2 →
  format_dates fact =
    if is_datetimelike s1 then
      let fact1 := setitem fact "OrderDate" (formatted s1) in
      if is_datetimelike s2 then
        ([], inr (setitem fact1 "ShipDate" (formatted s2)))
      else ([Print format_warning], inr fact1)
    else ([Print format_warning], inr fact).
Proof.
  intros H1 H2. unfold format_dates, format_date_column, dt_strftime.
  rewrite H1. simpl. destruct (is_datetimelike s1); [|reflexivity].
  simpl. rewrite getitem_setitem_ne, H2; [| |done].
  - simpl. destruct (is_datetimelike s2); reflexivity.
  - destruct (decide ("OrderDate" ∈ columns fact)); [done|].
    by rewrite getitem_None in H1.
Qed.

Lemma missing_cols_nil df :
  missing_cols df = [] ↔ Forall (λ c, c ∈ columns df) fact_sales_df_columns.
Proof.
  unfold missing_cols. rewrite Forall_forall. split.
  - intros Hnil c Hc. destruct (decide (c ∈ columns df)) as [|Hn]; [done|].
    by destruct (filter_nil_not_elem_of _ _ c Hnil Hn).
  - intros Hall. induction fact_sales_df_columns as [|c l IH]; [done|].
    rewrite filter_cons_False.
    + apply IH. intros x Hx. apply Hall. by right.
    + intros Hn. apply Hn, Hall. by left.
Qed.

Lemma written_save w table name :
  written (trace (save w table name))
  = match to_csv_error w (table_path w name) table with
    | None => [(table_path w name, table)]
    | Some _ => []
    end.
Proof. rewrite save_run. by destruct (to_csv_error _ _ _). Qed.

Lemma outcome_save w table name : outcome (save w table name) = inr tt.
Proof. rewrite save_run. by destruct (to_csv_error _ _ _). Qed.

(** With its fourteen columns there, the fact table is selected,
    formatted as far as the date columns allow, and saved. *)
Lemma create_fact_sales_run w df :
  Forall (λ c, c ∈ columns df) fact_sales_df_columns →
  ∃ fact t out,
    fact_sales_selected df = Some fact ∧
    format_dates fact = (t, inr out) ∧
    written t = [] ∧
    written (trace (create_fact_sales w df))
    = written (trace (save w out "FactSales.csv")) ∧
    outcome (create_fact_sales w df) = inr tt ∧
    fact_table_of df out.
Proof.
  intros Hall.
  destruct (getitem_list_is_Some _ _ Hall) as [sel Hsel].
  assert (fact_sales_selected df = Some (rename rename_map sel)) as Hfact.
  { unfold fact_sales_selected. by rewrite Hsel. }
  set (fact := rename rename_map sel) in *.
  pose proof (fact_selected_column df fact 3 "Order Date" "OrderDate"
                Hfact eq_refl eq_refl) as Hod.
  pose proof (fact_selected_column df fact 4 "Ship Date" "ShipDate"
                Hfact eq_refl eq_refl) as Hsd.
  assert (is_Some (getitem df "Order Date")) as [od Hod'].
  { apply getitem_is_Some. rewrite Forall_forall in Hall. apply Hall.
    by apply (bool_decide_unpack _). }
  assert (is_Some (getitem df "Ship Date")) as [sd Hsd'].
  { apply getitem_is_Some. rewrite Forall_forall in Hall. apply Hall.
    by apply (bool_decide_unpack _). }
  rewrite Hod' in Hod. rewrite Hsd' in Hsd.
  assert (columns fact = fact_sales_sql_columns) as Hcols.
  { by rewrite (fact_sales_selected_Some _ _ Hfact). }
  assert (len fact = len df) as Hlen.
  { rewrite (fact_sales_selected_Some _ _ Hfact). unfold len. simpl.
    by rewrite length_fmap. }
  assert ("OrderDate" ∈ columns fact) as Hin1.
  { rewrite Hcols. by apply (bool_decide_unpack _). }
  assert ("ShipDate" ∈ columns fact) as Hin2.
  { rewrite Hcols. by apply (bool_decide_unpack _). }
  assert (∀ k src tgt,
     fact_sales_df_columns !! k = Some src →
     fact_sales_sql_columns !! k = Some tgt →
     getitem fact tgt = getitem df src) as Hother.
  { intros. by eapply fact_selected_column. }
  pose proof (format_dates_run fact od sd Hod Hsd) as Hfmt.
  assert (∃ t out, format_dates fact = (t, inr out) ∧ written t = [] ∧
                   fact_table_of df out) as (t & out & Hrun & Ht & Hout).
  { destruct (is_datetimelike od) eqn:Hd1; [destruct (is_datetimelike sd) eqn:Hd2|].
    - eexists _, _. split; [exact Hfmt|]. split; [done|].
      split_and!.
      + by rewrite !columns_setitem by (by rewrite ?columns_setitem).
      + by rewrite !len_setitem.
      + intros k src tgt Hs Ht' Hn1 Hn2.
        rewrite !getitem_setitem_ne by (by rewrite ?columns_setitem).
        by eapply Hother.
      + exists od, sd. rewrite Hd1, Hd2. split_and!; [done..| |].
        * rewrite getitem_setitem_ne by (by rewrite ?columns_setitem).
          rewrite getitem_setitem_eq; [done..|].
          unfold formatted. rewrite length_fmap, Hlen.
          by eapply getitem_length.
        * rewrite getitem_setitem_eq; [done|by rewrite ?columns_setitem|].
          unfold formatted. rewrite length_fmap, len_setitem, Hlen.
          by eapply getitem_length.
    - eexists _, _. split; [exact Hfmt|]. split; [done|].
      split_and!.
      + by rewrite !columns_setitem.
      + by rewrite !len_setitem.
      + intros k src tgt Hs Ht' Hn1 Hn2.
        rewrite !getitem_setitem_ne by done. by eapply Hother.
      + exists od, sd. rewrite Hd1, Hd2. split_and!; [done..| |].
        * rewrite getitem_setitem_eq; [done..|].
          unfold formatted. rewrite length_fmap, Hlen.
          by eapply getitem_length.
        * by rewrite getitem_setitem_ne.
    - eexists _, _. split; [exact Hfmt|]. split; [done|].
      split_and!; [done..| |].
      + intros k src tgt Hs Ht' Hn1 Hn2. by eapply Hother.
      + exists od, sd. rewrite Hd1. by split_and!. }
  exists fact, t, out. split_and!; [done..| | |done].
  - unfold create_fact_sales. rewrite bind_print.
    rewrite bool_decide_eq_false_2 by (by rewrite (proj2 (missing_cols_nil df) Hall); intros []).
    rewrite Hfact. unfold or_raise. rewrite bind_ret, !bind_print, Hrun, bind_value.
    unfold trace at 1 2 3. simpl. unfold written. rewrite omap_app. 
    fold (written t). by rewrite Ht.
  - unfold create_fact_sales. rewrite bind_print.
    rewrite bool_decide_eq_false_2 by (by rewrite (proj2 (missing_cols_nil df) Hall); intros []).
    rewrite Hfact. unfold or_raise. rewrite bind_ret, !bind_print, Hrun, bind_value.
    unfold outcome at 1 2 3. simpl. apply outcome_save.
Qed.

(** C2.  When the source has the fourteen columns of the fact table, the
    table handed to FactSales.csv has as many records as the source (no
    record is dropped) and its columns are the fourteen source columns
    under their SQL names, in order: Order ID as OrderID, Customer ID as
    CustomerID, Product ID as ProductID, Order Date as OrderDate, Ship
    Date as ShipDate, Ship Mode as ShipMode, the other eight under their
    own names. *)
Theorem fact_projection_rows_and_columns (w : World) (df : DataFrame) :
  Forall (λ c, c ∈ columns df) fact_sales_df_columns →
  ∃ out,
    written (trace (create_fact_sales w df))
    = match to_csv_error w (table_path w "FactSales.csv") out with
      | None => [(table_path w "FactSales.csv", out)]
      | Some _ => []
      end ∧
    len out = len df ∧
    columns out
    = ["OrderID"; "CustomerID"; "ProductID"; "OrderDate"; "ShipDate";
       "ShipMode"; "Sales"; "Order_Year"; "Order_Month"; "Order_Day";
       "Order_Weekday"; "Shipping_Delay"; "Log_Sales"; "Scaled_Sales"] ∧
    zip fact_sales_df_columns (columns out)
    = [("Order ID", "OrderID"); ("Customer ID", "CustomerID");
       ("Product ID", "ProductID"); ("Order Date", "OrderDate");
       ("Ship Date", "ShipDate"); ("Ship Mode", "ShipMode");
       ("Sales", "Sales"); ("Order_Year", "Order_Year");
       ("Order_Month", "Order_Month"); ("Order_Day", "Order_Day");
       ("Order_Weekday", "Order_Weekday");
       ("Shipping_Delay", "Shipping_Delay"); ("Log_Sales", "Log_Sales");
       ("Scaled_Sales", "Scaled_Sales")] ∧
    fact_table_of df out.
Proof.
  intros Hall.
  destruct (create_fact_sales_run w df Hall)
    as (fact & t & out & _ & _ & _ & Hw & _ & Hout).
  exists out. rewrite Hw, written_save.
  destruct Hout as (Hcols & Hlen & Hrest). rewrite Hcols.
  split_and!; done.
Qed.

Lemma fact_projection_rows_and_columns_witness :
  Forall (λ c, c ∈ columns sample) fact_sales_df_columns ∧
  ∃ out,
    written (trace (create_fact_sales (world_of sample) sample))
    = [(table_path (world_of sample) "FactSales.csv", out)] ∧
    len out = 5 ∧ fact_table_of sample out.
Proof.
  assert (Forall (λ c, c ∈ columns sample) fact_sales_df_columns) as Hall.
  { apply (bool_decide_unpack _). vm_compute. exact I. }
  split; [exact Hall|].
  destruct (fact_projection_rows_and_columns (world_of sample) sample Hall)
    as (out & Hw & Hlen & _ & _ & Hout).
  exists out. split_and!; done.
Defined.

(** ** Formatting a date *)

Lemma zero_pad_four_digits (y : Z) :
  (0 ≤ y ≤ 9999)%Z → zero_pad 4 y = four_digits y.
Proof.
  intros Hy.
  assert (Forall (λ k, zero_pad 4 k = four_digits k) (seqZ 0 10000))
    as Hall.
  { apply (bool_decide_unpack _). vm_compute. exact I. }
  rewrite Forall_forall in Hall. apply Hall, elem_of_seqZ. lia.
Qed.

Lemma zero_pad_two_digits (n : Z) :
  (0 ≤ n ≤ 99)%Z → zero_pad 2 n = two_digits n.
Proof.
  intros Hn.
  assert (Forall (λ k, zero_pad 2 k = two_digits k) (seqZ 0 100)) as Hall.
  { apply (bool_decide_unpack _). vm_compute. exact I. }
  rewrite Forall_forall in Hall. apply Hall, elem_of_seqZ. lia.
Qed.

(** The format of lines 135-136 gives the ten characters YYYY-MM-DD. *)
Lemma strftime_calendar_date (t : Timestamp) :
  calendar_date t → strftime "%Y-%m-%d" t = YYYY_MM_DD t.
Proof.
  intros (Hy & Hm & Hd).
  change (strftime "%Y-%m-%d" t)
    with (zero_pad 4 (year t) +:+ String "-" (zero_pad 2 (month t)
            +:+ String "-" (zero_pad 2 (day t) +:+ ""))).
  rewrite zero_pad_four_digits, !zero_pad_two_digits by lia. reflexivity.
Qed.

(** ** Loading *)

Lemma getitem_Some_elem_of df c s : getitem df c = Some s → c ∈ columns df.
Proof.
  intros Hs. destruct (decide (c ∈ columns df)) as [|Hn]; [done|].
  by rewrite getitem_None in Hs.
Qed.

Lemma length_to_datetime parser s : length (to_datetime parser s) = length s.
Proof. unfold to_datetime. by rewrite length_fmap. Qed.

Lemma pd_to_datetime_converting parser s :
  pd_to_datetime (converting parser) s = mret (to_datetime parser s).
Proof. unfold pd_to_datetime. simpl. by destruct (reads_a_date _ _). Qed.

Lemma convert_date_column_run parser df c :
  convert_date_column parser df c
  = mret (match getitem df c with
          | Some s => setitem df c (to_datetime parser s)
          | None => df
          end).
Proof.
  unfold convert_date_column, convert_date_column_with.
  destruct (has_column df c) eqn:Hc.
  - apply has_column_true in Hc. destruct (getitem_is_Some _ _ Hc) as [s ->].
    unfold or_raise. by rewrite bind_ret, pd_to_datetime_converting, bind_ret.
  - apply has_column_false in Hc. by rewrite getitem_None.
Qed.

Lemma dates_have_nulls_run df :
  dates_have_nulls df
  = match getitem df "Order Date" with
    | None => raise (KeyError (py_repr "Order Date"))
    | Some od =>
        if isnull_any od then mret true
        else match getitem df "Ship Date" with
             | None => raise (KeyError (py_repr "Ship Date"))
             | Some sd => mret (isnull_any sd)
             end
    end.
Proof.
  unfold dates_have_nulls, or_raise.
  destruct (getitem df "Order Date") as [od|]; [|done].
  rewrite bind_ret. destruct (isnull_any od); [done|].
  destruct (getitem df "Ship Date") as [sd|]; [|done]. by rewrite bind_ret.
Qed.

(** The frame after the two conversions, column by column. *)
Lemma coerce_dates_both parser df od sd :
  getitem df "Order Date" = Some od →
  getitem df "Ship Date" = Some sd →
  getitem (coerce_dates parser df) "Order Date" = Some (to_datetime parser od) ∧
  getitem (coerce_dates parser df) "Ship Date" = Some (to_datetime parser sd) ∧
  columns (coerce_dates parser df) = columns df ∧
  len (coerce_dates parser df) = len df ∧
  (∀ c, c ≠ "Order Date" → c ≠ "Ship Date" →
        getitem (coerce_dates parser df) c = getitem df c).
Proof.
  intros Hod Hsd. unfold coerce_dates. rewrite Hod.
  pose proof (getitem_Some_elem_of _ _ _ Hod) as Hin1.
  pose proof (getitem_Some_elem_of _ _ _ Hsd) as Hin2.
  rewrite getitem_setitem_ne, Hsd by done.
  assert ("Ship Date" ∈ columns (setitem df "Order Date" (to_datetime parser od)))
    as Hin2' by (by rewrite columns_setitem).
  split_and!.
  - rewrite getitem_setitem_ne by done. apply getitem_setitem_eq; [done|].
    rewrite length_to_datetime. by eapply getitem_length.
  - apply getitem_setitem_eq; [done|].
    rewrite length_to_datetime, len_setitem. by eapply getitem_length.
  - by rewrite !columns_setitem.
  - by rewrite !len_setitem.
  - intros c H1 H2. by rewrite !getitem_setitem_ne.
Qed.

Lemma coerce_dates_no_order_date parser df :
  getitem df "Order Date" = None →
  getitem (coerce_dates parser df) "Order Date" = None.
Proof.
  intros Hod. unfold coerce_dates. rewrite Hod.
  destruct (getitem df "Ship Date") as [sd|] eqn:Hsd; [|done].
  rewrite getitem_setitem_ne; [done| |done].
  by eapply getitem_Some_elem_of.
Qed.

Lemma coerce_dates_no_ship_date parser df od :
  getitem df "Order Date" = Some od →
  getitem df "Ship Date" = None →
  coerce_dates parser df = setitem df "Order Date" (to_datetime parser od) ∧
  getitem (coerce_dates parser df) "Order Date" = Some (to_datetime parser od) ∧
  getitem (coerce_dates parser df) "Ship Date" = None.
Proof.
  intros Hod Hsd. unfold coerce_dates. rewrite Hod.
  pose proof (getitem_Some_elem_of _ _ _ Hod) as Hin1.
  rewrite getitem_setitem_ne, Hsd by done. split_and!; [done| |].
  - apply getitem_setitem_eq; [done|].
    rewrite length_to_datetime. by eapply getitem_length.
  - by rewrite getitem_setitem_ne.
Qed.

Lemma load_try_run parser w df :
  read_csv w (transformed_file_path w) = ReadOk df →
  load_try parser w
  = (print ("    > Successfully loaded " +:+ pretty (len df) +:+ " rows.") ;;
     nulls ← dates_have_nulls (coerce_dates parser df);
     (if nulls : bool then print null_dates_warning else mret tt) ;;
     mret (coerce_dates parser df)).
Proof.
  intros Hread. unfold load_try, load_try_with, pd_read_csv.
  rewrite Hread. cbv iota.
  change (convert_date_column_with (converting parser))
    with (convert_date_column parser).
  rewrite bind_ret, !bind_print.
  repeat (rewrite convert_date_column_run || rewrite bind_ret).
  reflexivity.
Qed.

(** Loading when both date columns are there: no exception, the
    warning when a date is missing, and the coerced frame. *)
Lemma load_run_both parser w df od sd :
  read_csv w (transformed_file_path w) = ReadOk df →
  getitem df "Order Date" = Some od →
  getitem df "Ship Date" = Some sd →
  load parser w
  = (loading_lines w df ++
     (if isnull_any (to_datetime parser od) || isnull_any (to_datetime parser sd)
      then [Print null_dates_warning] else []),
     inr (coerce_dates parser df)).
Proof.
  intros Hread Hod Hsd.
  destruct (coerce_dates_both parser df od sd Hod Hsd) as (H1 & H2 & _).
  unfold load, load_with.
  change (load_try_with (converting parser) w) with (load_try parser w).
  rewrite (load_try_run _ _ _ Hread), dates_have_nulls_run, H1, H2.
  destruct (isnull_any (to_datetime parser od)); [reflexivity|].
  destruct (isnull_any (to_datetime parser sd)); reflexivity.
Qed.

(** Loading without the Order Date column: line 42 raises, the run ends. *)
Lemma load_run_no_order_date parser w df :
  read_csv w (transformed_file_path w) = ReadOk df →
  getitem df "Order Date" = None →
  load parser w
  = (loading_lines w df ++ [load_error_line "Order Date"], inl SystemExit).
Proof.
  intros Hread Hod.
  unfold load, load_with.
  change (load_try_with (converting parser) w) with (load_try parser w).
  rewrite (load_try_run _ _ _ Hread), dates_have_nulls_run.
  by rewrite coerce_dates_no_order_date.
Qed.

(** Loading without the Ship Date column: line 42 looks at Ship Date only
    when no Order Date is missing. *)
Lemma load_run_no_ship_date parser w df od :
  read_csv w (transformed_file_path w) = ReadOk df →
  getitem df "Order Date" = Some od →
  getitem df "Ship Date" = None →
  load parser w
  = if isnull_any (to_datetime parser od)
    then (loading_lines w df ++ [Print null_dates_warning],
          inr (coerce_dates parser df))
    else (loading_lines w df ++ [load_error_line "Ship Date"],
          inl SystemExit).
Proof.
  intros Hread Hod Hsd.
  destruct (coerce_dates_no_ship_date parser df od Hod Hsd) as (_ & H1 & H2).
  unfold load, load_with.
  change (load_try_with (converting parser) w) with (load_try parser w).
  rewrite (load_try_run _ _ _ Hread), dates_have_nulls_run, H1, H2.
  destruct (isnull_any (to_datetime parser od)); reflexivity.
Qed.

(** ** Loading, whatever pandas finds about the date columns *)

Lemma to_datetime_cells parser s :
  Forall (λ c, c = NaT ∨ ∃ t, c = Datetime t) (to_datetime parser s).
Proof.
  unfold to_datetime. apply Forall_fmap, Forall_forall. intros v _. simpl.
  unfold to_datetime_value. destruct v; eauto; destruct (parser s _); eauto.
Qed.

(** An object column of dates is no datetime column. *)
Lemma is_datetimelike_as_object (cells : Series) :
  Forall (λ c, c = NaT ∨ ∃ t, c = Datetime t) cells →
  is_datetimelike (as_object <$> cells) = negb (existsb notnull cells).
Proof.
  induction 1 as [|c cells [->|[t ->]] _ IH]; [done|exact IH|done].
Qed.

(** [pd.to_datetime] returns a column of the same length or raises; what
    it returns is a datetime column, by its cells, exactly when the column
    converts. *)
Lemma pd_to_datetime_cases pd s :
  (∃ s', pd_to_datetime pd s = mret s' ∧ length s' = length s
         ∧ is_datetimelike s' = converts pd s) ∨
  (∃ msg, pd_to_datetime pd s = raise (ValueError msg)
          ∧ verdict pd s = Refuses msg ∧ reads_a_date pd s = true).
Proof.
  unfold pd_to_datetime, converts.
  destruct (reads_a_date pd s) eqn:Hr; [destruct (verdict pd s) eqn:Hv|].
  - left. eexists. split_and!; [done|apply length_to_datetime|].
    apply is_datetimelike_to_datetime.
  - left. eexists. split_and!; [done| |].
    + by rewrite length_fmap, length_to_datetime.
    + rewrite is_datetimelike_as_object by apply to_datetime_cells.
      unfold reads_a_date in Hr. by rewrite Hr.
  - right. by exists msg.
  - left. eexists. split_and!; [done|apply length_to_datetime|].
    rewrite is_datetimelike_to_datetime. by destruct (verdict pd s).
Qed.

Lemma pd_to_datetime_converts pd s :
  converts pd s = true →
  pd_to_datetime pd s = mret (to_datetime (parse_cell pd) s).
Proof.
  unfold pd_to_datetime, converts.
  destruct (reads_a_date pd s); [|done]. by destruct (verdict pd s).
Qed.

Lemma pd_to_datetime_objects pd s :
  verdict pd s = KeepsObjects → reads_a_date pd s = true →
  pd_to_datetime pd s = mret (as_object <$> to_datetime (parse_cell pd) s).
Proof. intros Hv Hr. unfold pd_to_datetime. by rewrite Hr, Hv. Qed.

Lemma pd_to_datetime_refuses pd s msg :
  verdict pd s = Refuses msg → reads_a_date pd s = true →
  pd_to_datetime pd s = raise (ValueError msg).
Proof. intros Hv Hr. unfold pd_to_datetime. by rewrite Hr, Hv. Qed.

(** A column with a cell that reads as a date reads a date. *)
Lemma reads_a_date_lookup pd s k v t :
  s !! k = Some v → to_datetime_value (parse_cell pd) s v = Datetime t →
  reads_a_date pd s = true.
Proof.
  intros Hk Hv. unfold reads_a_date. apply existsb_exists.
  exists (Datetime t). split; [|done]. apply list_elem_of_In.
  apply (list_elem_of_lookup_2 _ k). unfold to_datetime.
  by rewrite list_lookup_fmap, Hk, <- Hv.
Qed.

Lemma convert_date_column_with_run pd df c :
  convert_date_column_with pd df c
  = match getitem df c with
    | Some s => s' ← pd_to_datetime pd s; mret (setitem df c s')
    | None => mret df
    end.
Proof.
  unfold convert_date_column_with. destruct (has_column df c) eqn:Hc.
  - apply has_column_true in Hc. destruct (getitem_is_Some _ _ Hc) as [s ->].
    unfold or_raise. by rewrite bind_ret.
  - apply has_column_false in Hc. by rewrite getitem_None.
Qed.

(** The frame after the two assignments, column by column. *)
Lemma with_dates_columns df od sd od' sd' :
  getitem df "Order Date" = Some od →
  getitem df "Ship Date" = Some sd →
  length od' = length od → length sd' = length sd →
  getitem (with_dates df od' sd') "Order Date" = Some od' ∧
  getitem (with_dates df od' sd') "Ship Date" = Some sd' ∧
  columns (with_dates df od' sd') = columns df ∧
  len (with_dates df od' sd') = len df ∧
  (∀ c, c ≠ "Order Date" → c ≠ "Ship Date" →
        getitem (with_dates df od' sd') c = getitem df c).
Proof.
  intros Hod Hsd Hl1 Hl2. unfold with_dates.
  pose proof (getitem_Some_elem_of _ _ _ Hod) as Hin1.
  pose proof (getitem_Some_elem_of _ _ _ Hsd) as Hin2.
  assert ("Ship Date" ∈ columns (setitem df "Order Date" od'))
    as Hin2' by (by rewrite columns_setitem).
  split_and!.
  - rewrite getitem_setitem_ne by done. apply getitem_setitem_eq; [done|].
    rewrite Hl1. by eapply getitem_length.
  - apply getitem_setitem_eq; [done|].
    rewrite Hl2, len_setitem. by eapply getitem_length.
  - by rewrite !columns_setitem.
  - by rewrite !len_setitem.
  - intros c H1 H2. by rewrite !getitem_setitem_ne.
Qed.

Lemma load_try_with_run pd w df :
  read_csv w (transformed_file_path w) = ReadOk df →
  load_try_with pd w
  = (print ("    > Successfully loaded " +:+ pretty (len df) +:+ " rows.") ;;
     df ← convert_date_column_with pd df "Order Date";
     df ← convert_date_column_with pd df "Ship Date";
     nulls ← dates_have_nulls df;
     (if nulls : bool then print null_dates_warning else mret tt) ;;
     mret df).
Proof.
  intros Hread. unfold load_try_with, pd_read_csv. rewrite Hread. cbv iota.
  by rewrite bind_ret.
Qed.

(** Loading when both date columns are there and [pd.to_datetime] returns
    for both: the warning when a date is missing, and the frame with the
    two columns it returned. *)
Lemma load_with_run_both pd w df od sd od' sd' :
  read_csv w (transformed_file_path w) = ReadOk df →
  getitem df "Order Date" = Some od →
  getitem df "Ship Date" = Some sd →
  pd_to_datetime pd od = mret od' →
  pd_to_datetime pd sd = mret sd' →
  load_with pd w
  = (loading_lines w df ++
     (if isnull_any od' || isnull_any sd'
      then [Print null_dates_warning] else []),
     inr (with_dates df od' sd')).
Proof.
  intros Hread Hod Hsd Hod' Hsd'.
  assert (length od' = length od) as Hl1.
  { destruct (pd_to_datetime_cases pd od) as [(s & Hs & Hl & _)|(m & Hm & _)];
      rewrite Hod' in *; by simplify_eq. }
  assert (length sd' = length sd) as Hl2.
  { destruct (pd_to_datetime_cases pd sd) as [(s & Hs & Hl & _)|(m & Hm & _)];
      rewrite Hsd' in *; by simplify_eq. }
  destruct (with_dates_columns df od sd od' sd' Hod Hsd Hl1 Hl2)
    as (H1 & H2 & _).
  unfold load_with. rewrite (load_try_with_run _ _ _ Hread).
  rewrite !convert_date_column_with_run, Hod, Hod', bind_ret.
  rewrite bind_print, bind_ret, convert_date_column_with_run.
  rewrite getitem_setitem_ne, Hsd, Hsd', !bind_ret;
    [|by eapply getitem_Some_elem_of|done].
  fold (with_dates df od' sd').
  rewrite dates_have_nulls_run, H1, H2.
  destruct (isnull_any od'); [reflexivity|].
  destruct (isnull_any sd'); reflexivity.
Qed.

(** Loading when [pd.to_datetime] refuses the Order Date column, or
    returns for it and refuses the Ship Date column: the handler of line
    49 prints the message and ends the run. *)
Lemma load_with_refused_order pd w df od msg :
  read_csv w (transformed_file_path w) = ReadOk df →
  getitem df "Order Date" = Some od →
  pd_to_datetime pd od = raise (ValueError msg) →
  load_with pd w
  = (loading_lines w df ++ [unexpected_load_error msg], inl SystemExit).
Proof.
  intros Hread Hod Hod'.
  unfold load_with. rewrite (load_try_with_run _ _ _ Hread).
  rewrite !convert_date_column_with_run, Hod, Hod'. reflexivity.
Qed.

Lemma load_with_refused_ship pd w df od sd od' msg :
  read_csv w (transformed_file_path w) = ReadOk df →
  getitem df "Order Date" = Some od →
  getitem df "Ship Date" = Some sd →
  pd_to_datetime pd od = mret od' →
  pd_to_datetime pd sd = raise (ValueError msg) →
  load_with pd w
  = (loading_lines w df ++ [unexpected_load_error msg], inl SystemExit).
Proof.
  intros Hread Hod Hsd Hod' Hsd'.
  unfold load_with. rewrite (load_try_with_run _ _ _ Hread).
  rewrite !convert_date_column_with_run, Hod, Hod', bind_ret.
  rewrite bind_print, bind_ret, convert_date_column_with_run.
  rewrite getitem_setitem_ne, Hsd, Hsd';
    [|by eapply getitem_Some_elem_of|done].
  reflexivity.
Qed.

(** ** The tables, one by one *)

Lemma run_eta {A} (m : M A) a : outcome m = inr a → m = (trace m, inr a).
Proof. destruct m as [t r]. simpl. by intros ->. Qed.

Lemma keyed_dimension_is_Some df cols key :
  Forall (λ c, c ∈ columns df) cols → key ∈ cols →
  is_Some (sel ← getitem_list df cols;
           reset_index <$> drop_duplicates [key] sel).
Proof.
  intros Hall Hkey. destruct (getitem_list_is_Some _ _ Hall) as [sel Hsel].
  rewrite Hsel. simpl. apply getitem_list_Some in Hsel as ->.
  unfold drop_duplicates. simpl.
  destruct (get_loc_elem_of _ _ Hkey) as [k ->]. simpl. by eexists.
Qed.

Lemma create_customers_present w df :
  forallb (has_column df) customer_cols = true →
  ∃ table, customers_df df = Some table ∧
    create_customers w df
    = (Print (newline +:+ "[*] Creating customers.csv...")
       :: trace (save w table "customers.csv"), inr tt).
Proof.
  intros Hall. unfold create_customers. rewrite Hall, bind_print.
  destruct (keyed_dimension_is_Some df customer_cols "Customer ID")
    as [table Ht]; [by apply forallb_has_column|by apply (bool_decide_unpack _)|].
  change (customers_df df = Some table) in Ht.
  exists table. split; [done|]. rewrite Ht.
  unfold or_raise. by rewrite bind_ret, outcome_save.
Qed.

Lemma create_customers_missing w df :
  forallb (has_column df) customer_cols = false →
  create_customers w df
  = ([Print (newline +:+ "[*] Creating customers.csv...");
      Print ("[!] Error: Cannot create customers.csv - some required "
             +:+ "columns are missing in the source file.")], inr tt).
Proof. intros Hall. unfold create_customers. by rewrite Hall. Qed.

Lemma create_products_present w df :
  forallb (has_column df) product_cols = true →
  ∃ table, products_df df = Some table ∧
    create_products w df
    = (Print (newline +:+ "[*] Creating products.csv...")
       :: trace (save w table "products.csv"), inr tt).
Proof.
  intros Hall. unfold create_products. rewrite Hall, bind_print.
  destruct (keyed_dimension_is_Some df product_cols "Product ID")
    as [table Ht]; [by apply forallb_has_column|by apply (bool_decide_unpack _)|].
  change (products_df df = Some table) in Ht.
  exists table. split; [done|]. rewrite Ht.
  unfold or_raise. by rewrite bind_ret, outcome_save.
Qed.

Lemma create_products_missing w df :
  forallb (has_column df) product_cols = false →
  create_products w df
  = ([Print (newline +:+ "[*] Creating products.csv...");
      Print ("[!] Error: Cannot create products.csv - some required "
             +:+ "columns are missing in the source file.")], inr tt).
Proof. intros Hall. unfold create_products. by rewrite Hall. Qed.

Lemma create_ship_modes_present w df :
  has_column df "Ship Mode" = true →
  ∃ table, ship_modes_df df = Some table ∧
    create_ship_modes w df
    = (Print (newline +:+ "[*] Creating DimShipMode.csv...")
       :: trace (save w table "DimShipMode.csv"), inr tt).
Proof.
  intros Hc. unfold create_ship_modes, ship_mode_col. rewrite Hc, bind_print.
  apply has_column_true in Hc. destruct (getitem_is_Some _ _ Hc) as [s Hs].
  assert (ship_modes_df df
          = Some (reset_index
                    (dropna (DataFrame_of_values (unique s) "Ship Mode"))))
    as Ht.
  { unfold ship_modes_df, ship_mode_col. by rewrite Hs. }
  eexists. split; [exact Ht|]. rewrite Ht. unfold or_raise.
  by rewrite bind_ret, outcome_save.
Qed.

Lemma create_ship_modes_missing w df :
  has_column df "Ship Mode" = false →
  create_ship_modes w df
  = ([Print (newline +:+ "[*] Creating DimShipMode.csv...");
      Print ("[!] Warning: Cannot create DimShipMode.csv - 'Ship Mode' "
             +:+ "column is missing.")], inr tt).
Proof. intros Hc. unfold create_ship_modes, ship_mode_col. by rewrite Hc. Qed.

Lemma create_fact_sales_missing w df :
  missing_cols df ≠ [] →
  create_fact_sales w df
  = ([Print (newline +:+ "[*] Creating the combined FactSales.csv file...");
      Print ("[!] Error: Cannot create FactSales.csv - the following "
             +:+ "columns are missing in the source file: "
             +:+ py_repr_list (missing_cols df));
      Print ("    Available columns are: " +:+ py_repr_list (columns df))],
     inr tt).
Proof.
  intros Hm. unfold create_fact_sales. by rewrite bool_decide_eq_true_2.
Qed.

(** No table ends the run. *)
Lemma outcome_create_customers w df : outcome (create_customers w df) = inr tt.
Proof.
  destruct (forallb (has_column df) customer_cols) eqn:Hall.
  - by destruct (create_customers_present w df Hall) as (? & _ & ->).
  - by rewrite create_customers_missing.
Qed.

Lemma outcome_create_products w df : outcome (create_products w df) = inr tt.
Proof.
  destruct (forallb (has_column df) product_cols) eqn:Hall.
  - by destruct (create_products_present w df Hall) as (? & _ & ->).
  - by rewrite create_products_missing.
Qed.

Lemma outcome_create_ship_modes w df :
  outcome (create_ship_modes w df) = inr tt.
Proof.
  destruct (has_column df "Ship Mode") eqn:Hc.
  - by destruct (create_ship_modes_present w df Hc) as (? & _ & ->).
  - by rewrite create_ship_modes_missing.
Qed.

Lemma outcome_create_fact_sales w df :
  outcome (create_fact_sales w df) = inr tt.
Proof.
  destruct (decide (missing_cols df = [])) as [Hm|Hm].
  - apply missing_cols_nil in Hm.
    by destruct (create_fact_sales_run w df Hm) as (? & ? & ? & _ & _ & _ & _ & ? & _).
  - by rewrite create_fact_sales_missing.
Qed.




Lemma table_path_inj w a b : table_path w a = table_path w b → a = b.
Proof.
  unfold table_path, os_path_join.
  assert (∀ s t1 t2, s +:+ t1 = s +:+ t2 → t1 = t2) as Hinj.
  { induction s as [|c s IH]; intros t1 t2; simpl; [done|].
    intros [= H]. by apply IH. }
  by intros ?%Hinj%Hinj.
Qed.

(** ** The whole run *)

Lemma create_tables_run w df :
  create_tables w df
  = (trace (create_customers w df) ++ trace (create_products w df)
     ++ trace (create_ship_modes w df) ++ trace (create_fact_sales w df)
     ++ [Print (newline +:+
           "[*] Final CSV files for loading have been successfully created.")],
     inr tt).
Proof.
  unfold create_tables.
  rewrite (run_eta _ _ (outcome_create_customers w df)), bind_value.
  rewrite (run_eta _ _ (outcome_create_products w df)), bind_value.
  rewrite (run_eta _ _ (outcome_create_ship_modes w df)), bind_value.
  rewrite (run_eta _ _ (outcome_create_fact_sales w df)), bind_value.
  reflexivity.
Qed.

Lemma ensure_output_folder_run w :
  ensure_output_folder w
  = if os_path_exists w output_path then ([], inr tt)
    else match os_makedirs_error w output_path with
         | None =>
             ([Print ("The output folder has been created: "
                      +:+ output_path)], inr tt)
         | Some msg =>
             ([Print ("Error creating output folder " +:+ output_path
                      +:+ ": " +:+ msg);
               Print "Please check the path and permissions."],
              inl SystemExit)
         end.
Proof.
  unfold ensure_output_folder, os_makedirs.
  destruct (os_path_exists w output_path); [done|].
  by destruct (os_makedirs_error w output_path).
Qed.

Lemma written_ensure_output_folder w :
  written (trace (ensure_output_folder w)) = [].
Proof.
  rewrite ensure_output_folder_run.
  destruct (os_path_exists w output_path); [done|].
  by destruct (os_makedirs_error w output_path).
Qed.

Lemma written_loading_lines w df : written (loading_lines w df) = [].
Proof. done. Qed.

(** The run, once the folder is there and the frame is loaded. *)
Lemma main_with_run pd w t df :
  outcome (ensure_output_folder w) = inr tt →
  load_with pd w = (t, inr df) →
  main_with pd w
  = (trace (ensure_output_folder w) ++ t ++ trace (create_tables w df),
     inr tt).
Proof.
  intros He Hl. unfold main_with.
  rewrite (run_eta _ _ He), bind_value, Hl, bind_value.
  unfold trace at 1, outcome at 1. simpl.
  by rewrite create_tables_run.
Qed.

Lemma main_with_run_exit pd w t e :
  outcome (ensure_output_folder w) = inr tt →
  load_with pd w = (t, inl e) →
  main_with pd w = (trace (ensure_output_folder w) ++ t, inl e).
Proof.
  intros He Hl. unfold main_with.
  rewrite (run_eta _ _ He), bind_value, Hl. done.
Qed.

Lemma main_with_run_no_folder pd w e :
  outcome (ensure_output_folder w) = inl e →
  main_with pd w = (trace (ensure_output_folder w), inl e).
Proof.
  intros He. unfold main_with.
  destruct (ensure_output_folder w) as [t r].
  simpl in He. by subst r.
Qed.

Lemma main_run parser w t df :
  outcome (ensure_output_folder w) = inr tt →
  load parser w = (t, inr df) →
  main parser w
  = (trace (ensure_output_folder w) ++ t ++ trace (create_tables w df),
     inr tt).
Proof. apply main_with_run. Qed.

Lemma main_run_exit parser w t e :
  outcome (ensure_output_folder w) = inr tt →
  load parser w = (t, inl e) →
  main parser w = (trace (ensure_output_folder w) ++ t, inl e).
Proof. apply main_with_run_exit. Qed.

Lemma main_run_no_folder parser w e :
  outcome (ensure_output_folder w) = inl e →
  main parser w = (trace (ensure_output_folder w), inl e).
Proof. apply main_with_run_no_folder. Qed.

Lemma trace_pair {A} t (r : Exn + A) : trace ((t, r) : M A) = t.
Proof. done. Qed.

Lemma written_app t1 t2 : written (t1 ++ t2) = written t1 ++ written t2.
Proof. apply omap_app. Qed.



(** ** Missing dates and missing date columns *)

Lemma isnull_any_count_null s : isnull_any s = false ↔ count_null s = 0.
Proof.
  unfold isnull_any, count_null. induction s as [|v s IH]; [done|].
  simpl. destruct (isnull v) eqn:Hv.
  - rewrite filter_cons_True by (by rewrite Hv). simpl. split; [done|lia].
  - rewrite filter_cons_False by (rewrite Hv; simpl; tauto). by simpl.
Qed.

Lemma missing_dates_zero parser df od sd :
  getitem df "Order Date" = Some od →
  getitem df "Ship Date" = Some sd →
  bool_decide (missing_dates parser df = (0, 0))
  = negb (isnull_any (to_datetime parser od)
          || isnull_any (to_datetime parser sd)).
Proof.
  intros Hod Hsd. unfold missing_dates. rewrite Hod, Hsd. simpl.
  destruct (isnull_any (to_datetime parser od)) eqn:H1; simpl.
  - apply bool_decide_eq_false. intros [= H0 _].
    apply isnull_any_count_null in H0. congruence.
  - destruct (isnull_any (to_datetime parser sd)) eqn:H2; simpl.
    + apply bool_decide_eq_false. intros [= _ H0].
      apply isnull_any_count_null in H0. congruence.
    + apply bool_decide_eq_true. f_equal; by apply isnull_any_count_null.
Qed.

(** A value that is no date becomes [NaT]. *)
Lemma to_datetime_coerces parser (s : Series) k v :
  s !! k = Some v → (∀ t, v ≠ Datetime t) → parser s v = None →
  to_datetime parser s !! k = Some NaT.
Proof.
  intros Hk Hv Hp. unfold to_datetime. rewrite list_lookup_fmap, Hk. simpl.
  unfold to_datetime_value. rewrite Hp. destruct v; try done.
  by destruct (Hv t).
Qed.

Lemma pd_to_datetime_returns pd s s' :
  pd_to_datetime pd s = mret s' →
  (converts pd s = true ∧ s' = to_datetime (parse_cell pd) s) ∨
  (converts pd s = false ∧ verdict pd s = KeepsObjects ∧
   s' = as_object <$> to_datetime (parse_cell pd) s).
Proof.
  intros Hs. destruct (converts pd s) eqn:Hc.
  - left. rewrite (pd_to_datetime_converts _ _ Hc) in Hs. by simplify_eq.
  - right. unfold converts in Hc.
    destruct (verdict pd s) as [| |msg] eqn:Hv; [done| |].
    + apply negb_false_iff in Hc.
      rewrite (pd_to_datetime_objects _ _ Hv Hc) in Hs. by simplify_eq.
    + apply negb_false_iff in Hc.
      by rewrite (pd_to_datetime_refuses _ _ _ Hv Hc) in Hs.
Qed.

(** A value that is no date is [NaT] in what [pd.to_datetime] returns. *)
Lemma pd_to_datetime_coerces pd s s' k v :
  pd_to_datetime pd s = mret s' →
  s !! k = Some v → (∀ t, v ≠ Datetime t) → parse_cell pd s v = None →
  s' !! k = Some NaT.
Proof.
  intros Hs Hk Hv Hp.
  pose proof (to_datetime_coerces (parse_cell pd) s k v Hk Hv Hp) as Hnat.
  destruct (pd_to_datetime_returns _ _ _ Hs) as [[_ ->]|(_ & _ & ->)];
    [done|].
  by rewrite list_lookup_fmap, Hnat.
Qed.

Lemma count_null_zero od' sd' :
  bool_decide (count_null od' = 0 ∧ count_null sd' = 0)
  = negb (isnull_any od' || isnull_any sd').
Proof.
  destruct (isnull_any od') eqn:H1; simpl.
  - apply bool_decide_eq_false. intros [H0 _].
    apply isnull_any_count_null in H0. congruence.
  - destruct (isnull_any sd') eqn:H2; simpl.
    + apply bool_decide_eq_false. intros [_ H0].
      apply isnull_any_count_null in H0. congruence.
    + apply bool_decide_eq_true. split; by apply isnull_any_count_null.
Qed.

(** C8, as the script has it.  With both date columns there, loading goes
    one of two ways.  Either [pd.to_datetime] returns for both columns:
    then a value that is no date has become the missing value [NaT]; when
    a date is missing after that, one fixed warning line is printed (it
    carries no counts); and the frame goes on with all its records and
    columns, the two date columns as [pd.to_datetime] returned them and
    the others as they were.  Or [pd.to_datetime] refuses a column as a
    whole, [errors='coerce'] notwithstanding: then its exception is caught
    by the handler of line 49, which prints the message and ends the
    run. *)
Theorem load_coerces_warns_and_keeps_rows
    (pd : Pandas) (w : World) (df : DataFrame) (od sd : Series) :
  read_csv w (transformed_file_path w) = ReadOk df →
  getitem df "Order Date" = Some od →
  getitem df "Ship Date" = Some sd →
  (∃ df' od' sd',
     pd_to_datetime pd od = mret od' ∧
     pd_to_datetime pd sd = mret sd' ∧
     load_with pd w
     = (loading_lines w df ++
        (if bool_decide (count_null od' = 0 ∧ count_null sd' = 0) then []
         else [Print null_dates_warning]),
        inr df') ∧
     columns df' = columns df ∧
     len df' = len df ∧
     getitem df' "Order Date" = Some od' ∧
     getitem df' "Ship Date" = Some sd' ∧
     (∀ c, c ≠ "Order Date" → c ≠ "Ship Date" →
           getitem df' c = getitem df c) ∧
     (∀ k v, od !! k = Some v → (∀ t, v ≠ Datetime t) →
             parse_cell pd od v = None → od' !! k = Some NaT) ∧
     (∀ k v, sd !! k = Some v → (∀ t, v ≠ Datetime t) →
             parse_cell pd sd v = None → sd' !! k = Some NaT)) ∨
  (∃ s msg,
     (s = od ∨ s = sd) ∧
     verdict pd s = Refuses msg ∧ reads_a_date pd s = true ∧
     load_with pd w
     = (loading_lines w df ++ [unexpected_load_error msg], inl SystemExit)).
Proof.
  intros Hread Hod Hsd.
  destruct (pd_to_datetime_cases pd od)
    as [(od' & Hod' & Hl1 & _)|(msg & Hod' & Hv & Hr)].
  2: { right. exists od, msg. split_and!; [by left|done..|].
       by eapply load_with_refused_order. }
  destruct (pd_to_datetime_cases pd sd)
    as [(sd' & Hsd' & Hl2 & _)|(msg & Hsd' & Hv & Hr)].
  2: { right. exists sd, msg. split_and!; [by right|done..|].
       by eapply load_with_refused_ship. }
  left. exists (with_dates df od' sd'), od', sd'.
  destruct (with_dates_columns df od sd od' sd' Hod Hsd Hl1 Hl2)
    as (H1 & H2 & H3 & H4 & H5).
  split_and!; [done|done| |done..| |].
  - rewrite (load_with_run_both _ _ _ _ _ _ _ Hread Hod Hsd Hod' Hsd').
    rewrite count_null_zero. by destruct (_ || _).
  - intros k v. by apply pd_to_datetime_coerces.
  - intros k v. by apply pd_to_datetime_coerces.
Qed.

Lemma load_coerces_warns_and_keeps_rows_witness :
  ∃ df',
    load_with (converting iso_parser) (world_of one_bad_date)
    = (loading_lines (world_of one_bad_date) one_bad_date
       ++ [Print null_dates_warning], inr df') ∧
    len df' = 2 ∧
    getitem df' "Ship Date" = Some [NaT; Datetime (mkTimestamp 2023 3 7 0)].
Proof.
  destruct (load_coerces_warns_and_keeps_rows (converting iso_parser)
              (world_of one_bad_date) one_bad_date
              [Str "2023-03-05"; Str "2023-03-06"]
              [Str "soon"; Str "2023-03-07"] eq_refl eq_refl eq_refl)
    as [(df' & od' & sd' & Hod' & Hsd' & Hl & _ & Hlen & _ & Hsd & _)
       |(s & msg & _ & Hv & _)].
  - exists df'. injection Hod' as <-. injection Hsd' as <-.
    split_and!; [exact Hl|exact Hlen|exact Hsd].
  - discriminate Hv.
Defined.

(** The counts of missing dates differ, the lines printed do not: the
    warning lists no counts. *)
Lemma load_warning_lists_no_counts :
  missing_dates iso_parser one_bad_date = (0, 1) ∧
  missing_dates iso_parser three_bad_dates = (2, 1) ∧
  printed (trace (load iso_parser (world_of one_bad_date)))
  = printed (trace (load iso_parser (world_of three_bad_dates))) ∧
  last (printed (trace (load iso_parser (world_of one_bad_date))))
  = Some null_dates_warning.
Proof. split_and!; vm_compute; reflexivity. Qed.




(** ** Missing columns of a table *)

(** The tables are built one after the other and none stops the next:
    what the run of the four writes is what each of them writes. *)
Lemma written_create_tables w df :
  written (trace (create_tables w df))
  = written (trace (create_customers w df))
    ++ written (trace (create_products w df))
    ++ written (trace (create_ship_modes w df))
    ++ written (trace (create_fact_sales w df)).
Proof.
  rewrite create_tables_run, trace_pair, !written_app. simpl.
  by rewrite app_nil_r.
Qed.

(** A table that lacks a column is not written. *)
Lemma missing_column_writes_nothing w df :
  (forallb (has_column df) customer_cols = false →
   written (trace (create_customers w df)) = []) ∧
  (forallb (has_column df) product_cols = false →
   written (trace (create_products w df)) = []) ∧
  (has_column df "Ship Mode" = false →
   written (trace (create_ship_modes w df)) = []) ∧
  (missing_cols df ≠ [] →
   written (trace (create_fact_sales w df)) = []).
Proof.
  split_and!; intros H.
  - by rewrite create_customers_missing.
  - by rewrite create_products_missing.
  - by rewrite create_ship_modes_missing.
  - by rewrite create_fact_sales_missing.
Qed.

(** C5 at a frame without the Customer Name column.  The customer branch
    writes no file, and what it prints is the fixed line of line 69: it
    does not name Customer Name, and it is the same line when other
    columns are missing.  The fact branch (lines 119-121) does name the
    columns it misses. *)
Theorem customers_error_names_no_column :
  filter (λ c, c ∉ columns (without ["Customer Name"] sample)) customer_cols
  = ["Customer Name"] ∧
  create_customers (world_of (without ["Customer Name"] sample))
    (without ["Customer Name"] sample)
  = ([Print (newline +:+ "[*] Creating customers.csv...");
      Print (generic_error "customers.csv")], inr tt) ∧
  is_substring "Customer Name" (generic_error "customers.csv") = false ∧
  create_customers (world_of (without ["Segment"; "City"] sample))
    (without ["Segment"; "City"] sample)
  = create_customers (world_of (without ["Customer Name"] sample))
      (without ["Customer Name"] sample) ∧
  printed (trace (create_fact_sales (world_of (without ["Order ID"] sample))
                    (without ["Order ID"] sample))) !! 1
  = Some ("[!] Error: Cannot create FactSales.csv - the following columns "
          +:+ "are missing in the source file: ['Order ID']").
Proof. split_and!; vm_compute; reflexivity. Qed.

(** C6 at the sample without the Sub-Category column.  The product table
    is not written, the other three are; but the product branch prints
    the fixed line of line 84, and no line of the run names
    Sub-Category. *)
Theorem missing_sub_category_run :
  filter (λ c, c ∉ columns (without ["Sub-Category"] sample)) product_cols
  = ["Sub-Category"] ∧
  outcome (main iso_parser (world_of (without ["Sub-Category"] sample)))
  = inr tt ∧
  (written (trace (main iso_parser
                     (world_of (without ["Sub-Category"] sample))))).*1
  = [table_path (world_of sample) "customers.csv";
     table_path (world_of sample) "DimShipMode.csv";
     table_path (world_of sample) "FactSales.csv"] ∧
  generic_error "products.csv"
    ∈ printed (trace (main iso_parser
                        (world_of (without ["Sub-Category"] sample)))) ∧
  forallb (λ line, negb (is_substring "Sub-Category" line))
    (printed (trace (main iso_parser
                       (world_of (without ["Sub-Category"] sample)))))
  = true.
Proof.
  split_and!; try (vm_compute; reflexivity).
  vm_compute. repeat constructor.
Qed.

(** * Further properties of the run *)

(** ** How a run ends *)

Lemma ensure_output_folder_cases w :
  outcome (ensure_output_folder w) = inr tt ∨
  outcome (ensure_output_folder w) = inl SystemExit.
Proof.
  rewrite ensure_output_folder_run.
  destruct (os_path_exists w output_path); [by left|].
  destruct (os_makedirs_error w output_path); [by right|by left].
Qed.

Lemma load_run_missing parser w msg :
  read_csv w (transformed_file_path w) = ReadMissing msg →
  load parser w
  = (Print ("[*] Loading the transformed data from: "
            +:+ transformed_file_path w) :: not_found_lines w,
     inl SystemExit).
Proof.
  intros Hread. unfold load, load_with, load_try_with, pd_read_csv.
  by rewrite Hread.
Qed.

Lemma load_run_failed parser w msg :
  read_csv w (transformed_file_path w) = ReadFailed msg →
  load parser w
  = ([Print ("[*] Loading the transformed data from: "
             +:+ transformed_file_path w);
      unexpected_load_error msg],
     inl SystemExit).
Proof.
  intros Hread. unfold load, load_with, load_try_with, pd_read_csv.
  by rewrite Hread.
Qed.

(** Loading gives a frame or ends the run; no other exception leaves the
    loading block. *)
Lemma load_cases parser w :
  (∃ t df, load parser w = (t, inr df)) ∨
  (∃ t, load parser w = (t, inl SystemExit)).
Proof.
  destruct (read_csv w (transformed_file_path w)) as [msg|msg|df] eqn:Hread.
  - right. eexists. by eapply load_run_missing.
  - right. eexists. by eapply load_run_failed.
  - destruct (getitem df "Order Date") as [od|] eqn:Hod.
    + destruct (getitem df "Ship Date") as [sd|] eqn:Hsd.
      * left. eexists _, _. by apply load_run_both.
      * rewrite (load_run_no_ship_date parser w df od Hread Hod Hsd).
        destruct (isnull_any _); [left; by eexists _, _|right; by eexists].
    + right. eexists. by apply load_run_no_order_date.
Qed.


(** X2.  When the output folder is not there and cannot be made, the run
    prints the two lines of the handler and stops: the input file is not
    read and nothing is written. *)
Theorem folder_failure_ends_run
    (parser : Series → Value → option Timestamp) (w : World) (msg : string) :
  os_path_exists w output_path = false →
  os_makedirs_error w output_path = Some msg →
  main parser w = (folder_error_lines msg, inl SystemExit) ∧
  written (trace (main parser w)) = [].
Proof.
  intros Hex Hmk.
  assert (ensure_output_folder w = (folder_error_lines msg, inl SystemExit))
    as He by (by rewrite ensure_output_folder_run, Hex, Hmk).
  assert (main parser w = (folder_error_lines msg, inl SystemExit)) as ->.
  { unfold main, main_with. by rewrite He. }
  done.
Qed.

Lemma folder_failure_ends_run_witness :
  main iso_parser world_without_folder
  = (folder_error_lines "[WinError 5] Access is denied", inl SystemExit) ∧
  written (trace (main iso_parser world_without_folder)) = [].
Proof.
  exact (folder_failure_ends_run iso_parser world_without_folder
           "[WinError 5] Access is denied" eq_refl eq_refl).
Defined.

(** X3.  When the input file is not there, or cannot be read, the run
    stops in the loading block with the lines of the matching handler;
    no table is attempted and nothing is written. *)
Theorem unreadable_input_ends_run
    (parser : Series → Value → option Timestamp) (w : World) (msg : string) :
  outcome (ensure_output_folder w) = inr tt →
  (read_csv w (transformed_file_path w) = ReadMissing msg →
   main parser w
   = (trace (ensure_output_folder w)
      ++ Print ("[*] Loading the transformed data from: "
                +:+ transformed_file_path w) :: not_found_lines w,
      inl SystemExit) ∧
   written (trace (main parser w)) = []) ∧
  (read_csv w (transformed_file_path w) = ReadFailed msg →
   main parser w
   = (trace (ensure_output_folder w)
      ++ [Print ("[*] Loading the transformed data from: "
                 +:+ transformed_file_path w);
          unexpected_load_error msg],
      inl SystemExit) ∧
   written (trace (main parser w)) = []).
Proof.
  intros He. split; intros Hread.
  - rewrite (main_run_exit _ _ _ _ He (load_run_missing parser w msg Hread)).
    split; [done|].
    by rewrite trace_pair, written_app, written_ensure_output_folder.
  - rewrite (main_run_exit _ _ _ _ He (load_run_failed parser w msg Hread)).
    split; [done|].
    by rewrite trace_pair, written_app, written_ensure_output_folder.
Qed.

Lemma unreadable_input_ends_run_witness :
  outcome (main iso_parser world_without_input) = inl SystemExit ∧
  written (trace (main iso_parser world_without_input)) = [] ∧
  outcome (main iso_parser world_with_broken_input) = inl SystemExit ∧
  written (trace (main iso_parser world_with_broken_input)) = [].
Proof.
  destruct (unreadable_input_ends_run iso_parser world_without_input
              "[Errno 2] No such file or directory" eq_refl) as [H1 _].
  destruct (unreadable_input_ends_run iso_parser world_with_broken_input
              "Error tokenizing data" eq_refl) as [_ H2].
  destruct (H1 eq_refl) as [E1 W1]. destruct (H2 eq_refl) as [E2 W2].
  split_and!; [by rewrite E1|exact W1|by rewrite E2|exact W2].
Defined.
(** ** What a run writes *)

Lemma printed_app t1 t2 : printed (t1 ++ t2) = printed t1 ++ printed t2.
Proof. apply omap_app. Qed.

Lemma written_load parser w : written (trace (load parser w)) = [].
Proof.
  destruct (read_csv w (transformed_file_path w)) as [msg|msg|df] eqn:Hread.
  - by rewrite (load_run_missing _ _ _ Hread).
  - by rewrite (load_run_failed _ _ _ Hread).
  - destruct (getitem df "Order Date") as [od|] eqn:Hod.
    + destruct (getitem df "Ship Date") as [sd|] eqn:Hsd.
      * rewrite (load_run_both _ _ _ _ _ Hread Hod Hsd).
        by destruct (_ || _).
      * rewrite (load_run_no_ship_date _ _ _ _ Hread Hod Hsd).
        by destruct (isnull_any _).
    + by rewrite (load_run_no_order_date _ _ _ Hread Hod).
Qed.

Lemma written_create_customers_eq w df :
  written (trace (create_customers w df))
  = saved_as w "customers.csv" (customers_table df).
Proof.
  unfold customers_table, saved_as.
  destruct (forallb (has_column df) customer_cols) eqn:Hall.
  - destruct (create_customers_present w df Hall) as (t & -> & ->).
    rewrite trace_pair. change (written (Print ?l :: ?t)) with (written t).
    apply written_save.
  - by rewrite create_customers_missing.
Qed.

Lemma written_create_products_eq w df :
  written (trace (create_products w df))
  = saved_as w "products.csv" (products_table df).
Proof.
  unfold products_table, saved_as.
  destruct (forallb (has_column df) product_cols) eqn:Hall.
  - destruct (create_products_present w df Hall) as (t & -> & ->).
    rewrite trace_pair. change (written (Print ?l :: ?t)) with (written t).
    apply written_save.
  - by rewrite create_products_missing.
Qed.

Lemma written_create_ship_modes_eq w df :
  written (trace (create_ship_modes w df))
  = saved_as w "DimShipMode.csv" (ship_modes_table df).
Proof.
  unfold ship_modes_table, saved_as, ship_mode_col.
  destruct (has_column df "Ship Mode") eqn:Hc.
  - destruct (create_ship_modes_present w df Hc) as (t & -> & ->).
    rewrite trace_pair. change (written (Print ?l :: ?t)) with (written t).
    apply written_save.
  - by rewrite create_ship_modes_missing.
Qed.

Lemma written_create_fact_sales_eq w df :
  written (trace (create_fact_sales w df))
  = saved_as w "FactSales.csv" (fact_table df).
Proof.
  unfold fact_table, saved_as.
  destruct (decide (missing_cols df = [])) as [Hm|Hm].
  - rewrite bool_decide_eq_true_2 by done. apply missing_cols_nil in Hm.
    destruct (create_fact_sales_run w df Hm)
      as (fact & t & out & -> & Hrun & _ & -> & _).
    simpl. rewrite Hrun. simpl. apply written_save.
  - rewrite bool_decide_eq_false_2 by done.
    by rewrite create_fact_sales_missing.
Qed.

(** What a run leaves on disk once loading has returned. *)
Lemma main_with_written pd w t df :
  outcome (ensure_output_folder w) = inr tt →
  load_with pd w = (t, inr df) →
  written t = [] →
  written (trace (main_with pd w))
  = saved_as w "customers.csv" (customers_table df)
    ++ saved_as w "products.csv" (products_table df)
    ++ saved_as w "DimShipMode.csv" (ship_modes_table df)
    ++ saved_as w "FactSales.csv" (fact_table df).
Proof.
  intros He Hl Hw. rewrite (main_with_run _ _ _ _ He Hl), trace_pair.
  rewrite !written_app, written_ensure_output_folder, Hw.
  rewrite written_create_tables. simpl.
  by rewrite written_create_customers_eq, written_create_products_eq,
    written_create_ship_modes_eq, written_create_fact_sales_eq.
Qed.

Lemma written_null_dates_warning (b : bool) :
  written (if b then [Print null_dates_warning] else []) = [].
Proof. by destruct b. Qed.

(** X4.  After loading, what the run leaves on disk is, in this order,
    the customer, product, ship-mode and fact table, each under its own
    file name; a table is left out exactly when one of its columns is
    missing or its own write fails.  Neither a missing column nor a
    failed write of one table touches the other three. *)
Theorem main_writes_each_table_on_its_own
    (parser : Series → Value → option Timestamp) (w : World)
    (t : list Event) (df : DataFrame) :
  outcome (ensure_output_folder w) = inr tt →
  load parser w = (t, inr df) →
  written (trace (main parser w))
  = saved_as w "customers.csv" (customers_table df)
    ++ saved_as w "products.csv" (products_table df)
    ++ saved_as w "DimShipMode.csv" (ship_modes_table df)
    ++ saved_as w "FactSales.csv" (fact_table df).
Proof.
  intros He Hl. pose proof (written_load parser w) as Hw.
  rewrite Hl, trace_pair in Hw.
  exact (main_with_written (converting parser) w t df He Hl Hw).
Qed.

Lemma main_writes_each_table_on_its_own_witness :
  (written (trace (main iso_parser (world_with_locked_customers sample)))).*1
  = [table_path (world_of sample) "products.csv";
     table_path (world_of sample) "DimShipMode.csv";
     table_path (world_of sample) "FactSales.csv"].
Proof.
  rewrite (main_writes_each_table_on_its_own iso_parser
             (world_with_locked_customers sample)
             (trace (load iso_parser (world_with_locked_customers sample)))
             (coerce_dates iso_parser sample) eq_refl).
  - vm_compute. reflexivity.
  - vm_compute. reflexivity.
Defined.

(** ** Keys of the dimensions *)

Lemma keep_first_wrap {A K} `{EqDecision K} (k : A → K) seen (l : list A) :
  keep_first (λ x, [k x]) ((λ v, [v]) <$> seen) l = keep_first k seen l.
Proof.
  revert seen. induction l as [|x l IH]; intros seen; [done|].
  rewrite !keep_first_cons.
  destruct (decide (k x ∈ seen)) as [Hin|Hnin].
  - rewrite decide_True; [apply IH|].
    apply list_elem_of_fmap. by exists (k x).
  - rewrite decide_False.
    + f_equal. apply (IH (k x :: seen)).
    + intros (v & [= Heq] & Hv)%list_elem_of_fmap. by subst v.
Qed.

(** The key column of a keyed dimension is [unique()] of the key column
    of the source. *)
Lemma keyed_dimension_key_column df cols key out s :
  (sel ← getitem_list df cols;
   reset_index <$> drop_duplicates [key] sel) = Some out →
  getitem df key = Some s →
  getitem out key = Some (unique s).
Proof.
  intros (Hkey & Hcols & Hrows)%keyed_dimension_rows Hs.
  apply getitem_cell in Hs as ->.
  destruct (getitem_is_Some out key) as [col Hcol]; [by rewrite Hcols|].
  rewrite Hcol. f_equal. apply getitem_cell in Hcol as ->.
  rewrite Hrows, <- list_fmap_compose.
  unfold unique. rewrite unique_from_keep_first, keep_first_fmap.
  rewrite <- (keep_first_wrap (id ∘ (λ r, cell df r key)) []). simpl.
  apply list_fmap_ext. intros _ r _. simpl. by apply cell_project.
Qed.

(** X6.  The Customer ID column of the customer table is
    [df['Customer ID'].unique()], and the Product ID column of the
    product table is [df['Product ID'].unique()]: every key of the source
    once, missing keys included, in the order of first appearance; the
    number of records the branch reports as saved is the number of
    distinct keys.  So the keyed dimensions and the ship-mode dimension
    differ in their keys by the [dropna()] of line 91 only. *)
Theorem keyed_dimension_keys_are_unique_values (df : DataFrame) :
  (∀ out s, customers_df df = Some out →
            getitem df "Customer ID" = Some s →
            getitem out "Customer ID" = Some (unique s) ∧
            len out = length (unique s) ∧
            NoDup (unique s) ∧ ∀ v, v ∈ unique s ↔ v ∈ s) ∧
  (∀ out s, products_df df = Some out →
            getitem df "Product ID" = Some s →
            getitem out "Product ID" = Some (unique s) ∧
            len out = length (unique s) ∧
            NoDup (unique s) ∧ ∀ v, v ∈ unique s ↔ v ∈ s).
Proof.
  split; intros out s Hout Hs;
    pose proof (keyed_dimension_key_column _ _ _ _ _ Hout Hs) as Hkey;
    (split_and!;
     [done|symmetry; by eapply getitem_length
     |apply NoDup_unique|apply elem_of_unique]).
Qed.

Lemma keyed_dimension_keys_are_unique_values_witness :
  ∃ customers,
    customers_df sample = Some customers ∧
    getitem sample "Customer ID"
    = Some [Str "C1"; Str "C2"; Str "C1"; NaN; Str "C3"] ∧
    getitem customers "Customer ID"
    = Some [Str "C1"; Str "C2"; NaN; Str "C3"] ∧
    len customers = 4.
Proof.
  eexists. split; [reflexivity|]. split; [reflexivity|].
  destruct (proj1 (keyed_dimension_keys_are_unique_values sample)
              _ _ eq_refl eq_refl) as (H1 & H2 & _).
  split; [exact H1|exact H2].
Defined.
(** ** The loaded frame and the dimensions *)

Lemma columns_coerce_dates parser df :
  columns (coerce_dates parser df) = columns df.
Proof.
  unfold coerce_dates.
  destruct (getitem df "Order Date") as [od|] eqn:Hod.
  - pose proof (getitem_Some_elem_of _ _ _ Hod) as Hin.
    destruct (getitem _ "Ship Date") as [sd|] eqn:Hsd.
    + pose proof (getitem_Some_elem_of _ _ _ Hsd) as Hin'.
      by rewrite !columns_setitem.
    + by rewrite columns_setitem.
  - destruct (getitem df "Ship Date") as [sd|] eqn:Hsd; [|done].
    rewrite columns_setitem; [done|]. by eapply getitem_Some_elem_of.
Qed.

Lemma len_coerce_dates parser df : len (coerce_dates parser df) = len df.
Proof.
  unfold coerce_dates.
  destruct (getitem df "Order Date"); destruct (getitem _ "Ship Date");
    by rewrite ?len_setitem.
Qed.

(** The conversions of lines 36-39 touch the two date columns only. *)
Lemma getitem_coerce_dates_other parser df c :
  c ≠ "Order Date" → c ≠ "Ship Date" →
  getitem (coerce_dates parser df) c = getitem df c.
Proof.
  intros H1 H2. unfold coerce_dates.
  destruct (getitem df "Order Date") as [od|] eqn:Hod.
  - pose proof (getitem_Some_elem_of _ _ _ Hod) as Hin.
    destruct (getitem _ "Ship Date") as [sd|] eqn:Hsd.
    + pose proof (getitem_Some_elem_of _ _ _ Hsd) as Hin'.
      by rewrite !getitem_setitem_ne.
    + by rewrite getitem_setitem_ne.
  - destruct (getitem df "Ship Date") as [sd|] eqn:Hsd; [|done].
    rewrite getitem_setitem_ne; [done| |done].
    by eapply getitem_Some_elem_of.
Qed.

Lemma getitem_list_None df cols c :
  c ∈ cols → c ∉ columns df → getitem_list df cols = None.
Proof.
  intros Hc Hn. unfold getitem_list.
  rewrite (mapM_None_2 (λ c, get_loc c (columns df)) cols); [done|].
  apply Exists_exists. exists c. split; [done|]. by apply get_loc_None.
Qed.

(** Two frames with the same series under the labels of a list give the
    same selection. *)
Lemma getitem_list_ext df df' cols :
  len df' = len df →
  (∀ c, c ∈ cols → getitem df' c = getitem df c) →
  getitem_list df' cols = getitem_list df cols.
Proof.
  intros Hlen Hcols.
  destruct (decide (Forall (λ c, c ∈ columns df) cols)) as [Hall|Hnot].
  - assert (Forall (λ c, c ∈ columns df') cols) as Hall'.
    { rewrite Forall_forall in Hall. apply Forall_forall. intros c Hc.
      destruct (getitem_is_Some df c (Hall c Hc)) as [s Hs].
      rewrite <- Hcols in Hs by done. by eapply getitem_Some_elem_of. }
    destruct (getitem_list_is_Some _ _ Hall) as [sel Hsel].
    destruct (getitem_list_is_Some _ _ Hall') as [sel' Hsel'].
    rewrite Hsel, Hsel'. f_equal.
    apply getitem_list_Some in Hsel as ->.
    apply getitem_list_Some in Hsel' as ->. f_equal.
    apply list_eq. intros k. rewrite !list_lookup_fmap.
    destruct (rows df !! k) as [r|] eqn:Hr.
    + destruct (lookup_lt_is_Some_2 (rows df') k) as [r' Hr'].
      { apply lookup_lt_Some in Hr. unfold len in Hlen. lia. }
      rewrite Hr'. simpl. f_equal. unfold project.
      apply list_fmap_ext. intros _ c Hc%list_elem_of_lookup_2.
      rewrite Forall_forall in Hall.
      destruct (getitem_is_Some df c (Hall c Hc)) as [s Hs].
      pose proof Hs as Hs'. rewrite <- Hcols in Hs' by done.
      apply getitem_cell in Hs. apply getitem_cell in Hs'.
      assert (s !! k = Some (cell df r c)) as E1
        by (by rewrite Hs, list_lookup_fmap, Hr).
      assert (s !! k = Some (cell df' r' c)) as E2
        by (by rewrite Hs', list_lookup_fmap, Hr').
      congruence.
    + apply lookup_ge_None in Hr.
      rewrite (lookup_ge_None_2 (rows df') k); [done|].
      unfold len in Hlen. lia.
  - apply not_Forall_Exists in Hnot; [|apply _].
    apply Exists_exists in Hnot as (c & Hc & Hn).
    rewrite (getitem_list_None df cols c Hc Hn).
    apply (getitem_list_None df' cols c Hc).
    intros [s Hs]%getitem_is_Some. rewrite Hcols in Hs by done.
    by rewrite getitem_None in Hs.
Qed.

(** Loading returns the frame as read, with the date columns coerced. *)
Lemma load_returns_coerced parser w df t df' :
  read_csv w (transformed_file_path w) = ReadOk df →
  load parser w = (t, inr df') → df' = coerce_dates parser df.
Proof.
  intros Hread Hl.
  destruct (getitem df "Order Date") as [od|] eqn:Hod.
  - destruct (getitem df "Ship Date") as [sd|] eqn:Hsd.
    + rewrite (load_run_both _ _ _ _ _ Hread Hod Hsd) in Hl. congruence.
    + rewrite (load_run_no_ship_date _ _ _ _ Hread Hod Hsd) in Hl.
      destruct (isnull_any _); congruence.
  - rewrite (load_run_no_order_date _ _ _ Hread Hod) in Hl. congruence.
Qed.

(** X7.  The three dimension tables do not depend on the date coercion
    of lines 36-39: from the loaded frame the script builds the same
    customer, product and ship-mode table as it would from the frame as
    read. *)
Theorem dimensions_ignore_date_coercion
    (parser : Series → Value → option Timestamp) (w : World)
    (df : DataFrame) (t : list Event) (df' : DataFrame) :
  read_csv w (transformed_file_path w) = ReadOk df →
  load parser w = (t, inr df') →
  customers_table df' = customers_table df ∧
  products_table df' = products_table df ∧
  ship_modes_table df' = ship_modes_table df.
Proof.
  intros Hread Hl. rewrite (load_returns_coerced _ _ _ _ _ Hread Hl).
  assert (∀ c, has_column (coerce_dates parser df) c = has_column df c)
    as Hhas by (intros c; unfold has_column; by rewrite columns_coerce_dates).
  assert (∀ cols, forallb (has_column (coerce_dates parser df)) cols
                  = forallb (has_column df) cols) as Hall.
  { intros cols. induction cols as [|c cols IH]; [done|].
    simpl. by rewrite Hhas, IH. }
  assert (∀ cols,
            Forall (λ c, c ≠ "Order Date" ∧ c ≠ "Ship Date") cols →
            getitem_list (coerce_dates parser df) cols
            = getitem_list df cols) as Hsel.
  { intros cols Hcols. apply getitem_list_ext; [apply len_coerce_dates|].
    intros c Hc. rewrite Forall_forall in Hcols.
    destruct (Hcols c Hc). by apply getitem_coerce_dates_other. }
  unfold customers_table, products_table, ship_modes_table.
  rewrite !Hall, Hhas. unfold customers_df, products_df, ship_modes_df.
  rewrite !Hsel by (by apply (bool_decide_unpack _)).
  by rewrite (getitem_coerce_dates_other parser df ship_mode_col).
Qed.

Lemma dimensions_ignore_date_coercion_witness :
  customers_table (coerce_dates iso_parser sample) = customers_table sample ∧
  products_table (coerce_dates iso_parser sample) = products_table sample ∧
  ship_modes_table (coerce_dates iso_parser sample) = ship_modes_table sample.
Proof.
  apply (dimensions_ignore_date_coercion iso_parser (world_of sample) sample
           (trace (load iso_parser (world_of sample)))
           (coerce_dates iso_parser sample) eq_refl).
  vm_compute. reflexivity.
Defined.
(** ** The files of a run, one by one *)

Lemma outcome_pair {A} t (r : Exn + A) : outcome ((t, r) : M A) = r.
Proof. done. Qed.

Lemma saved_as_elem_of w name table p out :
  (p, out) ∈ saved_as w name table →
  p = table_path w name ∧ table = Some out.
Proof.
  unfold saved_as. destruct table as [t|]; [|by intros ?%not_elem_of_nil].
  destruct (to_csv_error _ _ _); [by intros ?%not_elem_of_nil|].
  by intros [= -> ->]%list_elem_of_singleton.
Qed.

(** A file of a run is the table of the branch that bears its name,
    built from the loaded frame. *)
Lemma main_written_table parser w name out :
  (table_path w name, out) ∈ written (trace (main parser w)) →
  ∃ t df,
    load parser w = (t, inr df) ∧
    ((name = "customers.csv" ∧ customers_table df = Some out) ∨
     (name = "products.csv" ∧ products_table df = Some out) ∨
     (name = "DimShipMode.csv" ∧ ship_modes_table df = Some out) ∨
     (name = "FactSales.csv" ∧ fact_table df = Some out)).
Proof.
  intros Hin.
  destruct (ensure_output_folder_cases w) as [He|He].
  2: { rewrite (main_run_no_folder _ _ _ He), trace_pair in Hin.
       rewrite written_ensure_output_folder in Hin.
       by apply not_elem_of_nil in Hin. }
  destruct (load_cases parser w) as [(t & df & Hl)|(t & Hl)].
  2: { rewrite (main_run_exit _ _ _ _ He Hl), trace_pair, written_app in Hin.
       rewrite written_ensure_output_folder in Hin.
       pose proof (written_load parser w) as Hw.
       rewrite Hl, trace_pair in Hw. rewrite Hw in Hin.
       by apply not_elem_of_nil in Hin. }
  exists t, df. split; [done|].
  pose proof (written_load parser w) as Hw. rewrite Hl, trace_pair in Hw.
  unfold main in Hin.
  rewrite (main_with_written (converting parser) w t df He Hl Hw) in Hin.
  rewrite !elem_of_app in Hin.
  destruct Hin as [Hin|[Hin|[Hin|Hin]]];
    apply saved_as_elem_of in Hin as [Hp%table_path_inj Ht]; auto 10.
Qed.

Lemma fact_table_Some df out :
  fact_table df = Some out →
  Forall (λ c, c ∈ columns df) fact_sales_df_columns ∧ fact_table_of df out.
Proof.
  unfold fact_table. case_bool_decide as Hm; [|done]. intros H.
  apply missing_cols_nil in Hm. split; [done|].
  destruct (create_fact_sales_run (world_of df) df Hm)
    as (fact & t & out' & Hfact & Hrun & _ & _ & _ & Hout).
  rewrite Hfact in H. simpl in H. rewrite Hrun in H. simpl in H.
  by simplify_eq.
Qed.

Lemma getitem_single_column (vals : Series) c :
  getitem {| columns := [c]; rows := (λ v, [v]) <$> vals |} c = Some vals.
Proof.
  unfold getitem, get_loc. simpl. rewrite decide_True by done. simpl.
  f_equal. rewrite <- list_fmap_compose. by rewrite list_fmap_id.
Qed.

(** X8.  Referential integrity of the star schema.  In the files of one
    run, every CustomerID of FactSales.csv is the Customer ID of exactly
    one record of customers.csv, every ProductID the Product ID of
    exactly one record of products.csv, and every ShipMode that is not
    missing the Ship Mode of exactly one record of DimShipMode.csv. *)
Theorem fact_keys_are_in_the_dimensions
    (parser : Series → Value → option Timestamp) (w : World)
    (fact : DataFrame) :
  (table_path w "FactSales.csv", fact) ∈ written (trace (main parser w)) →
  (∀ customers ids,
     (table_path w "customers.csv", customers)
       ∈ written (trace (main parser w)) →
     getitem fact "CustomerID" = Some ids →
     ∃ keys, getitem customers "Customer ID" = Some keys ∧ NoDup keys ∧
             ∀ v, v ∈ ids → v ∈ keys) ∧
  (∀ products ids,
     (table_path w "products.csv", products)
       ∈ written (trace (main parser w)) →
     getitem fact "ProductID" = Some ids →
     ∃ keys, getitem products "Product ID" = Some keys ∧ NoDup keys ∧
             ∀ v, v ∈ ids → v ∈ keys) ∧
  (∀ modes vals,
     (table_path w "DimShipMode.csv", modes)
       ∈ written (trace (main parser w)) →
     getitem fact "ShipMode" = Some vals →
     ∃ keys, getitem modes "Ship Mode" = Some keys ∧ NoDup keys ∧
             ∀ v, v ∈ vals → isnull v = false → v ∈ keys).
Proof.
  intros (t & df & Hl & Hf)%main_written_table.
  destruct Hf as [[? _]|[[? _]|[[? _]|[_ Hf]]]]; [done..|].
  apply fact_table_Some in Hf as (Hall & _ & _ & Hcols & _).
  rewrite Forall_forall in Hall.
  split_and!.
  - intros customers ids (t' & df' & Hl' & Hc)%main_written_table Hids.
    rewrite Hl in Hl'. simplify_eq.
    destruct Hc as [[_ Hc]|[[? _]|[[? _]|[? _]]]]; [|done..].
    unfold customers_table in Hc.
    destruct (forallb _ customer_cols); [|done].
    rewrite (Hcols 1 "Customer ID" "CustomerID") in Hids by done.
    exists (unique ids). split_and!.
    + by eapply keyed_dimension_key_column.
    + apply NoDup_unique.
    + intros v. by rewrite elem_of_unique.
  - intros products ids (t' & df' & Hl' & Hc)%main_written_table Hids.
    rewrite Hl in Hl'. simplify_eq.
    destruct Hc as [[? _]|[[_ Hc]|[[? _]|[? _]]]]; [done| |done..].
    unfold products_table in Hc.
    destruct (forallb _ product_cols); [|done].
    rewrite (Hcols 2 "Product ID" "ProductID") in Hids by done.
    exists (unique ids). split_and!.
    + by eapply keyed_dimension_key_column.
    + apply NoDup_unique.
    + intros v. by rewrite elem_of_unique.
  - intros modes vals (t' & df' & Hl' & Hc)%main_written_table Hvals.
    rewrite Hl in Hl'. simplify_eq.
    destruct Hc as [[? _]|[[? _]|[[_ Hc]|[? _]]]]; [done..| |done].
    unfold ship_modes_table in Hc.
    destruct (has_column _ ship_mode_col); [|done].
    rewrite (Hcols 5 "Ship Mode" "ShipMode") in Hvals by done.
    unfold ship_modes_df, ship_mode_col, reset_index in Hc.
    rewrite Hvals in Hc. simpl in Hc. rewrite dropna_single_column in Hc.
    simplify_eq. eexists. split_and!.
    + apply getitem_single_column.
    + apply NoDup_filter, NoDup_unique.
    + intros v Hv Hnull. apply list_elem_of_filter. split; [done|].
      by apply elem_of_unique.
Qed.

Lemma fact_keys_are_in_the_dimensions_witness :
  ∃ keys,
    getitem (default (mkDataFrame [] [])
               (customers_table (coerce_dates iso_parser sample)))
      "Customer ID" = Some keys ∧
    NoDup keys ∧
    ∀ v, v ∈ [Str "C1"; Str "C2"; Str "C1"; NaN; Str "C3"] → v ∈ keys.
Proof.
  pose (w := world_of sample).
  pose (files := written (trace (main iso_parser w))).
  pose (fact := default (mkDataFrame [] []) (snd <$> last files)).
  pose (customers := default (mkDataFrame [] []) (snd <$> head files)).
  assert ((table_path w "FactSales.csv", fact) ∈ files) as Hf.
  { vm_compute. repeat constructor. }
  assert ((table_path w "customers.csv", customers) ∈ files) as Hc.
  { vm_compute. repeat constructor. }
  destruct (fact_keys_are_in_the_dimensions iso_parser w fact Hf)
    as [H _].
  exact (H customers [Str "C1"; Str "C2"; Str "C1"; NaN; Str "C3"]
           Hc eq_refl).
Defined.
(** ** Dates in the fact table *)

(** The FactSales.csv of a run whose input has both date columns: both
    were returned by [pd.to_datetime], and the file holds the fact table
    of the frame that carries them. *)
Lemma main_with_writes_fact_table pd w df od sd out :
  read_csv w (transformed_file_path w) = ReadOk df →
  getitem df "Order Date" = Some od →
  getitem df "Ship Date" = Some sd →
  (table_path w "FactSales.csv", out) ∈ written (trace (main_with pd w)) →
  ∃ od' sd',
    pd_to_datetime pd od = mret od' ∧
    pd_to_datetime pd sd = mret sd' ∧
    is_datetimelike od' = converts pd od ∧
    is_datetimelike sd' = converts pd sd ∧
    getitem (with_dates df od' sd') "Order Date" = Some od' ∧
    getitem (with_dates df od' sd') "Ship Date" = Some sd' ∧
    fact_table_of (with_dates df od' sd') out.
Proof.
  intros Hread Hod Hsd Hin.
  destruct (outcome (ensure_output_folder w)) as [e|[]] eqn:He.
  { rewrite (main_with_run_no_folder _ _ _ He), trace_pair in Hin.
    rewrite written_ensure_output_folder in Hin.
    by apply not_elem_of_nil in Hin. }
  destruct (pd_to_datetime_cases pd od)
    as [(od' & Hod' & Hl1 & Hd1)|(msg & Hod' & _)].
  2: { pose proof (load_with_refused_order pd w df od msg Hread Hod Hod')
         as Hl.
       rewrite (main_with_run_exit _ _ _ _ He Hl), trace_pair in Hin.
       rewrite !written_app, written_ensure_output_folder in Hin.
       by apply not_elem_of_nil in Hin. }
  destruct (pd_to_datetime_cases pd sd)
    as [(sd' & Hsd' & Hl2 & Hd2)|(msg & Hsd' & _)].
  2: { pose proof (load_with_refused_ship pd w df od sd od' msg
                     Hread Hod Hsd Hod' Hsd') as Hl.
       rewrite (main_with_run_exit _ _ _ _ He Hl), trace_pair in Hin.
       rewrite !written_app, written_ensure_output_folder in Hin.
       by apply not_elem_of_nil in Hin. }
  pose proof (load_with_run_both pd w df od sd od' sd'
                Hread Hod Hsd Hod' Hsd') as Hl.
  rewrite (main_with_written _ _ _ _ He Hl) in Hin
    by (by rewrite written_app, written_null_dates_warning).
  destruct (with_dates_columns df od sd od' sd' Hod Hsd Hl1 Hl2)
    as (H1 & H2 & _).
  exists od', sd'. split_and!; [done..|].
  rewrite !elem_of_app in Hin.
  destruct Hin as [Hin|[Hin|[Hin|Hin]]];
    apply saved_as_elem_of in Hin as [Hp%table_path_inj Ht]; try done.
  by apply fact_table_Some in Ht as [_ Ht].
Qed.

(** The lines of the fact branch when its fourteen columns are there: the
    warning of line 138 comes exactly when a date column is no datetime
    column. *)
Lemma create_fact_sales_lines w df od sd :
  Forall (λ c, c ∈ columns df) fact_sales_df_columns →
  getitem df "Order Date" = Some od →
  getitem df "Ship Date" = Some sd →
  ∃ out,
    create_fact_sales w df
    = (fact_progress_lines
       ++ (if is_datetimelike od && is_datetimelike sd then []
           else [Print format_warning])
       ++ trace (save w out "FactSales.csv"), inr tt) ∧
    fact_table_of df out.
Proof.
  intros Hall Hod Hsd.
  destruct (create_fact_sales_run w df Hall)
    as (fact & t & out & Hfact & Hrun & _ & _ & _ & Hout).
  pose proof (format_dates_run fact od sd) as Hfmt.
  rewrite (fact_selected_column df fact 3 "Order Date" "OrderDate"),
    (fact_selected_column df fact 4 "Ship Date" "ShipDate") in Hfmt
    by done.
  specialize (Hfmt Hod Hsd). rewrite Hrun in Hfmt.
  assert (t = if is_datetimelike od && is_datetimelike sd then []
              else [Print format_warning]) as ->.
  { destruct (is_datetimelike od); [destruct (is_datetimelike sd)|];
      cbv zeta in Hfmt; by injection Hfmt as -> _. }
  exists out. split; [|done].
  unfold create_fact_sales. rewrite bind_print.
  rewrite bool_decide_eq_false_2
    by (by rewrite (proj2 (missing_cols_nil df) Hall); intros []).
  rewrite Hfact. unfold or_raise.
  rewrite bind_ret, !bind_print, Hrun, bind_value, !trace_pair, !outcome_pair.
  by rewrite outcome_save.
Qed.

(** The dates of [orders_with_offsets] are read, and kept as objects by
    the one pandas, refused by the other. *)
Lemma mixed_offsets_leave_dates_unformatted :
  ∃ od out col,
    getitem orders_with_offsets "Order Date" = Some od ∧
    od !! 0 = Some (Str "2023-03-05T00:00:00+01:00") ∧
    to_datetime_value (parse_cell pandas_2) od
      (Str "2023-03-05T00:00:00+01:00")
    = Datetime (mkTimestamp 2023 3 5 0) ∧
    calendar_date (mkTimestamp 2023 3 5 0) ∧
    (table_path (world_of orders_with_offsets) "FactSales.csv", out)
      ∈ written (trace (main_with pandas_2 (world_of orders_with_offsets))) ∧
    getitem out "OrderDate" = Some col ∧
    col !! 0 = Some (PyDatetime (mkTimestamp 2023 3 5 0)) ∧
    col !! 0 ≠ Some (Str (YYYY_MM_DD (mkTimestamp 2023 3 5 0))) ∧
    format_warning
      ∈ printed (trace (main_with pandas_2 (world_of orders_with_offsets))).
Proof.
  pose (files := written (trace (main_with pandas_2
                                   (world_of orders_with_offsets)))).
  pose (out := default (mkDataFrame [] []) (snd <$> last files)).
  exists (default [] (getitem orders_with_offsets "Order Date")), out,
    (default [] (getitem out "OrderDate")).
  split_and!; try (vm_compute; reflexivity).
  - unfold calendar_date. simpl. lia.
  - vm_compute. repeat constructor.
  - vm_compute. discriminate.
  - apply (bool_decide_unpack _). vm_compute. exact I.
Qed.

(** C3, as the script has it.  In the FactSales.csv of a run, the
    OrderDate of a record whose Order Date was read as a calendar date is
    the ten characters YYYY-MM-DD of that date provided
    [pd.to_datetime] made a datetime column of Order Date, and so is the
    ShipDate of a record whose Ship Date was read provided it made
    datetime columns of both.  Where it kept Order Date as objects, the
    date goes into the file as it is, unformatted. *)
Theorem converted_dates_are_iso_strings
    (pd : Pandas) (w : World)
    (df : DataFrame) (od sd : Series) (out : DataFrame) :
  read_csv w (transformed_file_path w) = ReadOk df →
  getitem df "Order Date" = Some od →
  getitem df "Ship Date" = Some sd →
  (table_path w "FactSales.csv", out) ∈ written (trace (main_with pd w)) →
  ∀ k v t, calendar_date t →
    (converts pd od = true →
     od !! k = Some v → to_datetime_value (parse_cell pd) od v = Datetime t →
     ∃ col, getitem out "OrderDate" = Some col ∧
            col !! k = Some (Str (YYYY_MM_DD t))) ∧
    (converts pd od = true → converts pd sd = true →
     sd !! k = Some v → to_datetime_value (parse_cell pd) sd v = Datetime t →
     ∃ col, getitem out "ShipDate" = Some col ∧
            col !! k = Some (Str (YYYY_MM_DD t))) ∧
    (converts pd od = false →
     od !! k = Some v → to_datetime_value (parse_cell pd) od v = Datetime t →
     ∃ col, getitem out "OrderDate" = Some col ∧
            col !! k = Some (PyDatetime t)).
Proof.
  intros Hread Hod Hsd Hin k v t Hcal.
  destruct (main_with_writes_fact_table _ _ _ _ _ _ Hread Hod Hsd Hin)
    as (od' & sd' & Hod' & Hsd' & Hd1 & Hd2 & H1 & H2 & Hout).
  destruct Hout as (_ & _ & _ & od'' & sd'' & Hg1 & Hg2 & Hout1 & Hout2).
  rewrite H1 in Hg1. rewrite H2 in Hg2. simplify_eq.
  rewrite Hd1 in Hout1. rewrite Hd1, Hd2 in Hout2.
  split_and!.
  - intros Hc Hk Hv. rewrite Hc in Hout1.
    destruct (pd_to_datetime_returns _ _ _ Hod') as [[_ ->]|[? _]];
      [|congruence].
    eexists. split; [done|].
    unfold formatted, to_datetime. rewrite !list_lookup_fmap, Hk.
    cbn [fmap option_fmap option_map]. rewrite Hv. cbn [strftime_value].
    by rewrite strftime_calendar_date.
  - intros Hc1 Hc2 Hk Hv. rewrite Hc1, Hc2 in Hout2. simpl in Hout2.
    destruct (pd_to_datetime_returns _ _ _ Hsd') as [[_ ->]|[? _]];
      [|congruence].
    eexists. split; [done|].
    unfold formatted, to_datetime. rewrite !list_lookup_fmap, Hk.
    cbn [fmap option_fmap option_map]. rewrite Hv. cbn [strftime_value].
    by rewrite strftime_calendar_date.
  - intros Hc Hk Hv. rewrite Hc in Hout1.
    destruct (pd_to_datetime_returns _ _ _ Hod') as [[? _]|(_ & _ & ->)];
      [congruence|].
    eexists. split; [done|].
    unfold to_datetime. rewrite !list_lookup_fmap, Hk.
    cbn [fmap option_fmap option_map]. by rewrite Hv.
Qed.

Lemma converted_dates_are_iso_strings_witness :
  ∃ out col,
    (table_path (world_of sample) "FactSales.csv", out)
      ∈ written (trace (main_with (converting iso_parser) (world_of sample))) ∧
    getitem out "OrderDate" = Some col ∧
    col !! 0 = Some (Str "2023-03-05").
Proof.
  pose (files := written (trace (main_with (converting iso_parser)
                                   (world_of sample)))).
  pose (out := default (mkDataFrame [] []) (snd <$> last files)).
  pose (od := default [] (getitem sample "Order Date")).
  pose (sd := default [] (getitem sample "Ship Date")).
  assert ((table_path (world_of sample) "FactSales.csv", out) ∈ files) as Hin.
  { vm_compute. repeat constructor. }
  assert (calendar_date (mkTimestamp 2023 3 5 0)) as Hcal.
  { unfold calendar_date. simpl. lia. }
  destruct (converted_dates_are_iso_strings (converting iso_parser)
              (world_of sample) sample
              od sd out eq_refl eq_refl eq_refl Hin
              0 (Str "2023-03-05") (mkTimestamp 2023 3 5 0) Hcal)
    as [H1 _].
  destruct (H1 eq_refl eq_refl eq_refl) as (col & Hcol & Hk).
  exists out, col. split_and!; [exact Hin|exact Hcol|exact Hk].
Defined.

(** X9.  When [pd.to_datetime] has made datetime columns of both date
    columns, the date formatting of lines 134-140 cannot fail: the fact
    branch prints its three progress lines and saves, with no warning in
    between, and both date columns of the table are formatted. *)
Theorem converted_dates_always_format
    (pd : Pandas) (w : World)
    (df : DataFrame) (t : list Event) (df' : DataFrame) (od sd : Series) :
  read_csv w (transformed_file_path w) = ReadOk df →
  load_with pd w = (t, inr df') →
  getitem df "Order Date" = Some od →
  getitem df "Ship Date" = Some sd →
  Forall (λ c, c ∈ columns df) fact_sales_df_columns →
  converts pd od = true →
  converts pd sd = true →
  ∃ out,
    create_fact_sales w df'
    = (fact_progress_lines ++ trace (save w out "FactSales.csv"), inr tt) ∧
    getitem out "OrderDate"
    = Some (formatted (to_datetime (parse_cell pd) od)) ∧
    getitem out "ShipDate"
    = Some (formatted (to_datetime (parse_cell pd) sd)).
Proof.
  intros Hread Hl Hod Hsd Hall Hc1 Hc2.
  pose proof (pd_to_datetime_converts _ _ Hc1) as Hod'.
  pose proof (pd_to_datetime_converts _ _ Hc2) as Hsd'.
  rewrite (load_with_run_both _ _ _ _ _ _ _ Hread Hod Hsd Hod' Hsd') in Hl.
  injection Hl as _ <-.
  destruct (with_dates_columns df od sd _ _ Hod Hsd
              (length_to_datetime (parse_cell pd) od)
              (length_to_datetime (parse_cell pd) sd))
    as (H1 & H2 & H3 & _).
  destruct (create_fact_sales_lines w _ _ _ ltac:(by rewrite H3) H1 H2)
    as (out & Hrun & Hout).
  destruct Hout as (_ & _ & _ & od'' & sd'' & Hg1 & Hg2 & Ho1 & Ho2).
  rewrite H1 in Hg1. rewrite H2 in Hg2. simplify_eq.
  rewrite !is_datetimelike_to_datetime in *. simpl in Hrun, Ho2.
  by exists out.
Qed.

Lemma converted_dates_always_format_witness :
  ∃ out,
    getitem out "OrderDate"
    = Some [Str "2023-03-05"; Str "2023-03-06"; Str "2023-04-01";
            Str "2023-04-02"; Str "2023-05-10"] ∧
    getitem out "ShipDate"
    = Some [Str "2023-03-09"; Str "2023-03-07"; NaN;
            Str "2023-04-05"; Str "2023-05-12"].
Proof.
  assert (Forall (λ c, c ∈ columns sample) fact_sales_df_columns) as Hall.
  { apply (bool_decide_unpack _). vm_compute. exact I. }
  destruct (converted_dates_always_format (converting iso_parser)
              (world_of sample) sample
              (trace (load iso_parser (world_of sample)))
              (coerce_dates iso_parser sample)
              (default [] (getitem sample "Order Date"))
              (default [] (getitem sample "Ship Date"))
              eq_refl ltac:(vm_compute; reflexivity) eq_refl eq_refl Hall
              eq_refl eq_refl)
    as (out & _ & H1 & H2).
  exists out. split; [exact H1|exact H2].
Defined.

(** X16.  A date column that [pd.to_datetime] refuses ends the run in the
    loading block: the exception is caught by the handler of line 49, its
    message is printed, and no table is attempted. *)
Theorem refused_dates_end_the_run
    (pd : Pandas) (w : World) (df : DataFrame) (od sd : Series)
    (msg : string) :
  outcome (ensure_output_folder w) = inr tt →
  read_csv w (transformed_file_path w) = ReadOk df →
  getitem df "Order Date" = Some od →
  getitem df "Ship Date" = Some sd →
  (verdict pd od = Refuses msg ∧ reads_a_date pd od = true) ∨
  ((∃ od', pd_to_datetime pd od = mret od') ∧
   verdict pd sd = Refuses msg ∧ reads_a_date pd sd = true) →
  main_with pd w
  = (trace (ensure_output_folder w) ++ loading_lines w df
     ++ [unexpected_load_error msg], inl SystemExit) ∧
  written (trace (main_with pd w)) = [].
Proof.
  intros He Hread Hod Hsd Hcase.
  assert (load_with pd w
          = (loading_lines w df ++ [unexpected_load_error msg],
             inl SystemExit)) as Hl.
  { destruct Hcase as [[Hv Hr]|([od' Hod'] & Hv & Hr)].
    - eapply load_with_refused_order; [done..|].
      by apply pd_to_datetime_refuses.
    - eapply load_with_refused_ship; [done..|].
      by apply pd_to_datetime_refuses. }
  rewrite (main_with_run_exit _ _ _ _ He Hl). split; [done|].
  by rewrite trace_pair, !written_app, written_ensure_output_folder.
Qed.

Lemma refused_dates_end_the_run_witness :
  main_with pandas_3 (world_of orders_with_offsets)
  = (loading_lines (world_of orders_with_offsets) orders_with_offsets
     ++ [unexpected_load_error "Mixed timezones detected."],
     inl SystemExit) ∧
  written (trace (main_with pandas_3 (world_of orders_with_offsets))) = [].
Proof.
  apply (refused_dates_end_the_run pandas_3 (world_of orders_with_offsets)
           orders_with_offsets
           (default [] (getitem orders_with_offsets "Order Date"))
           (default [] (getitem orders_with_offsets "Ship Date"))
           "Mixed timezones detected." eq_refl eq_refl eq_refl eq_refl).
  left. split; vm_compute; reflexivity.
Defined.

(** X17.  When [pd.to_datetime] has kept the Order Date column as
    objects, the first of the two assignments of lines 135-136 raises
    [AttributeError]: the fact branch prints the warning of line 138 and
    saves the table all the same, with the Order Dates as objects and
    with the Ship Dates as [pd.to_datetime] returned them, unformatted
    even where they are a datetime column. *)
Theorem object_dates_are_written_unformatted
    (pd : Pandas) (w : World)
    (df : DataFrame) (t : list Event) (df' : DataFrame) (od sd : Series) :
  read_csv w (transformed_file_path w) = ReadOk df →
  load_with pd w = (t, inr df') →
  getitem df "Order Date" = Some od →
  getitem df "Ship Date" = Some sd →
  Forall (λ c, c ∈ columns df) fact_sales_df_columns →
  converts pd od = false →
  ∃ out sd',
    pd_to_datetime pd sd = mret sd' ∧
    create_fact_sales w df'
    = (fact_progress_lines ++ [Print format_warning]
       ++ trace (save w out "FactSales.csv"), inr tt) ∧
    len out = len df ∧
    getitem out "OrderDate"
    = Some (as_object <$> to_datetime (parse_cell pd) od) ∧
    getitem out "ShipDate" = Some sd'.
Proof.
  intros Hread Hl Hod Hsd Hall Hc.
  destruct (pd_to_datetime_cases pd od)
    as [(od' & Hod' & Hl1 & Hd1)|(msg & Hod' & _)].
  2: { rewrite (load_with_refused_order _ _ _ _ _ Hread Hod Hod') in Hl.
       congruence. }
  destruct (pd_to_datetime_cases pd sd)
    as [(sd' & Hsd' & Hl2 & _)|(msg & Hsd' & _)].
  2: { rewrite (load_with_refused_ship _ _ _ _ _ _ _ Hread Hod Hsd Hod' Hsd')
         in Hl. congruence. }
  rewrite (load_with_run_both _ _ _ _ _ _ _ Hread Hod Hsd Hod' Hsd') in Hl.
  injection Hl as _ <-.
  destruct (with_dates_columns df od sd _ _ Hod Hsd Hl1 Hl2)
    as (H1 & H2 & H3 & H4 & _).
  destruct (create_fact_sales_lines w _ _ _ ltac:(by rewrite H3) H1 H2)
    as (out & Hrun & Hout).
  destruct Hout as (_ & Hlen & _ & od'' & sd'' & Hg1 & Hg2 & Ho1 & Ho2).
  rewrite H1 in Hg1. rewrite H2 in Hg2.
  injection Hg1 as <-. injection Hg2 as <-.
  rewrite Hd1, Hc in *. simpl in Hrun, Ho1, Ho2.
  destruct (pd_to_datetime_returns _ _ _ Hod') as [[? _]|(_ & _ & ->)];
    [congruence|].
  exists out, sd'. split_and!; [done|done| |done|done].
  by rewrite Hlen, H4.
Qed.

Lemma object_dates_are_written_unformatted_witness :
  ∃ out,
    len out = 5 ∧
    getitem out "OrderDate"
    = Some [PyDatetime (mkTimestamp 2023 3 5 0);
            PyDatetime (mkTimestamp 2023 3 6 0);
            PyDatetime (mkTimestamp 2023 4 1 0);
            PyDatetime (mkTimestamp 2023 4 2 0);
            PyDatetime (mkTimestamp 2023 5 10 0)] ∧
    getitem out "ShipDate"
    = Some [Datetime (mkTimestamp 2023 3 9 0);
            Datetime (mkTimestamp 2023 3 7 0); NaT;
            Datetime (mkTimestamp 2023 4 5 0);
            Datetime (mkTimestamp 2023 5 12 0)].
Proof.
  assert (Forall (λ c, c ∈ columns orders_with_offsets) fact_sales_df_columns)
    as Hall.
  { apply (bool_decide_unpack _). vm_compute. exact I. }
  pose (od := default [] (getitem orders_with_offsets "Order Date")).
  pose (sd := default [] (getitem orders_with_offsets "Ship Date")).
  assert (load_with pandas_2 (world_of orders_with_offsets)
          = (trace (load_with pandas_2 (world_of orders_with_offsets)),
             inr (with_dates orders_with_offsets
                    (as_object <$> to_datetime offset_parser od)
                    (to_datetime offset_parser sd)))) as Hl.
  { vm_compute. reflexivity. }
  destruct (object_dates_are_written_unformatted pandas_2
              (world_of orders_with_offsets) orders_with_offsets
              _ _ od sd eq_refl Hl eq_refl eq_refl Hall eq_refl)
    as (out & sd' & Hsd' & _ & Hlen & H1 & H2).
  exists out. injection Hsd' as <-.
  split_and!; [exact Hlen|exact H1|exact H2].
Defined.




(** ** The fact table, end to end *)

Lemma NoDup_fact_sales_df_columns : NoDup fact_sales_df_columns.
Proof. by apply (bool_decide_unpack _). Qed.

Lemma py_repr_fact_column c :
  c ∈ fact_sales_df_columns → py_repr c = "'" +:+ c +:+ "'".
Proof.
  assert (Forall (λ c, py_repr c = "'" +:+ c +:+ "'") fact_sales_df_columns)
    as Hall by (apply (bool_decide_unpack _); vm_compute; exact I).
  rewrite Forall_forall in Hall. apply Hall.
Qed.

(** X12.  When columns of the fact table are missing, the fact branch
    writes no file and names them: the second of the three lines it
    prints carries, between brackets and each in single quotes, exactly
    the required columns the frame does not have, once each and in the
    order of the required list. *)
Theorem fact_error_names_the_missing_columns (w : World) (df : DataFrame) :
  missing_cols df ≠ [] →
  printed (trace (create_fact_sales w df)) !! 1
  = Some ("[!] Error: Cannot create FactSales.csv - the following "
          +:+ "columns are missing in the source file: "
          +:+ "[" +:+ String.concat ", "
                        ((λ c, "'" +:+ c +:+ "'") <$> missing_cols df)
          +:+ "]") ∧
  length (printed (trace (create_fact_sales w df))) = 3 ∧
  written (trace (create_fact_sales w df)) = [] ∧
  outcome (create_fact_sales w df) = inr tt ∧
  NoDup (missing_cols df) ∧
  missing_cols df `sublist_of` fact_sales_df_columns ∧
  (∀ c, c ∈ missing_cols df ↔ c ∈ fact_sales_df_columns ∧ c ∉ columns df).
Proof.
  intros Hm. rewrite create_fact_sales_missing by done. split_and!.
  - assert (py_repr <$> missing_cols df
            = (λ c, "'" +:+ c +:+ "'") <$> missing_cols df) as Heq.
    { apply list_fmap_ext. intros _ c Hc%list_elem_of_lookup_2.
      apply py_repr_fact_column. unfold missing_cols in Hc.
      by apply list_elem_of_filter in Hc as [_ Hc]. }
    unfold py_repr_list at 1. by rewrite Heq.
  - done.
  - done.
  - done.
  - apply NoDup_filter, NoDup_fact_sales_df_columns.
  - apply sublist_filter.
  - intros c. unfold missing_cols. rewrite list_elem_of_filter. tauto.
Qed.

Lemma fact_error_names_the_missing_columns_witness :
  printed (trace (create_fact_sales (world_of one_bad_date) one_bad_date)) !! 1
  = Some ("[!] Error: Cannot create FactSales.csv - the following columns "
          +:+ "are missing in the source file: ['Order ID', 'Customer ID', "
          +:+ "'Product ID', 'Ship Mode', 'Sales', 'Order_Year', "
          +:+ "'Order_Month', 'Order_Day', 'Order_Weekday', "
          +:+ "'Shipping_Delay', 'Log_Sales', 'Scaled_Sales']") ∧
  written (trace (create_fact_sales (world_of one_bad_date) one_bad_date))
  = [].
Proof.
  assert (missing_cols one_bad_date ≠ []) as Hm by (by vm_compute).
  destruct (fact_error_names_the_missing_columns (world_of one_bad_date)
              one_bad_date Hm) as (Hline & _ & Hw & _).
  split; [|exact Hw]. rewrite Hline. vm_compute. reflexivity.
Defined.

(** X13.  FactSales.csv against the file as read.  The fact table a run
    writes has one record for each record of the input file, in the same
    order, and its twelve columns that are no dates hold the values as
    they were read; only OrderDate and ShipDate are rewritten. *)
Theorem fact_file_holds_the_input_values
    (parser : Series → Value → option Timestamp) (w : World)
    (df out : DataFrame) :
  read_csv w (transformed_file_path w) = ReadOk df →
  (table_path w "FactSales.csv", out) ∈ written (trace (main parser w)) →
  len out = len df ∧
  columns out = fact_sales_sql_columns ∧
  ∀ k src tgt,
    fact_sales_df_columns !! k = Some src →
    fact_sales_sql_columns !! k = Some tgt →
    tgt ≠ "OrderDate" → tgt ≠ "ShipDate" →
    getitem out tgt = getitem df src ∧ is_Some (getitem df src).
Proof.
  intros Hread (t & df' & Hl & Hf)%main_written_table.
  destruct Hf as [[? _]|[[? _]|[[? _]|[_ Hf]]]]; [done..|].
  rewrite (load_returns_coerced _ _ _ _ _ Hread Hl) in Hf.
  apply fact_table_Some in Hf as (Hall & Hcols & Hlen & Hother & _).
  rewrite len_coerce_dates in Hlen. rewrite columns_coerce_dates in Hall.
  split_and!; [done..|].
  intros k src tgt Hs Ht H1 H2.
  assert (src ≠ "Order Date" ∧ src ≠ "Ship Date") as [Hn1 Hn2].
  { split; intros ->.
    - pose proof (NoDup_lookup _ _ _ _ NoDup_fact_sales_df_columns Hs
                    (eq_refl : fact_sales_df_columns !! 3 = Some _)) as ->.
      simpl in Ht. congruence.
    - pose proof (NoDup_lookup _ _ _ _ NoDup_fact_sales_df_columns Hs
                    (eq_refl : fact_sales_df_columns !! 4 = Some _)) as ->.
      simpl in Ht. congruence. }
  split.
  - rewrite (Hother k src tgt) by done.
    by apply getitem_coerce_dates_other.
  - apply getitem_is_Some. rewrite Forall_forall in Hall. apply Hall.
    by eapply list_elem_of_lookup_2.
Qed.

Lemma fact_file_holds_the_input_values_witness :
  ∃ out,
    len out = 5 ∧
    getitem out "CustomerID"
    = Some [Str "C1"; Str "C2"; Str "C1"; NaN; Str "C3"].
Proof.
  pose (files := written (trace (main iso_parser (world_of sample)))).
  pose (out := default (mkDataFrame [] []) (snd <$> last files)).
  assert ((table_path (world_of sample) "FactSales.csv", out) ∈ files) as Hin.
  { vm_compute. repeat constructor. }
  destruct (fact_file_holds_the_input_values iso_parser (world_of sample)
              sample out eq_refl Hin) as (Hlen & _ & Hcols).
  exists out. split; [exact Hlen|].
  destruct (Hcols 1 "Customer ID" "CustomerID" eq_refl eq_refl) as [H _];
    [done..|].
  rewrite H. reflexivity.
Defined.
(** ** An input file without records *)

Lemma frame_without_rows df cols :
  columns df = cols → len df = 0 → df = {| columns := cols; rows := [] |}.
Proof.
  destruct df as [c r]. unfold len. simpl. intros -> Hr.
  by rewrite (nil_length_inv _ Hr).
Qed.

Lemma getitem_without_rows df c :
  len df = 0 → c ∈ columns df → getitem df c = Some [].
Proof.
  intros Hlen [s Hs]%getitem_is_Some. rewrite Hs. f_equal.
  apply nil_length_inv. by rewrite (getitem_length _ _ _ Hs).
Qed.

Lemma keyed_dimension_without_rows df cols key :
  len df = 0 → Forall (λ c, c ∈ columns df) cols → key ∈ cols →
  (sel ← getitem_list df cols;
   reset_index <$> drop_duplicates [key] sel)
  = Some {| columns := cols; rows := [] |}.
Proof.
  intros Hlen Hall Hkey.
  destruct (keyed_dimension_is_Some df cols key Hall Hkey) as [out Hout].
  rewrite Hout. f_equal.
  apply keyed_dimension_rows in Hout as (_ & Hcols & Hrows).
  apply frame_without_rows; [done|]. unfold len. rewrite Hrows.
  unfold len in Hlen. by rewrite (nil_length_inv _ Hlen).
Qed.

Lemma fact_table_is_Some df :
  Forall (λ c, c ∈ columns df) fact_sales_df_columns →
  is_Some (fact_table df).
Proof.
  intros Hall. unfold fact_table.
  rewrite bool_decide_eq_true_2 by (by apply missing_cols_nil).
  destruct (create_fact_sales_run (world_of df) df Hall)
    as (fact & t & out & -> & Hrun & _).
  simpl. rewrite Hrun. by eexists.
Qed.

(** X14.  An input file with its header and no record is not an error:
    loading prints no warning, and the run writes its four files, each
    with the columns of its table and no record. *)
Theorem empty_input_gives_four_empty_tables
    (parser : Series → Value → option Timestamp) (w : World)
    (df : DataFrame) :
  outcome (ensure_output_folder w) = inr tt →
  read_csv w (transformed_file_path w) = ReadOk df →
  len df = 0 →
  Forall (λ c, c ∈ columns df)
    (customer_cols ++ product_cols ++ fact_sales_df_columns) →
  trace (load parser w) = loading_lines w df ∧
  outcome (main parser w) = inr tt ∧
  written (trace (main parser w))
  = saved_as w "customers.csv"
      (Some {| columns := customer_cols; rows := [] |})
    ++ saved_as w "products.csv"
         (Some {| columns := product_cols; rows := [] |})
    ++ saved_as w "DimShipMode.csv"
         (Some {| columns := ["Ship Mode"]; rows := [] |})
    ++ saved_as w "FactSales.csv"
         (Some {| columns := fact_sales_sql_columns; rows := [] |}).
Proof.
  intros He Hread Hlen Hall.
  apply Forall_app in Hall as [Hc Hall].
  apply Forall_app in Hall as [Hp Hf].
  assert (∀ c, c ∈ fact_sales_df_columns → c ∈ columns df) as Hf'
    by (by apply Forall_forall).
  assert ("Order Date" ∈ columns df) as Hod
    by (by apply Hf', (bool_decide_unpack _)).
  assert ("Ship Date" ∈ columns df) as Hsd
    by (by apply Hf', (bool_decide_unpack _)).
  assert ("Ship Mode" ∈ columns df) as Hsm
    by (by apply Hf', (bool_decide_unpack _)).
  pose proof (load_run_both parser w df [] [] Hread
                (getitem_without_rows _ _ Hlen Hod)
                (getitem_without_rows _ _ Hlen Hsd)) as Hl.
  change (load parser w
          = (loading_lines w df ++ [], inr (coerce_dates parser df))) in Hl.
  rewrite app_nil_r in Hl.
  set (df' := coerce_dates parser df) in *.
  assert (len df' = 0) as Hlen' by (unfold df'; by rewrite len_coerce_dates).
  assert (columns df' = columns df) as Hcols'
    by apply columns_coerce_dates.
  split_and!.
  - by rewrite Hl.
  - by rewrite (main_run _ _ _ _ He Hl).
  - unfold main.
    rewrite (main_with_written (converting parser) w _ df' He Hl
               (written_loading_lines w df)).
    assert (customers_table df'
            = Some {| columns := customer_cols; rows := [] |}) as ->.
    { unfold customers_table, customers_df.
      rewrite (proj2 (forallb_has_column df' customer_cols))
        by (by rewrite Hcols').
      apply keyed_dimension_without_rows; [done|by rewrite Hcols'|].
      by apply (bool_decide_unpack _). }
    assert (products_table df'
            = Some {| columns := product_cols; rows := [] |}) as ->.
    { unfold products_table, products_df.
      rewrite (proj2 (forallb_has_column df' product_cols))
        by (by rewrite Hcols').
      apply keyed_dimension_without_rows; [done|by rewrite Hcols'|].
      by apply (bool_decide_unpack _). }
    assert (ship_modes_table df'
            = Some {| columns := ["Ship Mode"]; rows := [] |}) as ->.
    { unfold ship_modes_table, ship_modes_df, ship_mode_col.
      rewrite (proj2 (has_column_true df' "Ship Mode"))
        by (by rewrite Hcols').
      rewrite (getitem_without_rows df' "Ship Mode")
        by (done || by rewrite Hcols').
      reflexivity. }
    assert (fact_table df'
            = Some {| columns := fact_sales_sql_columns; rows := [] |}) as ->.
    { destruct (fact_table_is_Some df') as [out Hout];
        [by rewrite Hcols'|].
      rewrite Hout. f_equal.
      apply fact_table_Some in Hout as (_ & Hco & Hle & _).
      apply frame_without_rows; [done|]. by rewrite Hle. }
    done.
Qed.

Lemma empty_input_gives_four_empty_tables_witness :
  (written (trace (main iso_parser
                     (world_of {| columns := superstore_columns;
                                  rows := [] |})))).*2
  = [{| columns := customer_cols; rows := [] |};
     {| columns := product_cols; rows := [] |};
     {| columns := ["Ship Mode"]; rows := [] |};
     {| columns := fact_sales_sql_columns; rows := [] |}].
Proof.
  destruct (empty_input_gives_four_empty_tables iso_parser
              (world_of {| columns := superstore_columns; rows := [] |})
              {| columns := superstore_columns; rows := [] |}
              eq_refl eq_refl eq_refl) as (_ & _ & ->).
  - apply (bool_decide_unpack _). vm_compute. exact I.
  - reflexivity.
Defined.
(** ** A Ship Mode column of missing values *)

(** X15.  When every value of the Ship Mode column is missing, the
    ship-mode table is the header alone; the branch still has a table to
    save. *)
Theorem ship_modes_of_missing_values (df : DataFrame) (s : Series) :
  getitem df "Ship Mode" = Some s →
  Forall (λ v, isnull v = true) s →
  ship_modes_table df = Some {| columns := ["Ship Mode"]; rows := [] |}.
Proof.
  intros Hs Hnull. unfold ship_modes_table, ship_modes_df, ship_mode_col.
  rewrite (proj2 (has_column_true df "Ship Mode"))
    by (by eapply getitem_Some_elem_of).
  rewrite Hs. simpl. unfold reset_index. rewrite dropna_single_column.
  do 2 f_equal.
  destruct (filter _ (unique s)) as [|v l] eqn:Hf; [done|].
  assert (v ∈ filter (λ v, isnull v = false) (unique s)) as Hv
    by (rewrite Hf; left).
  apply list_elem_of_filter in Hv as [Hv Hin].
  apply (proj1 (elem_of_unique s v)) in Hin.
  rewrite Forall_forall in Hnull. rewrite (Hnull v Hin) in Hv. done.
Qed.

Lemma ship_modes_of_missing_values_witness :
  ship_modes_table no_ship_modes
  = Some {| columns := ["Ship Mode"]; rows := [] |}.
Proof.
  apply (ship_modes_of_missing_values no_ship_modes [NaN; NaN] eq_refl).
  by repeat constructor.
Defined.
